(** Verification of CalendarWeek (calendarweek.py): the week clock, the
    single-instance mechanism over the loopback socket, the hourly refresh of
    the tray icon, the startup-path check and the calendar window.

    The first part embeds the program; the second part states and proves its
    properties. *)

From stdpp Require Import gmap strings list pretty.
From Stdlib Require Import ZArith Lia Ascii Strings.Byte.
Local Open Scope Z_scope.

(** * The week clock *)

(** [datetime.date]: the proleptic Gregorian calendar, years 1 to 9999. The
    definitions below follow the reference implementation of the datetime
    module of the Python standard library, which [current_cw] calls. *)
Record date := mkdate { _year : Z; _month : Z; _day : Z }.

Definition MINYEAR : Z := 1.
Definition MAXYEAR : Z := 9999.

Definition _is_leap (year : Z) : bool :=
  (year mod 4 =? 0) && (negb (year mod 100 =? 0) || (year mod 400 =? 0)).

Definition _days_before_year (year : Z) : Z :=
  let y := year - 1 in y * 365 + y / 4 - y / 100 + y / 400.

Definition _DAYS_IN_MONTH : list Z :=
  [-1; 31; 28; 31; 30; 31; 30; 31; 31; 30; 31; 30; 31].

Fixpoint _accumulate (dbm : Z) (dims : list Z) : list Z :=
  match dims with
  | [] => []
  | dim :: rest => dbm :: _accumulate (dbm + dim) rest
  end.

Definition _DAYS_BEFORE_MONTH : list Z :=
  -1 :: _accumulate 0 (tail _DAYS_IN_MONTH).

Definition _days_in_month (year month : Z) : Z :=
  if (month =? 2) && _is_leap year then 29
  else nth (Z.to_nat month) _DAYS_IN_MONTH 0.

Definition _days_before_month (year month : Z) : Z :=
  nth (Z.to_nat month) _DAYS_BEFORE_MONTH 0
  + (if (2 <? month) && _is_leap year then 1 else 0).

Definition _ymd2ord (year month day : Z) : Z :=
  _days_before_year year + _days_before_month year month + day.

Definition _isoweek1monday (year : Z) : Z :=
  let THURSDAY := 3 in
  let firstday := _ymd2ord year 1 1 in
  let firstweekday := (firstday + 6) mod 7 in
  let week1monday := firstday - firstweekday in
  if THURSDAY <? firstweekday then week1monday + 7 else week1monday.

(** [date.isocalendar()]: (ISO year, ISO week, ISO weekday). *)
Definition isocalendar (d : date) : Z * Z * Z :=
  let year := d.(_year) in
  let week1monday := _isoweek1monday year in
  let today := _ymd2ord d.(_year) d.(_month) d.(_day) in
  let week := (today - week1monday) / 7 in
  let day := (today - week1monday) mod 7 in
  if week <? 0 then
    let year := year - 1 in
    let week1monday := _isoweek1monday year in
    let week := (today - week1monday) / 7 in
    let day := (today - week1monday) mod 7 in
    (year, week + 1, day + 1)
  else if 52 <=? week then
    if _isoweek1monday (year + 1) <=? today then (year + 1, 0 + 1, day + 1)
    else (year, week + 1, day + 1)
  else (year, week + 1, day + 1).

(** What the constructor of [datetime.date] accepts. *)
Definition valid_date (d : date) : bool :=
  (MINYEAR <=? d.(_year)) && (d.(_year) <=? MAXYEAR) &&
  (1 <=? d.(_month)) && (d.(_month) <=? 12) &&
  (1 <=? d.(_day)) && (d.(_day) <=? _days_in_month d.(_year) d.(_month)).

(** [current_cw()], with the value of [datetime.date.today()] as argument. *)
Definition current_cw (today : date) : Z := (isocalendar today).1.2.

(** ** ISO 8601 in the words of the specification *)

(** Ordinal 1 is Monday 1 January of year 1; Monday is 0. *)
Definition toordinal (d : date) : Z := _ymd2ord d.(_year) d.(_month) d.(_day).
Definition weekday (n : Z) : Z := (n + 6) mod 7.
Definition new_year (y : Z) : Z := _ymd2ord y 1 1.

(** The first Thursday of year [y]. *)
Definition first_thursday (y : Z) : Z :=
  new_year y + (3 - weekday (new_year y)) mod 7.

(** Weeks start on Monday; week 1 is the week of the first Thursday. *)
Definition week1_start (y : Z) : Z := first_thursday y - 3.

(** Day [n] lies in week [k] of the week-numbering year [Y]. *)
Definition in_iso_week (n Y k : Z) : Prop :=
  1 <= k /\ week1_start Y + 7 * (k - 1) <= n < week1_start Y + 7 * k
  /\ n < week1_start (Y + 1).

Definition iso_year (d : date) : Z := (isocalendar d).1.1.

(** * The tray icon *)

(** [f"{cw:02d}"] *)
Definition format_02d (cw : Z) : string :=
  if (0 <=? cw) && (cw <? 10) then "0" +:+ pretty cw else pretty cw.

(** The bitmap [create_icon] draws, by what is drawn on it: a white square of
    64 pixels with the text in the middle and a black border. *)
Record Image := mkImage { img_size : Z; img_text : string; img_border : Z }.

Definition create_icon (cw : Z) : Image :=
  let size := 64 in
  let text := format_02d cw in
  mkImage size text 2.

(** A [pystray.Icon]. Assigning [icon] or [title] makes the tray draw again;
    [updates] counts these assignments. *)
Record Icon := mkIcon {
  name : string;
  icon : Image;
  title : string;
  visible : bool;
  updates : nat
}.

Definition new_Icon (name : string) (icon : Image) (title : string) : Icon :=
  mkIcon name icon title false 0.

Definition assign_icon (v : Image) (i : Icon) : Icon :=
  mkIcon i.(name) v i.(title) i.(visible) (S i.(updates)).

Definition assign_title (v : string) (i : Icon) : Icon :=
  mkIcon i.(name) i.(icon) v i.(visible) (S i.(updates)).

(** * Sockets, processes and the single-instance mechanism *)

Definition pid := nat.
Definition sock := nat.
Definition conn := nat.
Definition addr : Type := string * Z.

Definition bytes := list byte.

Global Instance byte_eq_dec : EqDecision byte := Byte.byte_eq_dec.

Inductive errno :=
  EADDRINUSE | ECONNREFUSED | ETIMEDOUT | EINVAL | ENOTCONN | EIO | EACCES | ENOENT.

Inductive exn :=
| OSError (e : errno)
| AttributeError
| IndexError
| TypeError
| UnicodeDecodeError
| SystemExit (code : Z).

(** What a call does: it returns, it raises, or it waits (a blocking call with
    nothing to hand back yet). *)
Inductive outcome (A : Type) : Type :=
| Ret (a : A)
| Raise (e : exn)
| Blocked.
Arguments Ret {A} a.
Arguments Raise {A} e.
Arguments Blocked {A}.

Inductive side := client_side | server_side.

(** [threading.Thread(target=..., daemon=True).start()]: the callables the
    program hands to threads. *)
Inductive target :=
| T_show_calendar
| T_show_path_warning
| T_listen_for_new_instances
| T_refresh_loop.

Inductive hook := H_release_single_instance_lock.

(** A user session: the loopback sockets of the machine and the Python
    processes started from the application. Sockets and connections are named
    by numbers handed out in order. A socket keeps what it holds (its address,
    its queue, its end of a connection) until the system lets go of it: when
    [close()] is called on it and no thread waits in [accept()] on it, or
    when the process ends. What the runtime does with a socket object that
    nothing refers to any more is not part of this state. *)
Record World := mkWorld {
  today : date;                        (* datetime.date.today() *)
  faults : list bool;                  (* for the socket calls to come, in order: whether
                                          the call fails for a reason outside this state *)
  next_sock : sock;
  bound : gmap addr sock;              (* address -> the socket bound to it *)
  backlog : gmap sock (Z * list conn); (* listening sockets: limit, connections waiting for accept *)
  endpoint : gmap sock (side * conn);  (* connected sockets *)
  accepting : gmap sock pid;           (* the accept() calls that wait: the socket, and
                                          the process of the waiting thread *)
  next_conn : conn;
  wire : gmap conn (bytes * bool);     (* bytes sent and not yet received; sender closed *)
  LOCK_SOCKET : gmap pid sock;         (* the global of each process; absent is None *)
  threads : gmap pid (list target);    (* threads started, in order *)
  stdout : gmap pid (list string);
  atexit : gmap pid (list hook);
  tray : gmap pid Icon                 (* the pystray Icon of each process *)
}.

Definition set_today (v : date) (w : World) : World :=
  mkWorld v w.(faults) w.(next_sock) w.(bound) w.(backlog) w.(endpoint)
    w.(accepting) w.(next_conn) w.(wire) w.(LOCK_SOCKET) w.(threads) w.(stdout) w.(atexit) w.(tray).
Definition set_faults (v : list bool) (w : World) : World :=
  mkWorld w.(today) v w.(next_sock) w.(bound) w.(backlog) w.(endpoint)
    w.(accepting) w.(next_conn) w.(wire) w.(LOCK_SOCKET) w.(threads) w.(stdout) w.(atexit) w.(tray).
Definition set_next_sock (v : sock) (w : World) : World :=
  mkWorld w.(today) w.(faults) v w.(bound) w.(backlog) w.(endpoint)
    w.(accepting) w.(next_conn) w.(wire) w.(LOCK_SOCKET) w.(threads) w.(stdout) w.(atexit) w.(tray).
Definition set_bound (v : gmap addr sock) (w : World) : World :=
  mkWorld w.(today) w.(faults) w.(next_sock) v w.(backlog) w.(endpoint)
    w.(accepting) w.(next_conn) w.(wire) w.(LOCK_SOCKET) w.(threads) w.(stdout) w.(atexit) w.(tray).
Definition set_backlog (v : gmap sock (Z * list conn)) (w : World) : World :=
  mkWorld w.(today) w.(faults) w.(next_sock) w.(bound) v w.(endpoint)
    w.(accepting) w.(next_conn) w.(wire) w.(LOCK_SOCKET) w.(threads) w.(stdout) w.(atexit) w.(tray).
Definition set_endpoint (v : gmap sock (side * conn)) (w : World) : World :=
  mkWorld w.(today) w.(faults) w.(next_sock) w.(bound) w.(backlog) v
    w.(accepting) w.(next_conn) w.(wire) w.(LOCK_SOCKET) w.(threads) w.(stdout) w.(atexit) w.(tray).
Definition set_accepting (v : gmap sock pid) (w : World) : World :=
  mkWorld w.(today) w.(faults) w.(next_sock) w.(bound) w.(backlog) w.(endpoint)
    v w.(next_conn) w.(wire) w.(LOCK_SOCKET) w.(threads) w.(stdout) w.(atexit) w.(tray).
Definition set_next_conn (v : conn) (w : World) : World :=
  mkWorld w.(today) w.(faults) w.(next_sock) w.(bound) w.(backlog) w.(endpoint)
    w.(accepting) v w.(wire) w.(LOCK_SOCKET) w.(threads) w.(stdout) w.(atexit) w.(tray).
Definition set_wire (v : gmap conn (bytes * bool)) (w : World) : World :=
  mkWorld w.(today) w.(faults) w.(next_sock) w.(bound) w.(backlog) w.(endpoint)
    w.(accepting) w.(next_conn) v w.(LOCK_SOCKET) w.(threads) w.(stdout) w.(atexit) w.(tray).
Definition set_LOCK_SOCKET (v : gmap pid sock) (w : World) : World :=
  mkWorld w.(today) w.(faults) w.(next_sock) w.(bound) w.(backlog) w.(endpoint)
    w.(accepting) w.(next_conn) w.(wire) v w.(threads) w.(stdout) w.(atexit) w.(tray).
Definition set_threads (v : gmap pid (list target)) (w : World) : World :=
  mkWorld w.(today) w.(faults) w.(next_sock) w.(bound) w.(backlog) w.(endpoint)
    w.(accepting) w.(next_conn) w.(wire) w.(LOCK_SOCKET) v w.(stdout) w.(atexit) w.(tray).
Definition set_stdout (v : gmap pid (list string)) (w : World) : World :=
  mkWorld w.(today) w.(faults) w.(next_sock) w.(bound) w.(backlog) w.(endpoint)
    w.(accepting) w.(next_conn) w.(wire) w.(LOCK_SOCKET) w.(threads) v w.(atexit) w.(tray).
Definition set_atexit (v : gmap pid (list hook)) (w : World) : World :=
  mkWorld w.(today) w.(faults) w.(next_sock) w.(bound) w.(backlog) w.(endpoint)
    w.(accepting) w.(next_conn) w.(wire) w.(LOCK_SOCKET) w.(threads) w.(stdout) v w.(tray).
Definition set_tray (v : gmap pid Icon) (w : World) : World :=
  mkWorld w.(today) w.(faults) w.(next_sock) w.(bound) w.(backlog) w.(endpoint)
    w.(accepting) w.(next_conn) w.(wire) w.(LOCK_SOCKET) w.(threads) w.(stdout) w.(atexit) v.

(** ** The monad of the program's calls: state, exceptions and waiting *)

Definition M (A : Type) : Type := World -> outcome A * World.

Global Instance M_ret : MRet M := fun A (a : A) (w : World) => (Ret a, w).

Global Instance M_bind : MBind M := fun A B (f : A -> M B) (m : M A) (w : World) =>
  match m w with
  | (Ret a, w') => f a w'
  | (Raise e, w') => (Raise e, w')
  | (Blocked, w') => (Blocked, w')
  end.

Definition raise {A} (e : exn) : M A := fun w => (Raise e, w).
Definition block {A} : M A := fun w => (Blocked, w).
Definition gets {A} (f : World -> A) : M A := fun w => (Ret (f w), w).
Definition modify (f : World -> World) : M unit := fun w => (Ret tt, f w).

(** [try: body except <clause>: handler]; the clause says which exceptions it
    takes. *)
Definition try_except {A} (body : M A) (clause : exn -> bool) (handler : M A) : M A :=
  fun w =>
    match body w with
    | (Raise e, w') => if clause e then handler w' else (Raise e, w')
    | r => r
    end.

(** A bare [except:]. *)
Definition bare (e : exn) : bool := true.

(** [except socket.error:], an alias of OSError. *)
Definition socket_error (e : exn) : bool :=
  match e with OSError _ => true | _ => false end.

(** ** The socket calls *)

(** A socket call that goes to the network can fail for a reason outside this
    state (reset, interrupt, firewall): the next entry of [faults] says whether
    it does. *)
Definition os_call : M unit := fun w =>
  match w.(faults) with
  | true :: rest => (Raise (OSError EIO), set_faults rest w)
  | false :: rest => (Ret tt, set_faults rest w)
  | [] => (Ret tt, w)
  end.

(** [socket.socket(socket.AF_INET, socket.SOCK_STREAM)]: a new socket, with
    no call waiting on it. *)
Definition socket_socket : M sock := fun w =>
  (Ret w.(next_sock),
   set_accepting (delete w.(next_sock) w.(accepting))
     (set_next_sock (S w.(next_sock)) w)).

(** [s.bind(a)]: exclusive, no SO_REUSEADDR is set anywhere. *)
Definition sock_bind (s : sock) (a : addr) : M unit :=
  os_call;;
  held ← gets (fun w => w.(bound) !! a);
  match held with
  | Some _ => raise (OSError EADDRINUSE)
  | None => modify (fun w => set_bound (<[a := s]> w.(bound)) w)
  end.

(** [s.listen(n)] *)
Definition sock_listen (s : sock) (n : Z) : M unit :=
  os_call;;
  modify (fun w => set_backlog (<[s := (n, [])]> w.(backlog)) w).

(** The state once the system has let go of socket [s]: the socket gives up
    its address, its queue and its end of a connection, and nothing waits on
    it any more. *)
Definition freed (s : sock) (w : World) : World :=
  let w1 := set_bound (filter (fun kv => kv.2 ≠ s) w.(bound)) w in
  let w2 := set_backlog (delete s w1.(backlog)) w1 in
  let w3 :=
    match w2.(endpoint) !! s with
    | Some (client_side, c) =>
        set_wire (alter (fun b => (b.1, true)) c w2.(wire)) w2
    | _ => w2
    end in
  let w4 := set_endpoint (delete s w3.(endpoint)) w3 in
  set_accepting (delete s w4.(accepting)) w4.

Global Arguments freed : simpl never.

(** The state after [s.close()]. While a thread waits in [accept()] on the
    socket, the call that waits keeps the socket open: [close()] takes the
    descriptor away, and the socket keeps its address and goes on queueing
    connections. This is what Linux does; a system that ends the waiting call
    at that point instead is not modelled, and neither is how the waiting call
    goes on when a connection arrives later. Otherwise the system lets go of
    the socket at once. *)
Definition closed (s : sock) (w : World) : World :=
  match w.(accepting) !! s with
  | Some _ => w
  | None => freed s w
  end.

Global Arguments closed : simpl never.

(** [s.close()] *)
Definition sock_close (s : sock) : M unit := modify (closed s).

(** The state after [s] has connected to the listening socket [l], whose
    queue was [q]. *)
Definition connected (s l : sock) (n : Z) (q : list conn) (w : World) : World :=
  let c := w.(next_conn) in
  let w1 := set_next_conn (S c) w in
  let w2 := set_wire (<[c := ([], false)]> w1.(wire)) w1 in
  let w3 := set_backlog (<[l := (n, q ++ [c])]> w2.(backlog)) w2 in
  set_endpoint (<[s := (client_side, c)]> w3.(endpoint)) w3.

Global Arguments connected : simpl never.

(** [s.connect(a)]: refused when nobody listens on [a]; with the queue of the
    listener full (it takes one connection more than the argument of
    [listen]) the attempt times out. *)
Definition sock_connect (s : sock) (a : addr) : M unit :=
  os_call;;
  l ← gets (fun w => w.(bound) !! a);
  match l with
  | None => raise (OSError ECONNREFUSED)
  | Some l =>
      q ← gets (fun w => w.(backlog) !! l);
      match q with
      | None => raise (OSError ECONNREFUSED)
      | Some (n, q) =>
          if Z.of_nat (length q) <=? n then modify (connected s l n q)
          else raise (OSError ETIMEDOUT)
      end
  end.

(** [s.send(data)] *)
Definition sock_send (s : sock) (data : bytes) : M Z :=
  os_call;;
  e ← gets (fun w => w.(endpoint) !! s);
  match e with
  | Some (client_side, c) =>
      modify (fun w => set_wire (alter (fun b => (b.1 ++ data, b.2)) c w.(wire)) w);;
      mret (Z.of_nat (length data))
  | _ => raise (OSError ENOTCONN)
  end.

(** [s.accept()], called by a thread of process [p]: waits while the queue is
    empty. The program has one thread that accepts on a socket, so the call
    is the one that waited on it, if one did, going on. *)
Definition sock_accept (p : pid) (s : sock) : M sock :=
  modify (fun w => set_accepting (delete s w.(accepting)) w);;
  os_call;;
  q ← gets (fun w => w.(backlog) !! s);
  match q with
  | None => raise (OSError EINVAL)
  | Some (n, []) =>
      modify (fun w => set_accepting (<[s := p]> w.(accepting)) w);;
      block
  | Some (n, c :: rest) =>
      modify (fun w => set_backlog (<[s := (n, rest)]> w.(backlog)) w);;
      s' ← socket_socket;
      modify (fun w => set_endpoint (<[s' := (server_side, c)]> w.(endpoint)) w);;
      mret s'
  end.

(** [s.recv(bufsize)]: at most [bufsize] of the bytes that arrived; the empty
    string at end of stream; waits when nothing arrived yet. *)
Definition sock_recv (s : sock) (bufsize : nat) : M bytes :=
  os_call;;
  e ← gets (fun w => w.(endpoint) !! s);
  match e with
  | Some (server_side, c) =>
      b ← gets (fun w => w.(wire) !! c);
      match b with
      | None => raise (OSError ENOTCONN)
      | Some ([], true) => mret []
      | Some ([], false) => block
      | Some (data, eof) =>
          modify (fun w => set_wire (<[c := (drop bufsize data, eof)]> w.(wire)) w);;
          mret (take bufsize data)
      end
  | _ => raise (OSError ENOTCONN)
  end.

(** ** Python-level helpers *)

(** Reading the global [LOCK_SOCKET]. *)
Definition get_LOCK_SOCKET (p : pid) : M (option sock) :=
  gets (fun w => w.(LOCK_SOCKET) !! p).

(** [LOCK_SOCKET = v] *)
Definition assign_LOCK_SOCKET (p : pid) (v : option sock) : M unit :=
  modify (fun w =>
    set_LOCK_SOCKET
      (match v with
       | Some s => <[p := s]> w.(LOCK_SOCKET)
       | None => delete p w.(LOCK_SOCKET)
       end) w).

(** [LOCK_SOCKET.<method>]: the attribute lookup fails on None. *)
Definition LOCK_SOCKET_object (p : pid) : M sock :=
  o ← get_LOCK_SOCKET p;
  match o with
  | Some s => mret s
  | None => raise AttributeError
  end.

(** [threading.Thread(target=t, daemon=True).start()] *)
Definition Thread_start (p : pid) (t : target) : M unit :=
  modify (fun w => set_threads (<[p := default [] (w.(threads) !! p) ++ [t]]> w.(threads)) w).

Definition print (p : pid) (line : string) : M unit :=
  modify (fun w => set_stdout (<[p := default [] (w.(stdout) !! p) ++ [line]]> w.(stdout)) w).

(** [sys.exit(code)] raises SystemExit. *)
Definition sys_exit {A} (code : Z) : M A := raise (SystemExit code).

Definition atexit_register (p : pid) (h : hook) : M unit :=
  modify (fun w => set_atexit (<[p := default [] (w.(atexit) !! p) ++ [h]]> w.(atexit)) w).

Inductive loop_ctl := Continue | Break.

(** [while True: body], where the body says whether it reached a [break].
    [None]: the fuel ran out before the loop stopped or had to wait. *)
Fixpoint while_True (fuel : nat) (body : M loop_ctl) (w : World)
  : option (outcome unit * World) :=
  match fuel with
  | O => None
  | S fuel' =>
      match body w with
      | (Ret Continue, w') => while_True fuel' body w'
      | (Ret Break, w') => Some (Ret tt, w')
      | (Raise e, w') => Some (Raise e, w')
      | (Blocked, w') => Some (Blocked, w')
      end
  end.

(** ** The single-instance mechanism *)

Definition LOCK_PORT : Z := 47200.
Definition LOCK_ADDR : addr := ("127.0.0.1", LOCK_PORT).
Definition SHOW : bytes := ["S"; "H"; "O"; "W"]%byte.

Definition acquire_single_instance_lock (p : pid) : M bool :=
  s ← socket_socket;
  assign_LOCK_SOCKET p (Some s);;
  try_except
    (l ← LOCK_SOCKET_object p;
     sock_bind l LOCK_ADDR;;
     l ← LOCK_SOCKET_object p;
     sock_listen l 1;;
     mret true)
    socket_error
    (l ← LOCK_SOCKET_object p;
     sock_close l;;
     assign_LOCK_SOCKET p None;;
     mret false).

Definition release_single_instance_lock (p : pid) : M unit :=
  o ← get_LOCK_SOCKET p;
  match o with
  | Some _ =>
      try_except (l ← LOCK_SOCKET_object p; sock_close l) bare (mret tt);;
      assign_LOCK_SOCKET p None
  | None => mret tt
  end.

Definition notify_existing_instance : M unit :=
  try_except
    (client ← socket_socket;
     sock_connect client LOCK_ADDR;;
     sock_send client SHOW;;
     sock_close client)
    bare
    (mret tt).

(** The [try] block inside the [while True] of [listen_for_new_instances]. *)
Definition listen_body (p : pid) : M loop_ctl :=
  o ← get_LOCK_SOCKET p;
  match o with
  | None => mret Break
  | Some _ =>
      l ← LOCK_SOCKET_object p;
      c ← sock_accept p l;
      data ← sock_recv c 1024;
      sock_close c;;
      (if bool_decide (data = SHOW) then Thread_start p T_show_calendar
       else mret tt);;
      mret Continue
  end.

(** One turn of the loop: the [try] with its bare [except: break]. *)
Definition listen_iteration (p : pid) : M loop_ctl :=
  try_except (listen_body p) bare (mret Break).

Definition listen_for_new_instances (fuel : nat) (p : pid)
  : World -> option (outcome unit * World) :=
  while_True fuel (listen_iteration p).

Definition start_auto_refresh (p : pid) (interval : Z) : M unit :=
  Thread_start p T_refresh_loop.

(** [icon.run()]: the tray's event loop keeps the main thread. *)
Definition icon_run (p : pid) : M unit := block.

(** [run()]. The menu handed to the Icon is left out: its entries only name
    callbacks ([open_calendar], [toggle_startup], [icon.stop]). *)
Definition run (p : pid) : M unit :=
  ok ← acquire_single_instance_lock p;
  (if negb ok then
     print p "CalendarWeek is already running.";;
     notify_existing_instance;;
     sys_exit 0
   else mret tt);;
  atexit_register p H_release_single_instance_lock;;
  Thread_start p T_show_path_warning;;
  cw ← gets (fun w => current_cw w.(today));
  modify (fun w => set_tray (<[p := new_Icon "CW" (create_icon cw) ("Week " +:+ format_02d cw)]> w.(tray)) w);;
  Thread_start p T_listen_for_new_instances;;
  start_auto_refresh p 3600;;
  icon_run p.

(** The exit status of a process whose main function ended this way. *)
Definition exit_status (o : outcome unit) : option Z :=
  match o with
  | Ret _ => Some 0
  | Raise (SystemExit code) => Some code
  | Raise _ => Some 1
  | Blocked => None
  end.

(** ** The hourly refresh *)

(** [time.sleep(interval)]: the thread goes on when the clock shows [wake]. *)
Definition time_sleep (interval : Z) (wake : date) : M unit :=
  modify (set_today wake).

Definition icon_visible (p : pid) : M bool :=
  gets (fun w => default false (visible <$> w.(tray) !! p)).

(** The body of the [while] of [refresh_loop], after the sleep; the result is
    the value [last_cw] has afterwards. *)
Definition refresh_tick (p : pid) (last_cw : Z) : M Z :=
  new_cw ← gets (fun w => current_cw w.(today));
  if negb (new_cw =? last_cw) then
    modify (fun w => set_tray (alter (assign_icon (create_icon new_cw)) p w.(tray)) w);;
    modify (fun w => set_tray (alter (assign_title ("Week " +:+ format_02d new_cw)) p w.(tray)) w);;
    mret new_cw
  else mret last_cw.

Fixpoint refresh_while (interval : Z) (wakes : list date) (p : pid) (last_cw : Z)
  : M unit :=
  v ← icon_visible p;
  if (v : bool) then
    match wakes with
    | [] => block
    | d :: rest =>
        time_sleep interval d;;
        last_cw ← refresh_tick p last_cw;
        refresh_while interval rest p last_cw
    end
  else mret tt.

(** [refresh_loop], the target of the thread [start_auto_refresh] starts;
    [wakes] are the dates the clock shows at the ends of the sleeps. *)
Definition refresh_loop (interval : Z) (wakes : list date) (p : pid) : M unit :=
  last_cw ← gets (fun w => current_cw w.(today));
  refresh_while interval wakes p last_cw.

(** * Start at login *)

Definition APP_NAME : string := "CalendarWeek".

(** ** The string methods the startup code uses *)

Definition LF : ascii := ascii_of_nat 10.
Definition nl : string := String LF EmptyString.

(** [s.startswith(p)] *)
Fixpoint startswith (p s : string) : bool :=
  match p, s with
  | EmptyString, _ => true
  | String a p', String b s' => if Ascii.eqb a b then startswith p' s' else false
  | String _ _, EmptyString => false
  end.

(** [s[n:]] *)
Fixpoint string_drop (n : nat) (s : string) : string :=
  match n, s with
  | O, _ => s
  | S n', String _ s' => string_drop n' s'
  | S _, EmptyString => EmptyString
  end.

(** The lines a text file yields when iterated: each keeps its newline. *)
Fixpoint lines_go (cur : string) (s : string) : list string :=
  match s with
  | EmptyString => if String.eqb cur EmptyString then [] else [String.rev cur]
  | String c s' =>
      if Ascii.eqb c LF then String.rev (String c cur) :: lines_go EmptyString s'
      else lines_go (String c cur) s'
  end.
Definition readlines (s : string) : list string := lines_go EmptyString s.

(** [s.split("=", 1)[1]]: what follows the first "="; an IndexError without
    one. *)
Fixpoint after_first_equals (s : string) : option string :=
  match s with
  | EmptyString => None
  | String c s' => if Ascii.eqb c "="%char then Some s' else after_first_equals s'
  end.

(** [str.isspace] on code points below 256. *)
Definition isspace (c : ascii) : bool :=
  let n := nat_of_ascii c in
  ((9 <=? n) && (n <=? 13) || (28 <=? n) && (n <=? 32) || (n =? 133) || (n =? 160))%nat.

Fixpoint lstrip (s : string) : string :=
  match s with
  | String c s' => if isspace c then lstrip s' else s
  | EmptyString => EmptyString
  end.

(** [s.strip()] *)
Definition strip (s : string) : string :=
  String.rev (lstrip (String.rev (lstrip s))).

(** The longest prefix without "<", and what follows it. *)
Fixpoint span_not_lt (s : string) : string * string :=
  match s with
  | EmptyString => (EmptyString, EmptyString)
  | String c s' =>
      if Ascii.eqb c "<"%char then (EmptyString, s)
      else let (run, rest) := span_not_lt s' in (String c run, rest)
  end.

(** The pattern [<string>(/[^<]+)</string>] tried at the start of [s]: the
    group, if it matches. *)
Definition match_program_string (s : string) : option string :=
  if startswith "<string>/" s then
    let (run, rest) := span_not_lt (string_drop 9 s) in
    if negb (String.eqb run EmptyString) && startswith "</string>" rest
    then Some ("/" +:+ run) else None
  else None.

(** [re.search(r'<string>(/[^<]+)</string>', s)], then [match.group(1)]. *)
Fixpoint re_search_program_string (s : string) : option string :=
  match match_program_string s with
  | Some g => Some g
  | None =>
      match s with
      | EmptyString => None
      | String _ s' => re_search_program_string s'
      end
  end.

(** [posixpath.join(a, b)] *)
Definition path_join (a b : string) : string :=
  if startswith "/" b then b
  else if String.eqb a EmptyString || startswith "/" (String.rev a) then a +:+ b
  else a +:+ "/" +:+ b.

(** ** What the startup code finds on the machine *)

(** A file, as [open(path, 'r')] and reading find it. A text file whose
    bytes do not all decode hands over the text of the blocks that were read
    before the block with those bytes ([before]; empty for a file shorter than
    one block of the reader), and then raises UnicodeDecodeError. *)
Inductive file :=
| NoFile
| Unreadable
| TextFile (text : string)
| Undecodable (before : string).

(** The values [winreg.QueryValueEx] hands back, by the type of the registry
    value: a str for REG_SZ and REG_EXPAND_SZ, bytes for REG_BINARY and the
    types it does not know, an int for REG_DWORD and REG_QWORD, a list of str
    for REG_MULTI_SZ. *)
Inductive pyobj :=
| py_str (s : string)
| py_bytes (b : bytes)
| py_int (n : Z)
| py_list (l : list string).

(** The value is None for a binary value without data. *)
Inductive reg_query := RegValue (value : option pyobj) | RegFileNotFound | RegFailure.

Record Platform := mkPlatform {
  SYSTEM : string;                           (* platform.system() *)
  sys_frozen : bool;                         (* getattr(sys, 'frozen', False) *)
  sys_executable : string;
  abspath_file : string;                     (* os.path.abspath(__file__) *)
  winreg_OpenKey : bool;                     (* importing winreg and opening the Run key work *)
  winreg_QueryValueEx : string -> reg_query; (* the value of a name under the Run key *)
  fs : string -> file;
  expanduser : string -> string;
  normpath_bytes_error : bytes -> option exn (* os.path.normpath of a bytes path: the
                                                exception it ends with, if any (newer
                                                versions decode the bytes first) *)
}.

Definition path_exists (pl : Platform) (path : string) : bool :=
  match pl.(fs) path with NoFile => false | _ => true end.

Definition get_exe_path (pl : Platform) : string :=
  if pl.(sys_frozen) then pl.(sys_executable) else pl.(abspath_file).

Definition _get_startup_path_linux (pl : Platform) : string :=
  let autostart_dir := pl.(expanduser) "~/.config/autostart" in
  path_join autostart_dir (APP_NAME +:+ ".desktop").

Definition _get_startup_path_macos (pl : Platform) : string :=
  let launch_agents := pl.(expanduser) "~/Library/LaunchAgents" in
  path_join launch_agents ("com." +:+ APP_NAME +:+ ".plist").

Definition is_in_startup (pl : Platform) : bool :=
  if String.eqb pl.(SYSTEM) "Windows" then
    if pl.(winreg_OpenKey) then
      match pl.(winreg_QueryValueEx) APP_NAME with
      | RegValue _ => true
      | RegFileNotFound => false
      | RegFailure => false
      end
    else false
  else if String.eqb pl.(SYSTEM) "Linux" then
    path_exists pl (_get_startup_path_linux pl)
  else if String.eqb pl.(SYSTEM) "Darwin" then
    path_exists pl (_get_startup_path_macos pl)
  else false.

(** [open(path, 'r')] and [f.read()], the whole text. *)
Definition open_read (pl : Platform) (path : string) : outcome string :=
  match pl.(fs) path with
  | TextFile text => Ret text
  | Undecodable _ => Raise UnicodeDecodeError
  | Unreadable => Raise (OSError EACCES)
  | NoFile => Raise (OSError ENOENT)
  end.

(** The lines of a text that end with their newline: what the iteration hands
    over before it has to read on. *)
Definition complete_lines (s : string) : list string :=
  filter (fun line => startswith nl (String.rev line) = true) (readlines s).

(** [open(path, 'r')] and [for line in f]: the lines the loop is handed, and
    whether reading on after them raises UnicodeDecodeError. *)
Definition open_lines (pl : Platform) (path : string) : outcome (list string * bool) :=
  match pl.(fs) path with
  | TextFile text => Ret (readlines text, false)
  | Undecodable before => Ret (complete_lines before, true)
  | Unreadable => Raise (OSError EACCES)
  | NoFile => Raise (OSError ENOENT)
  end.

(** The [for line in f] of the Linux branch; [bad]: reading on after the
    last of [lines] fails. *)
Fixpoint first_exec_line (lines : list string) (bad : bool) : outcome (option pyobj) :=
  match lines with
  | [] => if bad then Raise UnicodeDecodeError else Ret None
  | line :: rest =>
      if startswith "Exec=" line then
        match after_first_equals line with
        | Some value => Ret (Some (py_str (strip value)))
        | None => Raise IndexError
        end
      else first_exec_line rest bad
  end.

(** What comes back is a str or None, except on Windows, where it is whatever
    value the registry holds under the name. *)
Definition get_registered_path (pl : Platform) : outcome (option pyobj) :=
  if String.eqb pl.(SYSTEM) "Windows" then
    if pl.(winreg_OpenKey) then
      match pl.(winreg_QueryValueEx) APP_NAME with
      | RegValue value => Ret value
      | RegFileNotFound => Ret None
      | RegFailure => Ret None
      end
    else Ret None
  else if String.eqb pl.(SYSTEM) "Linux" then
    let desktop_file := _get_startup_path_linux pl in
    if path_exists pl desktop_file then
      match open_lines pl desktop_file with
      | Ret (lines, bad) => first_exec_line lines bad
      | Raise e => Raise e
      | Blocked => Blocked
      end
    else Ret None
  else if String.eqb pl.(SYSTEM) "Darwin" then
    let plist_file := _get_startup_path_macos pl in
    if path_exists pl plist_file then
      match open_read pl plist_file with
      | Ret content => Ret (py_str <$> re_search_program_string content)
      | Raise e => Raise e
      | Blocked => Blocked
      end
    else Ret None
  else Ret None.

(** Truth value of what [get_registered_path] returns. *)
Definition truthy (v : option pyobj) : bool :=
  match v with
  | Some (py_str s) => negb (String.eqb s EmptyString)
  | Some (py_bytes b) => negb (bool_decide (b = []))
  | Some (py_int n) => negb (n =? 0)
  | Some (py_list l) => negb (bool_decide (l = []))
  | None => false
  end.

(** [repr] of a bytes object, which is what [f"{registered}"] puts in the
    message for one. *)
Definition hexdigit (n : N) : ascii :=
  nth (N.to_nat n)
    ["0"; "1"; "2"; "3"; "4"; "5"; "6"; "7"; "8"; "9"; "a"; "b"; "c"; "d"; "e"; "f"]%char
    "0"%char.

Definition repr_byte (quote : ascii) (c : byte) : string :=
  let a := ascii_of_byte c in
  let n := Byte.to_N c in
  if Ascii.eqb a quote || Ascii.eqb a "\"%char then String "\" (String a EmptyString)
  else if (n =? 9)%N then "\t"
  else if (n =? 10)%N then "\n"
  else if (n =? 13)%N then "\r"
  else if (n <? 32)%N || (127 <=? n)%N
  then String "\" (String "x" (String (hexdigit (n / 16)) (String (hexdigit (n mod 16))
         EmptyString)))
  else String a EmptyString.

Definition bytes_repr (b : bytes) : string :=
  let single := ascii_of_nat 39 in
  let double := ascii_of_nat 34 in
  let has q := existsb (fun c => Ascii.eqb (ascii_of_byte c) q) b in
  let quote := if has single && negb (has double) then double else single in
  String "b" (String quote (String.concat EmptyString (repr_byte quote <$> b)
                            +:+ String quote EmptyString)).

Definition moved_message (registered current : string) : string :=
  "The application has been moved." +:+ nl +:+ nl +:+
  "Registered path:" +:+ nl +:+ registered +:+ nl +:+ nl +:+
  "Current path:" +:+ nl +:+ current.

Section StartupPath.

(** [os.path.normpath] of the platform. *)
Variable normpath : string -> string.

(** In [registered and os.path.normpath(registered) != os.path.normpath(current)]
    the normpath of an int or a list raises TypeError; the normpath of bytes is
    bytes and never equal to a str. *)
Definition check_startup_path (pl : Platform) : outcome (bool * option string) :=
  if negb (is_in_startup pl) then Ret (true, None)
  else
    match get_registered_path pl with
    | Ret registered =>
        let current := get_exe_path pl in
        if truthy registered then
          match registered with
          | Some (py_str r) =>
              if negb (String.eqb (normpath r) (normpath current))
              then Ret (false, Some (moved_message r current))
              else Ret (true, None)
          | Some (py_bytes b) =>
              match pl.(normpath_bytes_error) b with
              | None => Ret (false, Some (moved_message (bytes_repr b) current))
              | Some e => Raise e
              end
          | Some (py_int _) | Some (py_list _) => Raise TypeError
          | None => Ret (true, None)
          end
        else Ret (true, None)
    | Raise e => Raise e
    | Blocked => Blocked
    end.

End StartupPath.

(** An installation on Linux that was moved after it was registered: the
    desktop file still names the old place. *)
Definition moved_install : Platform :=
  mkPlatform "Linux" false EmptyString "/new/calendarweek.py" false
    (fun _ => RegFileNotFound)
    (fun path =>
       if String.eqb path "/home/u/.config/autostart/CalendarWeek.desktop"
       then TextFile ("[Desktop Entry]" +:+ nl +:+ "Exec=/old/calendarweek.py" +:+ nl)
       else NoFile)
    (fun path => "/home/u" +:+ string_drop 1 path)
    (fun _ => None).

(** * The calendar window *)

Module CalendarWindow.

Definition tid := nat.
Definition root := nat.

(** Where a thread running [show_calendar] stands. *)
Inductive pc :=
| at_check             (* before the first [with window_lock] *)
| in_check             (* holds the lock, before the test of the handle *)
| at_create            (* lock given back, before [tk.Tk()] *)
| at_store (r : root)  (* root built, before the second [with window_lock] *)
| in_store (r : root)  (* holds the lock, before the assignment *)
| in_mainloop (r : root)
| at_close (r : root)  (* [on_close] called, before its [with window_lock] *)
| in_close (r : root)  (* holds the lock, before clearing the handle *)
| at_destroy (r : root) (* lock given back, before [root.destroy()] *)
| returned.

Record Gui := mkGui {
  calendar_window : option root;
  window_lock : option tid;   (* the thread that holds the lock *)
  alive : list root;          (* Tk roots created and not destroyed *)
  next_root : root;
  lifted : list root;         (* windows that were open already and were brought to
                                 the front by a request, in order *)
  pcs : list pc               (* the threads started on show_calendar *)
}.

Definition init : Gui := mkGui None None [] 0%nat [] [].

Definition goto (t : tid) (k : pc) (g : Gui) : Gui :=
  mkGui g.(calendar_window) g.(window_lock) g.(alive) g.(next_root) g.(lifted)
    (<[t := k]> g.(pcs)).

Definition lock (t : tid) (g : Gui) : option Gui :=
  match g.(window_lock) with
  | None => Some (mkGui g.(calendar_window) (Some t) g.(alive) g.(next_root)
                    g.(lifted) g.(pcs))
  | Some _ => None
  end.

Definition unlock (g : Gui) : Gui :=
  mkGui g.(calendar_window) None g.(alive) g.(next_root) g.(lifted) g.(pcs).

Definition assign_calendar_window (v : option root) (g : Gui) : Gui :=
  mkGui v g.(window_lock) g.(alive) g.(next_root) g.(lifted) g.(pcs).

(** [tk.Tk()] *)
Definition Tk (g : Gui) : root * Gui :=
  (g.(next_root),
   mkGui g.(calendar_window) g.(window_lock) (g.(alive) ++ [g.(next_root)])
     (S g.(next_root)) g.(lifted) g.(pcs)).

(** [root.destroy()] *)
Definition destroy (r : root) (g : Gui) : Gui :=
  mkGui g.(calendar_window) g.(window_lock)
    (filter (fun r' => r' ≠ r) g.(alive)) g.(next_root) g.(lifted) g.(pcs).

(** [r.lift(); r.focus_force()]: a TclError ([None]) on a destroyed root. *)
Definition lift_and_focus (r : root) (g : Gui) : option Gui :=
  if bool_decide (r ∈ g.(alive)) then
    Some (mkGui g.(calendar_window) g.(window_lock) g.(alive) g.(next_root)
            (g.(lifted) ++ [r]) g.(pcs))
  else None.

(** One step of thread [t]; [None] when the thread cannot move (it waits for
    the lock, sits in its main loop, has returned, or does not exist). *)
Definition step (t : tid) (g : Gui) : option Gui :=
  match g.(pcs) !! t with
  | Some at_check => goto t in_check <$> lock t g
  | Some in_check =>
      match g.(calendar_window) with
      | Some r =>
          match lift_and_focus r g with
          | Some g' => Some (goto t returned (unlock g'))
          | None => Some (goto t at_create (unlock (assign_calendar_window None g)))
          end
      | None => Some (goto t at_create (unlock g))
      end
  | Some at_create => let (r, g') := Tk g in Some (goto t (at_store r) g')
  | Some (at_store r) => goto t (in_store r) <$> lock t g
  | Some (in_store r) =>
      Some (goto t (in_mainloop r) (unlock (assign_calendar_window (Some r) g)))
  | Some (at_close r) => goto t (in_close r) <$> lock t g
  | Some (in_close r) =>
      Some (goto t (at_destroy r) (unlock (assign_calendar_window None g)))
  | Some (at_destroy r) => Some (goto t returned (destroy r g))
  | Some (in_mainloop _) | Some returned | None => None
  end.

(** What happens to the process: a request to open the calendar (a new thread
    on [show_calendar]), a step of a thread, the user closing the window of a
    thread ([on_close] runs in its main loop). *)
Inductive event :=
| Open
| Step (t : tid)
| Close (t : tid).

Definition handle (e : event) (g : Gui) : option Gui :=
  match e with
  | Open =>
      Some (mkGui g.(calendar_window) g.(window_lock) g.(alive) g.(next_root)
              g.(lifted) (g.(pcs) ++ [at_check]))
  | Step t => step t g
  | Close t =>
      match g.(pcs) !! t with
      | Some (in_mainloop r) => Some (goto t (at_close r) g)
      | _ => None
      end
  end.

Fixpoint exec (es : list event) (g : Gui) : option Gui :=
  match es with
  | [] => Some g
  | e :: rest =>
      match handle e g with
      | Some g' => exec rest g'
      | None => None
      end
  end.

(** Thread [t] runs on its own for as long as it can move. *)
Fixpoint run_thread (fuel : nat) (t : tid) (g : Gui) : Gui :=
  match fuel with
  | O => g
  | S fuel' =>
      match step t g with
      | Some g' => run_thread fuel' t g'
      | None => g
      end
  end.

(** Two requests, one right after the other, with no window open: each
    thread passes the first block before either reaches the second. *)
Definition two_requests : list event :=
  [Open; Open;
   Step 0; Step 0;            (* first thread: lock, test, unlock *)
   Step 1; Step 1;            (* second thread: lock, test, unlock *)
   Step 0; Step 0; Step 0;    (* first thread: tk.Tk(), lock, store and unlock *)
   Step 1; Step 1; Step 1     (* second thread: tk.Tk(), lock, store and unlock *)
  ]%nat.

(** Two requests in turn: the second is made when the first thread has
    reached its main loop. *)
Definition requests_in_turn : list event :=
  [Open; Step 0; Step 0; Step 0; Step 0; Step 0;
   Open; Step 1; Step 1]%nat.

(** The thread is inside one of the [with window_lock] blocks. *)
Definition critical (k : pc) : bool :=
  match k with
  | in_check | in_store _ | in_close _ => true
  | _ => false
  end.

(** Mutual exclusion: a thread inside a block is the holder of the lock. *)
Definition exclusive (g : Gui) : Prop :=
  forall t k, g.(pcs) !! t = Some k -> critical k = true -> g.(window_lock) = Some t.

End CalendarWindow.


(** ** Who holds the instance lock *)

(** Process [p] is the active instance: its [LOCK_SOCKET] is the socket bound
    to the well-known address. *)
Definition holds_lock (p : pid) (w : World) : Prop :=
  exists s, w.(LOCK_SOCKET) !! p = Some s /\ w.(bound) !! LOCK_ADDR = Some s.


(** The state a session starts from: nothing bound, no process running. *)
Definition boot (d : date) : World :=
  mkWorld d [] 0%nat ∅ ∅ ∅ ∅ 0%nat ∅ ∅ ∅ ∅ ∅ ∅.

(** ** Properties of calls *)

(** The part of the state that belongs to the Python processes; no socket
    call touches it. *)
Definition python (w : World)
  : date * gmap pid sock * gmap pid (list target) * gmap pid (list string)
    * gmap pid (list hook) * gmap pid Icon :=
  (w.(today), w.(LOCK_SOCKET), w.(threads), w.(stdout), w.(atexit), w.(tray)).

(** The call never changes what [f] reads from the state. *)
Definition preserves {A X : Type} (f : World -> X) (m : M A) : Prop :=
  forall w, f (m w).2 = f w.

(** The call never waits. *)
Definition nonblocking {A : Type} (m : M A) : Prop :=
  forall w, (m w).1 <> Blocked.

(** The state in which a thread of process [p] waits in accept on [l]. *)
Definition waiting_on (p : pid) (l : sock) (w : World) : World :=
  set_accepting (<[l := p]> w.(accepting)) w.

(** What the next turn of the listener's loop receives, if it gets that far. *)
Definition received (p : pid) (w : World) : option bytes :=
  match (l ← LOCK_SOCKET_object p; c ← sock_accept p l; sock_recv c 1024) w with
  | (Ret data, _) => Some data
  | _ => None
  end.

(** The connections waiting for the listener of [p]. *)
Definition pending (p : pid) (w : World) : list conn :=
  match w.(LOCK_SOCKET) !! p with
  | Some l =>
      match w.(backlog) !! l with
      | Some (_, q) => q
      | None => []
      end
  | None => []
  end.

(** The icon shows week [cw]: image and title are the ones drawn for it. *)
Definition displays (i : Icon) (cw : Z) : Prop :=
  i.(icon) = create_icon cw /\ i.(title) = "Week " +:+ format_02d cw.

(** The week number the refresh loop holds after the wake-ups [wakes]. *)
Definition last_week (last_cw : Z) (wakes : list date) : Z :=
  foldl (fun _ d => current_cw d) last_cw wakes.

(** * The sheet of the calendar window *)

(** ** The [calendar] module of the standard library

    [show_calendar] lays the months out with [calendar.monthcalendar]; the
    definitions follow the module's reference implementation, for the first
    weekday it starts with (Monday). An exception is [None]. *)

Definition mdays : list Z := [0; 31; 28; 31; 30; 31; 30; 31; 31; 30; 31; 30; 31].

Definition isleap (year : Z) : bool :=
  (year mod 4 =? 0) && (negb (year mod 100 =? 0) || (year mod 400 =? 0)).

(** [datetime.date(year, month, day)]: a ValueError outside the calendar. *)
Definition datetime_date (year month day : Z) : option date :=
  let d := mkdate year month day in
  if valid_date d then Some d else None.

(** [date.weekday()]: Monday is 0. *)
Definition date_weekday (d : date) : Z := (toordinal d + 6) mod 7.

(** [calendar.weekday(year, month, day)] *)
Definition calendar_weekday (year month day : Z) : option Z :=
  let year :=
    if negb ((MINYEAR <=? year) && (year <=? MAXYEAR)) then 2000 + year mod 400
    else year in
  d ← datetime_date year month day;
  Some (date_weekday d).

(** [calendar.monthrange(year, month)]: the weekday of the first of the month
    and the number of its days; IllegalMonthError outside 1..12. *)
Definition monthrange (year month : Z) : option (Z * Z) :=
  if negb ((1 <=? month) && (month <=? 12)) then None
  else
    day1 ← calendar_weekday year month 1;
    let ndays := nth (Z.to_nat month) mdays 0
                 + (if (month =? 2) && isleap year then 1 else 0) in
    Some (day1, ndays).

Definition firstweekday : Z := 0.

(** [Calendar.itermonthdays(year, month)], as the list it yields: zeros for the
    days of the neighbouring months that fill the first and the last week. *)
Definition itermonthdays (year month : Z) : option (list Z) :=
  r ← monthrange year month;
  let day1 := r.1 in
  let ndays := r.2 in
  let days_before := (day1 - firstweekday) mod 7 in
  let days_after := (firstweekday - day1 - ndays) mod 7 in
  Some (replicate (Z.to_nat days_before) 0 ++ seqZ 1 ndays
        ++ replicate (Z.to_nat days_after) 0).

(** [range(0, stop, step)], for a positive step. *)
Definition range_by (stop step : nat) : list nat :=
  (fun k => k * step)%nat <$> seq 0 ((stop + step - 1) / step)%nat.

(** [calendar.monthcalendar(year, month)]:
    [[days[i:i+7] for i in range(0, len(days), 7)]]. *)
Definition monthcalendar (year month : Z) : option (list (list Z)) :=
  days ← itermonthdays year month;
  Some ((fun i => take 7 (drop i days)) <$> range_by (length days) 7).

(** ** What [show_calendar] puts on the sheet *)

Definition colors : gmap string string :=
  list_to_map
    [("bg", "#ffffff"); ("text", "#37352f"); ("text_muted", "#9b9a97");
     ("today_bg", "#ffef3d"); ("today_text", "#37352f");
     ("week_num", "#9b9a97"); ("border", "#e9e9e7")].

Definition day_names : list string := ["Mo"; "Tu"; "We"; "Th"; "Fr"; "Sa"; "Su"].

(** A [tk.Label] of the sheet, by its text and its colours. *)
Record Label := mkLabel { label_text : string; label_bg : string; label_fg : string }.

(** [next((d for d in week if d != 0), 1)] *)
Definition first_day (week : list Z) : Z :=
  default 1 (head (filter (fun d => d ≠ 0) week)).

(** The week number written in front of a row. *)
Definition week_number (year month : Z) (week : list Z) : option Z :=
  d ← datetime_date year month (first_day week);
  Some (isocalendar d).1.2.

(** The label of one cell of a row. *)
Definition day_label (today : date) (month d : Z) : Label :=
  if d =? 0 then mkLabel EmptyString (colors !!! "bg") (colors !!! "bg")
  else if (d =? today.(_day)) && (month =? today.(_month))
  then mkLabel (pretty d) (colors !!! "today_bg") (colors !!! "today_text")
  else mkLabel (pretty d) (colors !!! "bg") (colors !!! "text").

(** A row of a month: the label of the week number, then the seven cells. *)
Definition week_row (today : date) (month : Z) (week : list Z)
  : option (Label * list Label) :=
  cw ← week_number today.(_year) month week;
  Some (mkLabel (format_02d cw) (colors !!! "bg") (colors !!! "week_num"),
        day_label today month <$> week).

Definition month_sheet (today : date) (month : Z)
  : option (list (Label * list Label)) :=
  weeks ← monthcalendar today.(_year) month;
  mapM (week_row today month) weeks.

(** The twelve months, [for month in range(1, 13)]. *)
Definition year_sheet (today : date) : option (list (list (Label * list Label))) :=
  mapM (month_sheet today) (seqZ 1 12).

(** The cells of the sheet drawn in the colour of today. *)
Definition highlighted (sheet : list (list (Label * list Label))) : list Label :=
  filter (fun l => l.(label_bg) = colors !!! "today_bg")
    (concat (snd <$> concat sheet)).

(** * Changing the registration for the start at login *)

Definition CR : ascii := ascii_of_nat 13.
Definition dq : string := String (ascii_of_nat 34) EmptyString.

(** What the session lets the program change. *)
Record Access := mkAccess {
  winreg_KEY_SET_VALUE : bool;   (* importing winreg, opening the Run key with
                                    KEY_SET_VALUE and writing to it work *)
  os_makedirs : string -> bool;  (* os.makedirs(dir, exist_ok=True) works *)
  open_w : string -> bool;       (* open(path, 'w') works *)
  os_remove : string -> bool     (* the file at path, when there is one, may be removed *)
}.

(** The machine after [winreg.SetValueEx(key, name, 0, winreg.REG_SZ, value)]. *)
Definition SetValueEx (name value : string) (pl : Platform) : Platform :=
  mkPlatform pl.(SYSTEM) pl.(sys_frozen) pl.(sys_executable) pl.(abspath_file)
    pl.(winreg_OpenKey)
    (fun n => if String.eqb n name then RegValue (Some (py_str value))
              else pl.(winreg_QueryValueEx) n)
    pl.(fs) pl.(expanduser) pl.(normpath_bytes_error).

(** [winreg.DeleteValue(key, name)]: FileNotFoundError ([None]) when the key
    has no such value; a value that cannot be read cannot be deleted either. *)
Definition DeleteValue (name : string) (pl : Platform) : option Platform :=
  match pl.(winreg_QueryValueEx) name with
  | RegValue _ =>
      Some (mkPlatform pl.(SYSTEM) pl.(sys_frozen) pl.(sys_executable) pl.(abspath_file)
              pl.(winreg_OpenKey)
              (fun n => if String.eqb n name then RegFileNotFound
                        else pl.(winreg_QueryValueEx) n)
              pl.(fs) pl.(expanduser) pl.(normpath_bytes_error))
  | RegFileNotFound | RegFailure => None
  end.

Definition set_file (path : string) (f : file) (pl : Platform) : Platform :=
  mkPlatform pl.(SYSTEM) pl.(sys_frozen) pl.(sys_executable) pl.(abspath_file)
    pl.(winreg_OpenKey) pl.(winreg_QueryValueEx)
    (fun q => if String.eqb q path then f else pl.(fs) q)
    pl.(expanduser) pl.(normpath_bytes_error).

(** Reading in text mode hands every line end, [\r\n] and [\r] too, over as
    [\n]. *)
Fixpoint universal_newlines (s : string) : string :=
  match s with
  | EmptyString => EmptyString
  | String c s' =>
      if Ascii.eqb c CR then
        match s' with
        | String c' s'' =>
            if Ascii.eqb c' LF then String LF (universal_newlines s'')
            else String LF (universal_newlines s')
        | EmptyString => String LF EmptyString
        end
      else String c (universal_newlines s')
  end.

(** [with open(path, 'w') as f: f.write(content)]: an OSError ([None]) when
    the file cannot be opened for writing. The file holds the text from then
    on; one that could not be read before still cannot. *)
Definition write_text (ac : Access) (path content : string) (pl : Platform)
  : option Platform :=
  if ac.(open_w) path then
    Some (set_file path
            (match pl.(fs) path with
             | Unreadable => Unreadable
             | NoFile | TextFile _ | Undecodable _ =>
                 TextFile (universal_newlines content)
             end) pl)
  else None.

(** [os.remove(path)]: FileNotFoundError without a file, PermissionError when
    the session does not allow it. *)
Definition remove_file (ac : Access) (path : string) (pl : Platform) : option Platform :=
  match pl.(fs) path with
  | NoFile => None
  | Unreadable | TextFile _ | Undecodable _ =>
      if ac.(os_remove) path then Some (set_file path NoFile pl) else None
  end.

Definition desktop_content (exe_path : string) : string :=
  "[Desktop Entry]" +:+ nl +:+
  "Type=Application" +:+ nl +:+
  "Name=" +:+ APP_NAME +:+ nl +:+
  "Exec=" +:+ exe_path +:+ nl +:+
  "Hidden=false" +:+ nl +:+
  "NoDisplay=false" +:+ nl +:+
  "X-GNOME-Autostart-enabled=true" +:+ nl.

Definition plist_content (exe_path : string) : string :=
  "<?xml version=" +:+ dq +:+ "1.0" +:+ dq +:+ " encoding=" +:+ dq +:+ "UTF-8" +:+ dq
    +:+ "?>" +:+ nl +:+
  "<!DOCTYPE plist PUBLIC " +:+ dq +:+ "-//Apple//DTD PLIST 1.0//EN" +:+ dq +:+ " "
    +:+ dq +:+ "http://www.apple.com/DTDs/PropertyList-1.0.dtd" +:+ dq +:+ ">" +:+ nl +:+
  "<plist version=" +:+ dq +:+ "1.0" +:+ dq +:+ ">" +:+ nl +:+
  "<dict>" +:+ nl +:+
  "    <key>Label</key>" +:+ nl +:+
  "    <string>com." +:+ APP_NAME +:+ "</string>" +:+ nl +:+
  "    <key>ProgramArguments</key>" +:+ nl +:+
  "    <array>" +:+ nl +:+
  "        <string>" +:+ exe_path +:+ "</string>" +:+ nl +:+
  "    </array>" +:+ nl +:+
  "    <key>RunAtLoad</key>" +:+ nl +:+
  "    <true/>" +:+ nl +:+
  "</dict>" +:+ nl +:+
  "</plist>" +:+ nl.

(** [add_to_startup()]: the result and the machine afterwards. Every
    exception of a branch ends it with False. *)
Definition add_to_startup (ac : Access) (pl : Platform) : bool * Platform :=
  let exe_path := get_exe_path pl in
  if String.eqb pl.(SYSTEM) "Windows" then
    if ac.(winreg_KEY_SET_VALUE) then (true, SetValueEx APP_NAME exe_path pl)
    else (false, pl)
  else if String.eqb pl.(SYSTEM) "Linux" then
    let autostart_dir := pl.(expanduser) "~/.config/autostart" in
    if ac.(os_makedirs) autostart_dir then
      match write_text ac (_get_startup_path_linux pl) (desktop_content exe_path) pl with
      | Some pl' => (true, pl')
      | None => (false, pl)
      end
    else (false, pl)
  else if String.eqb pl.(SYSTEM) "Darwin" then
    let launch_agents := pl.(expanduser) "~/Library/LaunchAgents" in
    if ac.(os_makedirs) launch_agents then
      match write_text ac (_get_startup_path_macos pl) (plist_content exe_path) pl with
      | Some pl' => (true, pl')
      | None => (false, pl)
      end
    else (false, pl)
  else (false, pl).

Definition remove_from_startup (ac : Access) (pl : Platform) : bool * Platform :=
  if String.eqb pl.(SYSTEM) "Windows" then
    if ac.(winreg_KEY_SET_VALUE) then
      match DeleteValue APP_NAME pl with
      | Some pl' => (true, pl')
      | None => (false, pl)
      end
    else (false, pl)
  else if String.eqb pl.(SYSTEM) "Linux" then
    match remove_file ac (_get_startup_path_linux pl) pl with
    | Some pl' => (true, pl')
    | None => (false, pl)
    end
  else if String.eqb pl.(SYSTEM) "Darwin" then
    match remove_file ac (_get_startup_path_macos pl) pl with
    | Some pl' => (true, pl')
    | None => (false, pl)
    end
  else (false, pl).

Definition fix_startup_path (ac : Access) (pl : Platform) : bool * Platform :=
  let pl1 := (remove_from_startup ac pl).2 in
  add_to_startup ac pl1.

(** [toggle_startup(icon, item)]: the machine afterwards. *)
Definition toggle_startup (ac : Access) (pl : Platform) : Platform :=
  if is_in_startup pl then (remove_from_startup ac pl).2
  else (add_to_startup ac pl).2.

(** ** The warning at startup *)

(** The calls [show_path_warning] makes on the window system. *)
Inductive gui_call :=
| tk_Tk
| root_withdraw
| messagebox_askyesno (title message : string)
| messagebox_showinfo (title message : string)
| messagebox_showerror (title message : string)
| root_destroy.

(** [f"{message}"] for a [str or None]. *)
Definition format_message (message : option string) : string :=
  default "None" message.

Section PathWarning.

Variable normpath : string -> string.

(** [show_path_warning()]: the calls on the window system, in order, and the
    machine afterwards; [answer] is what the user answers if asked. *)
Definition show_path_warning (ac : Access) (answer : bool) (pl : Platform)
  : outcome (list gui_call * Platform) :=
  match check_startup_path normpath pl with
  | Ret (is_valid, message) =>
      if negb is_valid then
        let ask :=
          messagebox_askyesno "Path Changed"
            (format_message message +:+ nl +:+ nl +:+
             "Would you like to update the automatic startup path?") in
        if answer then
          let r := fix_startup_path ac pl in
          Ret ([tk_Tk; root_withdraw; ask;
                if r.1 then messagebox_showinfo "Success" "Startup path updated successfully!"
                else messagebox_showerror "Error" "Failed to update the startup path.";
                root_destroy], r.2)
        else Ret ([tk_Tk; root_withdraw; ask; root_destroy], pl)
      else Ret ([], pl)
  | Raise e => Raise e
  | Blocked => Blocked
  end.

End PathWarning.

(** ** Paths that are read back as they were written *)

Fixpoint string_forall (P : ascii -> bool) (s : string) : bool :=
  match s with
  | EmptyString => true
  | String c s' => P c && string_forall P s'
  end.

(** The path of the executable is one the files of the platform hand back
    unchanged: on Linux a single line without blanks at its ends, on macOS a
    path from the root without [<]; no carriage return. *)
Definition plain_exe_path (pl : Platform) : bool :=
  let exe_path := get_exe_path pl in
  if String.eqb pl.(SYSTEM) "Linux" then
    string_forall (fun c => negb (Ascii.eqb c LF) && negb (Ascii.eqb c CR)) exe_path
    && String.eqb (strip exe_path) exe_path
  else if String.eqb pl.(SYSTEM) "Darwin" then
    match exe_path with
    | String c rest =>
        Ascii.eqb c "/" && negb (String.eqb rest EmptyString)
        && string_forall (fun c => negb (Ascii.eqb c "<") && negb (Ascii.eqb c CR)) rest
    | EmptyString => false
    end
  else true.

(** What is registered can be read: the Run key on Windows, the files
    elsewhere. *)
Definition can_read (pl : Platform) : Prop :=
  (pl.(SYSTEM) = "Windows" -> pl.(winreg_OpenKey) = true)
  /\ forall path, pl.(fs) path <> Unreadable.

(** The session allows every change. *)
Definition all_access : Access :=
  mkAccess true (fun _ => true) (fun _ => true) (fun _ => true).

Definition grants_all (ac : Access) : Prop :=
  ac.(winreg_KEY_SET_VALUE) = true
  /\ (forall dir, ac.(os_makedirs) dir = true)
  /\ (forall path, ac.(open_w) path = true)
  /\ (forall path, ac.(os_remove) path = true).

(** The platforms the startup code knows. *)
Definition supported (pl : Platform) : Prop :=
  pl.(SYSTEM) = "Windows" \/ pl.(SYSTEM) = "Linux" \/ pl.(SYSTEM) = "Darwin".

(** An installation on Linux whose path ends in a blank. *)
Definition blank_install : Platform :=
  mkPlatform "Linux" false EmptyString "/opt/cw/calendarweek.py " false
    (fun _ => RegFileNotFound) (fun _ => NoFile)
    (fun path => "/home/u" +:+ string_drop 1 path)
    (fun _ => None).

(** ** Counting what the refresh loop draws *)

(** How often the week number changes from one wake-up to the next, starting
    from the number [last_cw]. *)
Fixpoint week_changes (last_cw : Z) (wakes : list date) : nat :=
  match wakes with
  | [] => 0
  | d :: rest =>
      (if current_cw d =? last_cw then 0 else 1) + week_changes (current_cw d) rest
  end.

(** ** The queue of the listener *)

(** The bytes the listener reads from connection [c]. *)
Definition payload (w : World) (c : conn) : bytes :=
  default [] ((fun b : bytes * bool => take 1024 b.1) <$> w.(wire) !! c).

(** Process 1 listens on socket 0; two connections wait, the first with the
    bytes SHOW, the second with other bytes. *)
Definition two_waiting : World :=
  mkWorld (mkdate 2026 11 3) [] 3%nat {[ LOCK_ADDR := 0%nat ]}
    {[ 0%nat := (1, [0%nat; 1%nat]) ]} ∅ ∅ 2%nat
    {[ 0%nat := (SHOW, true); 1%nat := (["P"; "I"; "N"; "G"]%byte, true) ]}
    {[ 1%nat := 0%nat ]} ∅ ∅ ∅ ∅.

(** ** The end of a process *)





(** * Properties *)

(** * Facts about the week clock *)

Section WeekClockFacts.

Local Ltac zdiv := Z.to_euclidean_division_equations; lia.

Lemma leap_cases y :
  (_is_leap y = true /\ _days_before_year (y + 1) = _days_before_year y + 366)
  \/ (_is_leap y = false /\ _days_before_year (y + 1) = _days_before_year y + 365).
Proof.
  unfold _is_leap, _days_before_year.
  destruct (Z.eqb_spec (y mod 4) 0), (Z.eqb_spec (y mod 100) 0),
    (Z.eqb_spec (y mod 400) 0); simpl;
  first [ left; split; [reflexivity | zdiv]
        | right; split; [reflexivity | zdiv]
        | exfalso; zdiv ].
Qed.

Lemma new_year_eq y : new_year y = _days_before_year y + 1.
Proof. unfold new_year, _ymd2ord, _days_before_month. simpl. lia. Qed.

Lemma new_year_succ y : 365 <= new_year (y + 1) - new_year y <= 366.
Proof. rewrite !new_year_eq. destruct (leap_cases y) as [[_ ->] | [_ ->]]; lia. Qed.

(** A date of year [y] lies between the new years of [y] and [y + 1]. *)
Lemma ord_in_year d : valid_date d = true ->
  new_year d.(_year) <= toordinal d < new_year (d.(_year) + 1).
Proof.
  destruct d as [y m dd].
  unfold valid_date, toordinal, new_year, _ymd2ord, MINYEAR, MAXYEAR; simpl.
  intros H. repeat (apply andb_prop in H; destruct H as [H ?]).
  assert (m = 1 \/ m = 2 \/ m = 3 \/ m = 4 \/ m = 5 \/ m = 6 \/ m = 7 \/ m = 8
          \/ m = 9 \/ m = 10 \/ m = 11 \/ m = 12) as Hm by lia.
  destruct (leap_cases y) as [[Hl Hy] | [Hl Hy]]; rewrite Hy;
    unfold _days_before_month, _days_in_month in *; rewrite ?Hl in *;
    repeat (destruct Hm as [-> | Hm]); try subst m; simpl in *; lia.
Qed.

(** The first Thursday is a Thursday among the first seven days of the year,
    and week 1 starts on the Monday before it. *)
Lemma first_thursday_spec y :
  weekday (first_thursday y) = 3
  /\ new_year y <= first_thursday y < new_year y + 7
  /\ weekday (week1_start y) = 0.
Proof.
  unfold week1_start, first_thursday, weekday. generalize (new_year y); intros j. zdiv.
Qed.

Lemma week1_start_bounds y :
  new_year y - 3 <= week1_start y <= new_year y + 3 /\ (week1_start y + 6) mod 7 = 0.
Proof.
  unfold week1_start, first_thursday, weekday. generalize (new_year y); intros j. zdiv.
Qed.

(** The Monday the library computes is the start of week 1. *)
Lemma isoweek1monday_spec y : _isoweek1monday y = week1_start y.
Proof.
  unfold _isoweek1monday, week1_start, first_thursday, weekday. fold (new_year y).
  generalize (new_year y); intros j.
  destruct (Z.ltb_spec 3 ((j + 6) mod 7)); zdiv.
Qed.

Lemma week1_start_mono y y' : y < y' -> week1_start y < week1_start y'.
Proof.
  intros Hlt.
  assert (Hn : forall k, 0 <= k -> new_year y + 365 * k <= new_year (y + k)).
  { intros k Hk. pattern k. apply natlike_ind; [replace (y + 0) with y by lia; lia | | done].
    clear k Hk. intros k Hk IH. pose proof (new_year_succ (y + k)).
    replace (y + Z.succ k) with (y + k + 1) by lia. lia. }
  specialize (Hn (y' - y)). replace (y + (y' - y)) with y' in Hn by lia.
  pose proof (week1_start_bounds y) as [? ?].
  pose proof (week1_start_bounds y') as [? ?].
  assert (y' - y = 1 \/ 2 <= y' - y) as [Hd1 | Hd2] by lia.
  - assert (y' = y + 1) as -> by lia. pose proof (new_year_succ y). zdiv.
  - nia.
Qed.

(** A day lies in one week of one week-numbering year only. *)
Lemma in_iso_week_unique n Y k Y' k' :
  in_iso_week n Y k -> in_iso_week n Y' k' -> Y = Y' /\ k = k'.
Proof.
  unfold in_iso_week. intros (Hk & Hn & Hnext) (Hk' & Hn' & Hnext').
  assert (Y = Y') as ->.
  { destruct (Z.lt_trichotomy Y Y') as [Hlt | [-> | Hgt]]; [exfalso | done | exfalso].
    - assert (week1_start (Y + 1) <= week1_start Y').
      { destruct (Z.eq_dec (Y + 1) Y') as [-> | ?]; [lia |].
        pose proof (week1_start_mono (Y + 1) Y'). lia. }
      lia.
    - assert (week1_start (Y' + 1) <= week1_start Y).
      { destruct (Z.eq_dec (Y' + 1) Y) as [-> | ?]; [lia |].
        pose proof (week1_start_mono (Y' + 1) Y). lia. }
      lia. }
  split; [done | lia].
Qed.

(** The arithmetic of [isocalendar], on the new years [jp], [j0], [j1] of
    three years in a row and the starts [wp], [w0], [w1] of their weeks 1. *)
Lemma iso_arith (n j0 j1 jp w0 w1 wp : Z) :
  j0 <= n < j1 -> 365 <= j1 - j0 <= 366 -> 365 <= j0 - jp <= 366 ->
  j0 - 3 <= w0 <= j0 + 3 -> (w0 + 6) mod 7 = 0 ->
  j1 - 3 <= w1 <= j1 + 3 -> (w1 + 6) mod 7 = 0 ->
  jp - 3 <= wp <= jp + 3 -> (wp + 6) mod 7 = 0 ->
  ((n - w0) / 7 < 0 -> 1 <= (n - wp) / 7 + 1 <= 53 /\
      wp + 7 * ((n - wp) / 7 + 1 - 1) <= n < wp + 7 * ((n - wp) / 7 + 1) /\ n < w0) /\
  (0 <= (n - w0) / 7 -> w1 <= n ->
      52 <= (n - w0) / 7 /\ w1 + 7 * (1 - 1) <= n < w1 + 7 * 1) /\
  (0 <= (n - w0) / 7 -> n < w1 -> 1 <= (n - w0) / 7 + 1 <= 53 /\
      w0 + 7 * ((n - w0) / 7 + 1 - 1) <= n < w0 + 7 * ((n - w0) / 7 + 1)).
Proof. intros. repeat split; zdiv. Qed.

(** C8. For every date the week clock can be given, [current_cw] is the ISO
    8601 week number of the date: a number from 1 to 53, counted in weeks that
    start on Monday from the week that holds the first Thursday of the
    week-numbering year. 1 January 2024 is in week 1 of 2024, 31 December 2024
    in week 1 of 2025. *)
Theorem current_cw_iso_week d : valid_date d = true ->
  1 <= current_cw d <= 53
  /\ in_iso_week (toordinal d) (iso_year d) (current_cw d)
  /\ isocalendar (mkdate 2024 1 1) = (2024, 1, 1)
  /\ isocalendar (mkdate 2024 12 31) = (2025, 1, 2).
Proof.
  intros Hv.
  cut (1 <= current_cw d <= 53 /\ in_iso_week (toordinal d) (iso_year d) (current_cw d)).
  { intros [? ?]. split; [done |]. split; [done |]. split; reflexivity. }
  pose proof (ord_in_year d Hv) as Hin.
  unfold current_cw, iso_year, isocalendar, in_iso_week.
  fold (toordinal d). rewrite !isoweek1monday_spec.
  set (y := d.(_year)) in *. set (n := toordinal d) in *.
  pose proof (week1_start_bounds y) as [B0 W0].
  pose proof (week1_start_bounds (y + 1)) as [B1 W1].
  pose proof (week1_start_bounds (y - 1)) as [Bp Wp].
  pose proof (week1_start_bounds (y + 1 + 1)) as [B2 _].
  pose proof (new_year_succ y) as L0.
  pose proof (new_year_succ (y - 1)) as Lp. replace (y - 1 + 1) with y in Lp by lia.
  pose proof (new_year_succ (y + 1)) as L1.
  destruct (iso_arith n _ _ _ _ _ _ Hin L0 Lp B0 W0 B1 W1 Bp Wp) as (Hneg & Hnext & Hsame).
  destruct (Z.ltb_spec ((n - week1_start y) / 7) 0) as [Hlt | Hge]; simpl.
  - replace (y - 1 + 1) with y by lia. destruct (Hneg Hlt) as (? & ? & ?). lia.
  - destruct (Z.leb_spec 52 ((n - week1_start y) / 7)) as [H52 | H52].
    + destruct (Z.leb_spec (week1_start (y + 1)) n) as [Hn | Hn]; simpl.
      * destruct (Hnext Hge Hn) as (? & ?). lia.
      * destruct (Hsame Hge Hn) as (? & ?). lia.
    + simpl. assert (Hn : n < week1_start (y + 1)) by (clear -H52 Hin L0 B0 B1 W0 W1; zdiv).
      destruct (Hsame Hge Hn) as (? & ?). lia.
Qed.

Lemma current_cw_iso_week_witness :
  valid_date (mkdate 2020 12 31) = true
  /\ current_cw (mkdate 2020 12 31) = 53
  /\ in_iso_week (toordinal (mkdate 2020 12 31)) 2020 53.
Proof.
  split; [reflexivity |]. split; [reflexivity |].
  exact (proj1 (proj2 (current_cw_iso_week (mkdate 2020 12 31) eq_refl))).
Defined.

(** Days around the turn of the year. *)
Example isocalendar_2008_12_29 : isocalendar (mkdate 2008 12 29) = (2009, 1, 1).
Proof. reflexivity. Qed.
Example isocalendar_2010_01_03 : isocalendar (mkdate 2010 1 3) = (2009, 53, 7).
Proof. reflexivity. Qed.
Example isocalendar_2021_01_01 : isocalendar (mkdate 2021 1 1) = (2020, 53, 5).
Proof. reflexivity. Qed.
Example isocalendar_0001_01_01 : isocalendar (mkdate 1 1 1) = (1, 1, 1).
Proof. reflexivity. Qed.
Example isocalendar_9999_12_31 : isocalendar (mkdate 9999 12 31) = (9999, 52, 5).
Proof. reflexivity. Qed.

End WeekClockFacts.

(** * Facts about calls in general *)

Section Calls.

Context {A B : Type}.
Implicit Types (w : World) (m : M A) (f : A -> M B).

Lemma bind_Ret m f w a w' : m w = (Ret a, w') -> (m ≫= f) w = f a w'.
Proof. intros H. unfold mbind, M_bind. by rewrite H. Qed.

Lemma bind_Raise m f w e w' : m w = (Raise e, w') -> (m ≫= f) w = (Raise e, w').
Proof. intros H. unfold mbind, M_bind. by rewrite H. Qed.

Lemma bind_Blocked m f w w' : m w = (Blocked, w') -> (m ≫= f) w = (Blocked, w').
Proof. intros H. unfold mbind, M_bind. by rewrite H. Qed.

Lemma try_Ret m (h : M A) c w a w' :
  m w = (Ret a, w') -> try_except m c h w = (Ret a, w').
Proof. intros H. unfold try_except. by rewrite H. Qed.

Lemma try_Blocked m (h : M A) c w w' :
  m w = (Blocked, w') -> try_except m c h w = (Blocked, w').
Proof. intros H. unfold try_except. by rewrite H. Qed.

Lemma try_Raise m (h : M A) c w e w' r :
  m w = (Raise e, w') -> c e = true -> h w' = r -> try_except m c h w = r.
Proof. intros H Hc <-. unfold try_except. by rewrite H, Hc. Qed.

Lemma preserves_bind {X} (g : World -> X) m f :
  preserves g m -> (forall a, preserves g (f a)) -> preserves g (m ≫= f).
Proof.
  intros Hm Hf w. unfold mbind, M_bind. specialize (Hm w).
  destruct (m w) as [[a | e |] w']; simpl in *; [| done | done].
  by rewrite Hf.
Qed.

Lemma preserves_try {X} (g : World -> X) m (h : M A) c :
  preserves g m -> preserves g h -> preserves g (try_except m c h).
Proof.
  intros Hm Hh w. unfold try_except. specialize (Hm w).
  destruct (m w) as [[a | e |] w']; simpl in *; [done | | done].
  destruct (c e); [by rewrite Hh | done].
Qed.

Lemma nonblocking_bind m f :
  nonblocking m -> (forall a, nonblocking (f a)) -> nonblocking (m ≫= f).
Proof.
  intros Hm Hf w. unfold mbind, M_bind. specialize (Hm w).
  destruct (m w) as [[a | e |] w']; simpl in *; [apply Hf | done | done].
Qed.

Lemma nonblocking_try m (h : M A) c :
  nonblocking m -> nonblocking h -> nonblocking (try_except m c h).
Proof.
  intros Hm Hh w. unfold try_except. specialize (Hm w).
  destruct (m w) as [[a | e |] w']; simpl in *; [done | | done].
  destruct (c e); [apply Hh | done].
Qed.

(** A bare [except:] whose handler returns lets nothing out. *)
Lemma try_bare_Ret m (a : A) w :
  (m w).1 <> Blocked -> exists a' w', try_except m bare (mret a) w = (Ret a', w').
Proof.
  intros Hm. unfold try_except. destruct (m w) as [[a' | e |] w']; simpl in *.
  - by exists a', w'.
  - by exists a, w'.
  - done.
Qed.

End Calls.

(** * Facts about the socket calls *)

Section SocketFacts.

Implicit Types (w : World) (p : pid) (s l : sock) (c : conn) (q : list conn).

Lemma set_faults_id w : set_faults w.(faults) w = w.
Proof. by destruct w. Qed.

Lemma os_call_calm w : w.(faults) = [] -> os_call w = (Ret tt, w).
Proof. intros H. unfold os_call. by rewrite H. Qed.

Lemma os_call_cases w :
  os_call w = (Ret tt, set_faults (tail w.(faults)) w)
  \/ os_call w = (Raise (OSError EIO), set_faults (tail w.(faults)) w).
Proof.
  unfold os_call. destruct w.(faults) as [| [] fl] eqn:H; simpl; auto.
  left. by rewrite <- H, set_faults_id.
Qed.

Lemma freed_fields s w :
  (freed s w).(bound) = filter (fun kv => kv.2 <> s) w.(bound)
  /\ (freed s w).(backlog) = delete s w.(backlog)
  /\ (freed s w).(LOCK_SOCKET) = w.(LOCK_SOCKET)
  /\ (freed s w).(faults) = w.(faults)
  /\ (freed s w).(next_sock) = w.(next_sock)
  /\ (freed s w).(next_conn) = w.(next_conn)
  /\ (freed s w).(accepting) = delete s w.(accepting)
  /\ python (freed s w) = python w.
Proof. unfold freed, python. simpl. by destruct (w.(endpoint) !! s) as [[[] ?] |]. Qed.

Lemma freed_wire_client s c w :
  w.(endpoint) !! s = Some (client_side, c) ->
  (freed s w).(wire) = alter (fun b => (b.1, true)) c w.(wire).
Proof. intros H. unfold freed. simpl. by rewrite H. Qed.

Lemma freed_backlog s w : (freed s w).(backlog) = delete s w.(backlog).
Proof. apply freed_fields. Qed.
Lemma freed_LOCK_SOCKET s w : (freed s w).(LOCK_SOCKET) = w.(LOCK_SOCKET).
Proof. apply freed_fields. Qed.
Lemma freed_faults s w : (freed s w).(faults) = w.(faults).
Proof. apply freed_fields. Qed.
Lemma freed_accepting s w : (freed s w).(accepting) = delete s w.(accepting).
Proof. apply freed_fields. Qed.

Lemma freed_threads s w : (freed s w).(threads) = w.(threads).
Proof. unfold freed. simpl. by destruct (w.(endpoint) !! s) as [[[] ?] |]. Qed.

(** [close()] on a socket nobody waits on lets go of it; on one a thread
    waits on in accept it changes nothing. *)
Lemma closed_idle s w : w.(accepting) !! s = None -> closed s w = freed s w.
Proof. intros H. unfold closed. by rewrite H. Qed.


Lemma closed_fields s w :
  (closed s w).(LOCK_SOCKET) = w.(LOCK_SOCKET)
  /\ (closed s w).(faults) = w.(faults)
  /\ (closed s w).(next_sock) = w.(next_sock)
  /\ (closed s w).(next_conn) = w.(next_conn)
  /\ (closed s w).(threads) = w.(threads)
  /\ python (closed s w) = python w.
Proof.
  unfold closed. destruct (w.(accepting) !! s); [done |].
  destruct (freed_fields s w) as (_ & _ & ? & ? & ? & ? & _ & ?).
  by rewrite freed_threads.
Qed.

Lemma closed_LOCK_SOCKET s w : (closed s w).(LOCK_SOCKET) = w.(LOCK_SOCKET).
Proof. apply closed_fields. Qed.
Lemma closed_faults s w : (closed s w).(faults) = w.(faults).
Proof. apply closed_fields. Qed.
Lemma closed_next_sock s w : (closed s w).(next_sock) = w.(next_sock).
Proof. apply closed_fields. Qed.
Lemma closed_threads s w : (closed s w).(threads) = w.(threads).
Proof. apply closed_fields. Qed.

Lemma closed_backlog s w :
  w.(accepting) !! s = None -> (closed s w).(backlog) = delete s w.(backlog).
Proof. intros H. rewrite closed_idle by done. apply freed_fields. Qed.

Lemma closed_wire_client s c w :
  w.(accepting) !! s = None -> w.(endpoint) !! s = Some (client_side, c) ->
  (closed s w).(wire) = alter (fun b => (b.1, true)) c w.(wire).
Proof. intros Hi H. rewrite closed_idle by done. unfold freed. simpl. by rewrite H. Qed.

Lemma closed_wire_server s c w :
  w.(endpoint) !! s = Some (server_side, c) -> (closed s w).(wire) = w.(wire).
Proof.
  intros H. unfold closed. destruct (w.(accepting) !! s); [done |].
  unfold freed. simpl. by rewrite H.
Qed.

Lemma connected_fields s l n q w :
  (connected s l n q w).(bound) = w.(bound)
  /\ (connected s l n q w).(backlog) = <[l := (n, q ++ [w.(next_conn)])]> w.(backlog)
  /\ (connected s l n q w).(endpoint) = <[s := (client_side, w.(next_conn))]> w.(endpoint)
  /\ (connected s l n q w).(wire) = <[w.(next_conn) := ([], false)]> w.(wire)
  /\ (connected s l n q w).(faults) = w.(faults)
  /\ (connected s l n q w).(next_sock) = w.(next_sock)
  /\ python (connected s l n q w) = python w.
Proof. by unfold connected, python. Qed.

Lemma connected_bound s l n q w : (connected s l n q w).(bound) = w.(bound).
Proof. done. Qed.
Lemma connected_backlog s l n q w :
  (connected s l n q w).(backlog) = <[l := (n, q ++ [w.(next_conn)])]> w.(backlog).
Proof. done. Qed.
Lemma connected_endpoint s l n q w :
  (connected s l n q w).(endpoint) = <[s := (client_side, w.(next_conn))]> w.(endpoint).
Proof. done. Qed.
Lemma connected_wire s l n q w :
  (connected s l n q w).(wire) = <[w.(next_conn) := ([], false)]> w.(wire).
Proof. done. Qed.
Lemma connected_faults s l n q w : (connected s l n q w).(faults) = w.(faults).
Proof. done. Qed.
Lemma connected_next_sock s l n q w : (connected s l n q w).(next_sock) = w.(next_sock).
Proof. done. Qed.
Lemma connected_accepting s l n q w : (connected s l n q w).(accepting) = w.(accepting).
Proof. done. Qed.

Local Ltac prim :=
  unfold sock_bind, sock_listen, sock_close, sock_connect, sock_send, sock_accept,
    sock_recv, socket_socket, get_LOCK_SOCKET, assign_LOCK_SOCKET,
    LOCK_SOCKET_object, Thread_start, print, sys_exit, atexit_register,
    raise, block, gets, modify, mbind, M_bind, mret, M_ret.

(** Each socket call, with no failure from outside pending. *)

Lemma sock_bind_free s a w :
  w.(faults) = [] -> w.(bound) !! a = None ->
  sock_bind s a w = (Ret tt, set_bound (<[a := s]> w.(bound)) w).
Proof. intros Hc Hb. prim. rewrite (os_call_calm w Hc). by rewrite Hb. Qed.

Lemma sock_listen_calm s n w :
  w.(faults) = [] ->
  sock_listen s n w = (Ret tt, set_backlog (<[s := (n, [])]> w.(backlog)) w).
Proof. intros Hc. prim. by rewrite (os_call_calm w Hc). Qed.

Lemma sock_connect_listening s a w l n q :
  w.(faults) = [] -> w.(bound) !! a = Some l -> w.(backlog) !! l = Some (n, q) ->
  (Z.of_nat (length q) <= n)%Z ->
  sock_connect s a w = (Ret tt, connected s l n q w).
Proof.
  intros Hc Hb Hq Hn. prim. rewrite (os_call_calm w Hc). rewrite Hb, Hq.
  by destruct (Z.leb_spec (Z.of_nat (length q)) n); [| lia].
Qed.

Lemma sock_connect_nobody s a w :
  w.(bound) !! a = None ->
  exists e, sock_connect s a w = (Raise (OSError e), set_faults (tail w.(faults)) w).
Proof.
  intros Hb. prim. destruct (os_call_cases w) as [-> | ->]; simpl.
  - rewrite Hb. by exists ECONNREFUSED.
  - by exists EIO.
Qed.

Lemma sock_send_client s data w c :
  w.(faults) = [] -> w.(endpoint) !! s = Some (client_side, c) ->
  sock_send s data w
  = (Ret (Z.of_nat (length data)),
     set_wire (alter (fun b => (b.1 ++ data, b.2)) c w.(wire)) w).
Proof. intros Hc He. prim. rewrite (os_call_calm w Hc). by rewrite He. Qed.

Lemma sock_accept_pending p l w n c rest :
  w.(faults) = [] -> w.(backlog) !! l = Some (n, c :: rest) ->
  sock_accept p l w
  = (Ret w.(next_sock),
     set_endpoint (<[w.(next_sock) := (server_side, c)]> w.(endpoint))
       (set_accepting (delete w.(next_sock) (delete l w.(accepting)))
          (set_next_sock (S w.(next_sock))
             (set_backlog (<[l := (n, rest)]> w.(backlog)) w)))).
Proof.
  intros Hc Hq. prim. simpl.
  rewrite (os_call_calm (set_accepting _ w)) by done. simpl. by rewrite Hq.
Qed.

(** With nothing in the queue the call waits, and the state records it. *)
Lemma sock_accept_empty p l w n :
  w.(faults) = [] -> w.(backlog) !! l = Some (n, []) ->
  sock_accept p l w = (Blocked, waiting_on p l w).
Proof.
  intros Hc Hq. prim. simpl.
  rewrite (os_call_calm (set_accepting _ w)) by done. simpl. rewrite Hq.
  unfold waiting_on. simpl. by rewrite insert_delete_eq.
Qed.

Lemma sock_recv_data s w c data eof k :
  w.(faults) = [] -> w.(endpoint) !! s = Some (server_side, c) ->
  w.(wire) !! c = Some (data, eof) -> data <> [] ->
  sock_recv s k w
  = (Ret (take k data), set_wire (<[c := (drop k data, eof)]> w.(wire)) w).
Proof.
  intros Hc He Hw Hd. prim. rewrite (os_call_calm w Hc). rewrite He, Hw.
  by destruct data.
Qed.

(** Each socket call, whatever is pending. *)

Lemma sock_bind_cases s a w :
  (w.(bound) !! a = None
   /\ sock_bind s a w
      = (Ret tt, set_bound (<[a := s]> w.(bound)) (set_faults (tail w.(faults)) w)))
  \/ exists e, sock_bind s a w = (Raise (OSError e), set_faults (tail w.(faults)) w).
Proof.
  prim. destruct (os_call_cases w) as [-> | ->]; simpl.
  - destruct (w.(bound) !! a) eqn:Hb; [right; by eexists | left; done].
  - right. by eexists.
Qed.

Lemma sock_bind_taken s a w s0 :
  w.(bound) !! a = Some s0 ->
  exists e, sock_bind s a w = (Raise (OSError e), set_faults (tail w.(faults)) w).
Proof.
  intros Hb. destruct (sock_bind_cases s a w) as [[Hn _] | [e He]].
  - congruence.
  - by exists e.
Qed.

Lemma sock_listen_cases s n w :
  sock_listen s n w
  = (Ret tt, set_backlog (<[s := (n, [])]> w.(backlog)) (set_faults (tail w.(faults)) w))
  \/ sock_listen s n w = (Raise (OSError EIO), set_faults (tail w.(faults)) w).
Proof. prim. destruct (os_call_cases w) as [-> | ->]; simpl; auto. Qed.


(** No socket call touches the Python side, and only accept and recv can
    wait. *)

Local Ltac by_cases w :=
  prim; try (destruct (os_call_cases w) as [-> | ->]); simpl;
  repeat case_match; simpl; try done.

Lemma os_call_python : preserves python os_call.
Proof. intros w. by destruct (os_call_cases w) as [-> | ->]. Qed.
Lemma socket_socket_python : preserves python socket_socket.
Proof. by intros w. Qed.
Lemma sock_bind_python s a : preserves python (sock_bind s a).
Proof. intros w. by_cases w. Qed.
Lemma sock_listen_python s n : preserves python (sock_listen s n).
Proof. intros w. by_cases w. Qed.
Lemma sock_close_python s : preserves python (sock_close s).
Proof. intros w. prim. simpl. apply closed_fields. Qed.
Lemma sock_connect_python s a : preserves python (sock_connect s a).
Proof. intros w. by_cases w. Qed.
Lemma sock_send_python s data : preserves python (sock_send s data).
Proof. intros w. by_cases w. Qed.
Lemma LOCK_SOCKET_object_python p : preserves python (LOCK_SOCKET_object p).
Proof. intros w. by_cases w. Qed.
Lemma LOCK_SOCKET_object_id p : preserves id (LOCK_SOCKET_object p).
Proof. intros w. by_cases w. Qed.


Lemma os_call_nonblocking : nonblocking os_call.
Proof. intros w. by destruct (os_call_cases w) as [-> | ->]. Qed.
Lemma socket_socket_nonblocking : nonblocking socket_socket.
Proof. by intros w. Qed.
Lemma sock_bind_nonblocking s a : nonblocking (sock_bind s a).
Proof. intros w. by_cases w. Qed.
Lemma sock_listen_nonblocking s n : nonblocking (sock_listen s n).
Proof. intros w. by_cases w. Qed.
Lemma sock_close_nonblocking s : nonblocking (sock_close s).
Proof. by intros w. Qed.
Lemma sock_connect_nonblocking s a : nonblocking (sock_connect s a).
Proof. intros w. by_cases w. Qed.
Lemma sock_send_nonblocking s data : nonblocking (sock_send s data).
Proof. intros w. by_cases w. Qed.

(** Projections of the Python side. *)
Lemma python_proj {A X} (g : World -> X) (m : M A) :
  (forall w w', python w' = python w -> g w' = g w) ->
  preserves python m -> preserves g m.
Proof. intros Hg Hm w. apply Hg, Hm. Qed.

End SocketFacts.

(** * Facts about the single-instance mechanism *)

Section SingleInstanceFacts.

Implicit Types (w : World) (p q : pid) (s l : sock).

Local Opaque closed freed connected.

Lemma LOCK_SOCKET_object_Some p w s :
  w.(LOCK_SOCKET) !! p = Some s -> LOCK_SOCKET_object p w = (Ret s, w).
Proof.
  intros H. unfold LOCK_SOCKET_object, get_LOCK_SOCKET, gets, mbind, M_bind.
  by rewrite H.
Qed.


(** The two ways [acquire_single_instance_lock] ends. *)
Lemma acquire_cases p w :
  (exists w1,
      acquire_single_instance_lock p w = (Ret true, w1)
      /\ w.(bound) !! LOCK_ADDR = None
      /\ w1.(LOCK_SOCKET) = <[p := w.(next_sock)]> w.(LOCK_SOCKET)
      /\ w1.(bound) = <[LOCK_ADDR := w.(next_sock)]> w.(bound)
      /\ w1.(backlog) = <[w.(next_sock) := (1, [])]> w.(backlog)
      /\ w1.(next_sock) = S w.(next_sock)
      /\ w1.(faults) = tail (tail w.(faults))
      /\ w1.(accepting) = delete w.(next_sock) w.(accepting))
  \/ (exists w2,
      acquire_single_instance_lock p w = (Ret false, w2)
      /\ w2.(LOCK_SOCKET) = delete p w.(LOCK_SOCKET)
      /\ (forall a s0, s0 <> w.(next_sock) ->
            w.(bound) !! a = Some s0 -> w2.(bound) !! a = Some s0)
      /\ w2.(backlog) = delete w.(next_sock) w.(backlog)
      /\ w2.(next_sock) = S w.(next_sock)
      /\ (w.(faults) = [] -> w2.(faults) = [])
      /\ w2.(accepting) = delete w.(next_sock) w.(accepting)).
Proof.
  unfold acquire_single_instance_lock.
  erewrite bind_Ret by reflexivity. erewrite bind_Ret by reflexivity.
  set (s := w.(next_sock)).
  set (w0 := set_LOCK_SOCKET _ _).
  assert (Hl0 : w0.(LOCK_SOCKET) !! p = Some s) by apply lookup_insert_eq.
  assert (Hhandler : forall w',
    w'.(LOCK_SOCKET) = w0.(LOCK_SOCKET) -> w'.(accepting) !! s = None ->
    (l ← LOCK_SOCKET_object p; sock_close l;; assign_LOCK_SOCKET p None;; mret false) w'
    = (Ret false, set_LOCK_SOCKET (delete p w'.(LOCK_SOCKET)) (freed s w'))).
  { intros w' Hw' Hidle.
    erewrite bind_Ret by (apply LOCK_SOCKET_object_Some; by rewrite Hw').
    erewrite bind_Ret by reflexivity. erewrite bind_Ret; [reflexivity |].
    unfold assign_LOCK_SOCKET, modify. rewrite closed_idle by done. do 2 f_equal.
    by destruct (freed_fields s w') as (_ & _ & -> & _). }
  destruct (sock_bind_cases s LOCK_ADDR w0) as [[Hfree Hbind] | [e Hbind]].
  - set (w1 := set_bound _ _) in Hbind.
    destruct (sock_listen_cases s 1 w1) as [Hlisten | Hlisten].
    + left. eexists. split.
      { eapply try_Ret.
        erewrite bind_Ret by (by apply LOCK_SOCKET_object_Some).
        erewrite bind_Ret by exact Hbind.
        erewrite bind_Ret by (by apply LOCK_SOCKET_object_Some).
        erewrite bind_Ret by exact Hlisten. reflexivity. }
      by repeat split.
    + right. eexists. split.
      { eapply try_Raise.
        - erewrite bind_Ret by (by apply LOCK_SOCKET_object_Some).
          erewrite bind_Ret by exact Hbind.
          erewrite bind_Ret by (by apply LOCK_SOCKET_object_Some).
          erewrite bind_Raise by exact Hlisten. reflexivity.
        - reflexivity.
        - apply Hhandler; [reflexivity | apply lookup_delete_eq]. }
      simpl.
      match goal with |- context [freed s ?x] =>
        destruct (freed_fields s x) as (Hfb & Hfq & _ & Hff & Hfn & _ & Hfa & _) end. rewrite Hfb, Hfq, Hff, Hfn, Hfa. simpl.
      split; [by rewrite delete_insert_eq |]. split; [| split; [done |]].
      * intros a s0 Hne Ha. apply map_lookup_filter_Some. split; [| done].
        destruct (decide (a = LOCK_ADDR)) as [-> | Hna]; [simpl in Hfree; congruence |].
        by rewrite lookup_insert_ne.
      * split; [done |]. split; [by intros -> |]. by rewrite delete_delete_eq.
  - right. eexists. split.
    { eapply try_Raise.
      - erewrite bind_Ret by (by apply LOCK_SOCKET_object_Some).
        erewrite bind_Raise by exact Hbind. reflexivity.
      - reflexivity.
      - apply Hhandler; [reflexivity | apply lookup_delete_eq]. }
    simpl.
    match goal with |- context [freed s ?x] =>
      destruct (freed_fields s x) as (Hfb & Hfq & _ & Hff & Hfn & _ & Hfa & _) end. rewrite Hfb, Hfq, Hff, Hfn, Hfa. simpl.
    split; [by rewrite delete_insert_eq |]. split; [| split; [done |]].
    * intros a s0 Hne Ha. by apply map_lookup_filter_Some.
    * split; [done |]. split; [by intros -> |]. by rewrite delete_delete_eq.
Qed.

Lemma acquire_python p :
  preserves (fun w => (w.(today), w.(threads), w.(stdout), w.(atexit), w.(tray)))
    (acquire_single_instance_lock p).
Proof.
  assert (Hs : forall A (m : M A), preserves python m ->
    preserves (fun w => (w.(today), w.(threads), w.(stdout), w.(atexit), w.(tray))) m).
  { intros A m. apply python_proj. unfold python. by intros w w' [= -> _ -> -> -> ->]. }
  unfold acquire_single_instance_lock.
  apply preserves_bind; [by intros ? | intros s].
  apply preserves_bind; [by intros ? | intros _].
  apply preserves_try.
  - apply preserves_bind; [apply Hs, LOCK_SOCKET_object_python | intros l].
    apply preserves_bind; [apply Hs, sock_bind_python | intros _].
    apply preserves_bind; [apply Hs, LOCK_SOCKET_object_python | intros l'].
    apply preserves_bind; [apply Hs, sock_listen_python | intros _].
    by intros ?.
  - apply preserves_bind; [apply Hs, LOCK_SOCKET_object_python | intros l].
    apply preserves_bind; [apply Hs, sock_close_python | intros _].
    apply preserves_bind; by intros ?.
Qed.

(** With the address free and nothing pending, the call succeeds. *)
Lemma acquire_free w p :
  w.(bound) !! LOCK_ADDR = None -> w.(faults) = [] ->
  exists w1, acquire_single_instance_lock p w = (Ret true, w1)
    /\ w1.(LOCK_SOCKET) !! p = Some w.(next_sock)
    /\ w1.(bound) !! LOCK_ADDR = Some w.(next_sock)
    /\ w1.(faults) = [].
Proof.
  intros Hfree Hcalm. eexists. split.
  { unfold acquire_single_instance_lock.
    erewrite bind_Ret by reflexivity. erewrite bind_Ret by reflexivity.
    eapply try_Ret.
    erewrite bind_Ret by (apply LOCK_SOCKET_object_Some; apply lookup_insert_eq).
    erewrite bind_Ret by (by apply sock_bind_free).
    erewrite bind_Ret by (apply LOCK_SOCKET_object_Some; apply lookup_insert_eq).
    erewrite bind_Ret by (by apply sock_listen_calm). reflexivity. }
  simpl. by rewrite !lookup_insert_eq.
Qed.

(** C1. When a launch of the application has acquired the lock (the call
    returned true and the process holds the binding), the call made by the next
    launch in the session, with no release in between, returns false, and the
    first process keeps the binding. The two calls are those of two processes:
    [run] calls acquire once, at startup. *)
Theorem acquire_twice w p q w1 :
  p <> q ->
  acquire_single_instance_lock p w = (Ret true, w1) ->
  holds_lock p w1
  /\ exists w2, acquire_single_instance_lock q w1 = (Ret false, w2)
       /\ holds_lock p w2 /\ w2.(LOCK_SOCKET) !! q = None.
Proof.
  intros Hpq Hacq.
  destruct (acquire_cases p w) as [(w1' & Ha & _ & Hl & Hb & _ & Hn & _) | (w2 & Ha & _)];
    [| congruence].
  assert (w1' = w1) as -> by congruence.
  assert (Hh : holds_lock p w1).
  { exists w.(next_sock). by rewrite Hl, Hb, !lookup_insert_eq. }
  split; [done |].
  destruct (acquire_cases q w1) as [(w2 & _ & Hfree & _) | (w2 & Ha2 & Hl2 & Hb2 & _)].
  - rewrite Hb, lookup_insert_eq in Hfree. done.
  - exists w2. split; [done |]. split.
    + exists w.(next_sock). rewrite Hl2, lookup_delete_ne, Hl, lookup_insert_eq by done.
      split; [done |]. apply Hb2; [rewrite Hn; lia |]. by rewrite Hb, lookup_insert_eq.
    + by rewrite Hl2, lookup_delete_eq.
Qed.

Lemma acquire_twice_witness :
  exists w1 w2,
    acquire_single_instance_lock 1%nat (boot (mkdate 2024 1 1)) = (Ret true, w1)
    /\ acquire_single_instance_lock 2%nat w1 = (Ret false, w2)
    /\ holds_lock 1%nat w2.
Proof.
  destruct (acquire_free (boot (mkdate 2024 1 1)) 1%nat eq_refl eq_refl) as (w1 & H1 & _).
  destruct (acquire_twice (boot (mkdate 2024 1 1)) 1%nat 2%nat w1 ltac:(lia) H1)
    as (_ & w2 & H2 & Hh & _).
  by exists w1, w2.
Defined.

Lemma release_not_held w p :
  w.(LOCK_SOCKET) !! p = None -> release_single_instance_lock p w = (Ret tt, w).
Proof.
  intros H. unfold release_single_instance_lock, get_LOCK_SOCKET.
  erewrite bind_Ret by reflexivity. by rewrite H.
Qed.

Lemma release_held w p s :
  w.(LOCK_SOCKET) !! p = Some s ->
  release_single_instance_lock p w
  = (Ret tt, set_LOCK_SOCKET (delete p w.(LOCK_SOCKET)) (closed s w)).
Proof.
  intros H. unfold release_single_instance_lock, get_LOCK_SOCKET.
  erewrite bind_Ret by reflexivity. simpl. rewrite H.
  erewrite bind_Ret.
  2:{ apply try_Ret. erewrite bind_Ret by (by apply LOCK_SOCKET_object_Some).
      reflexivity. }
  unfold assign_LOCK_SOCKET, modify. do 2 f_equal.
  by rewrite closed_LOCK_SOCKET.
Qed.

(** C6. release never raises, in any state; when the lock is not held it
    changes nothing; and however many calls follow the first, the state stays
    the one the first call left. *)
Theorem release_idempotent w p :
  exists w1,
    release_single_instance_lock p w = (Ret tt, w1)
    /\ w1.(LOCK_SOCKET) !! p = None
    /\ (w.(LOCK_SOCKET) !! p = None -> w1 = w)
    /\ release_single_instance_lock p w1 = (Ret tt, w1)
    /\ forall n, Nat.iter n (fun w' => (release_single_instance_lock p w').2) w1 = w1.
Proof.
  assert (Hiter : forall w1, release_single_instance_lock p w1 = (Ret tt, w1) ->
            forall n, Nat.iter n (fun w' => (release_single_instance_lock p w').2) w1 = w1).
  { intros w1 H1 n. induction n as [| n IH]; [done |]. simpl. by rewrite IH, H1. }
  destruct (w.(LOCK_SOCKET) !! p) as [s |] eqn:Hl.
  - eexists. split; [by apply release_held |].
    assert (forall w', (set_LOCK_SOCKET (delete p w.(LOCK_SOCKET)) w').(LOCK_SOCKET) !! p = None)
      as Hn by (intros; apply lookup_delete_eq).
    repeat split; auto using release_not_held. done.
  - exists w. repeat split; auto using release_not_held.
Qed.

Lemma release_idempotent_witness :
  release_single_instance_lock 1%nat (boot (mkdate 2024 1 1))
  = (Ret tt, boot (mkdate 2024 1 1)).
Proof.
  destruct (release_idempotent (boot (mkdate 2024 1 1)) 1%nat) as (w1 & Hr & _ & Hid & _).
  rewrite (Hid eq_refl) in Hr. exact Hr.
Defined.



End SingleInstanceFacts.

(** * Facts about the redundant launch and the listener *)

Section SignalFacts.

Implicit Types (w : World) (p q : pid) (s l : sock).

Local Opaque closed freed connected.

Lemma notify_body_nonblocking :
  nonblocking
    (client ← socket_socket;
     sock_connect client LOCK_ADDR;; sock_send client SHOW;; sock_close client).
Proof.
  apply nonblocking_bind; [apply socket_socket_nonblocking | intros client].
  apply nonblocking_bind; [apply sock_connect_nonblocking | intros _].
  apply nonblocking_bind; [apply sock_send_nonblocking | intros _].
  apply sock_close_nonblocking.
Qed.

Lemma notify_python : preserves python notify_existing_instance.
Proof.
  unfold notify_existing_instance. apply preserves_try; [| by intros ?].
  apply preserves_bind; [apply socket_socket_python | intros client].
  apply preserves_bind; [apply sock_connect_python | intros _].
  apply preserves_bind; [apply sock_send_python | intros _].
  apply sock_close_python.
Qed.

(** The notification always makes its socket, whatever happens next. *)
Lemma notify_next_sock w :
  (notify_existing_instance w).2.(next_sock) = S w.(next_sock).
Proof.
  assert (Hrest : forall client,
            preserves next_sock
              (sock_connect client LOCK_ADDR;; sock_send client SHOW;;
               sock_close client)).
  { intros client.
    apply preserves_bind; [| intros _; apply preserves_bind; [| intros _]].
    - intros w'. unfold sock_connect, raise, gets, modify, mbind, M_bind.
      destruct (os_call_cases w') as [-> | ->]; simpl; repeat case_match; simpl;
        by rewrite ?connected_next_sock.
    - intros w'. unfold sock_send, raise, gets, modify, mbind, M_bind, mret, M_ret.
      destruct (os_call_cases w') as [-> | ->]; simpl; repeat case_match; simpl; done.
    - intros w'. unfold sock_close, modify. simpl. apply closed_next_sock. }
  unfold notify_existing_instance, try_except.
  erewrite bind_Ret by reflexivity.
  match goal with |- context [?m ?w0] =>
    match type of w0 with World =>
      pose proof (Hrest w.(next_sock) w0) as H; simpl in H;
      destruct (m w0) as [[[] | e |] w1]
    end
  end; simpl in *; done.
Qed.

Lemma notify_returns w : exists w', notify_existing_instance w = (Ret tt, w').
Proof.
  unfold notify_existing_instance.
  destruct (try_bare_Ret _ tt w (notify_body_nonblocking w)) as ([] & w' & H).
  by exists w'.
Qed.

(** With nobody bound to the address, nothing is delivered. *)
Lemma notify_nobody w :
  w.(bound) !! LOCK_ADDR = None ->
  exists w', notify_existing_instance w = (Ret tt, w')
    /\ w'.(backlog) = w.(backlog) /\ w'.(wire) = w.(wire) /\ w'.(bound) = w.(bound).
Proof.
  intros Hb. unfold notify_existing_instance.
  destruct (sock_connect_nobody w.(next_sock) LOCK_ADDR
              (set_accepting (delete w.(next_sock) w.(accepting))
                 (set_next_sock (S w.(next_sock)) w)) Hb) as (e & He).
  eexists. split.
  { eapply try_Raise.
    - erewrite bind_Ret by reflexivity. erewrite bind_Raise by exact He. reflexivity.
    - reflexivity.
    - reflexivity. }
  done.
Qed.

(** The launch whose acquire returned false: [run] goes on with the print,
    then the notification, then [sys.exit(0)]; the state it ends in is the
    one the notification left. *)
Lemma run_redundant_steps w p w1 w2 w3 :
  acquire_single_instance_lock p w = (Ret false, w1) ->
  print p "CalendarWeek is already running." w1 = (Ret tt, w2) ->
  notify_existing_instance w2 = (Ret tt, w3) ->
  run p w = (Raise (SystemExit 0), w3).
Proof.
  intros Hacq Hpr Hn. unfold run.
  erewrite bind_Ret by exact Hacq. simpl.
  erewrite bind_Raise; [reflexivity |].
  erewrite bind_Ret by exact Hpr.
  erewrite bind_Ret by exact Hn. reflexivity.
Qed.

Lemma run_redundant w p w1 :
  acquire_single_instance_lock p w = (Ret false, w1) ->
  exists w2, run p w = (Raise (SystemExit 0), w2)
    /\ notify_existing_instance
         (set_stdout (<[p := default [] (w1.(stdout) !! p)
                             ++ ["CalendarWeek is already running."]]> w1.(stdout)) w1)
       = (Ret tt, w2)
    /\ w2.(tray) = w.(tray) /\ w2.(threads) = w.(threads)
    /\ w2.(atexit) = w.(atexit)
    /\ w2.(stdout) !! p
       = Some (default [] (w.(stdout) !! p) ++ ["CalendarWeek is already running."]).
Proof.
  intros Hacq.
  set (w1' := set_stdout (<[p := default [] (w1.(stdout) !! p)
                                 ++ ["CalendarWeek is already running."]]> w1.(stdout)) w1).
  destruct (notify_returns w1') as (w2 & Hn).
  exists w2. split; [by eapply run_redundant_steps |]. split; [done |].
  pose proof (acquire_python p w) as Hp. rewrite Hacq in Hp. simpl in Hp.
  injection Hp as _ Hth1 Hso1 Hae1 Htr1.
  pose proof (notify_python w1') as Hq. rewrite Hn in Hq. unfold python in Hq.
  simpl in Hq. injection Hq as _ _ Hth2 Hso2 Hae2 Htr2.
  repeat split; try congruence.
  rewrite Hso2, Hso1. apply lookup_insert_eq.
Qed.

(** The launch that acquired the lock goes on to the tray: the exit hook is
    registered, the three threads are started, the icon shows the week of the
    day, and the main thread stays in the event loop of the icon. *)
Lemma run_active w p w1 :
  acquire_single_instance_lock p w = (Ret true, w1) ->
  exists w2 i,
    run p w = (Blocked, w2)
    /\ w2.(tray) !! p = Some i /\ displays i (current_cw w.(today))
    /\ w2.(threads) !! p
       = Some (default [] (w.(threads) !! p)
               ++ [T_show_path_warning; T_listen_for_new_instances; T_refresh_loop])
    /\ w2.(atexit) !! p
       = Some (default [] (w.(atexit) !! p) ++ [H_release_single_instance_lock])
    /\ w2.(LOCK_SOCKET) = w1.(LOCK_SOCKET) /\ w2.(bound) = w1.(bound).
Proof.
  intros Hacq. unfold run.
  erewrite bind_Ret by exact Hacq. simpl.
  pose proof (acquire_python p w) as Hp. rewrite Hacq in Hp. simpl in Hp.
  injection Hp as Hto Hth _ Hae _.
  eexists _, _. split.
  { erewrite bind_Ret by reflexivity. erewrite bind_Ret by reflexivity.
    erewrite bind_Ret by reflexivity. erewrite bind_Ret by reflexivity.
    erewrite bind_Ret by reflexivity. erewrite bind_Ret by reflexivity.
    erewrite bind_Ret by reflexivity. reflexivity. }
  simpl. rewrite !lookup_insert_eq, Hto, Hth, Hae. split_and!; try done.
  simpl. by rewrite <- !app_assoc.
Qed.

(** C4. Notifying never raises: whatever fails on the way (nobody listening
    on the address included) is swallowed, and the Python side of every
    process is left as it was. A launch whose acquire returned false prints its
    message, then calls [notify_existing_instance] (the state [run] ends in is
    the one that call leaves, with the socket it made), and then leaves
    through [sys.exit(0)], whether or not the signal got through, without a
    tray icon and without starting any thread. *)
Theorem notify_best_effort w p :
  (exists w', notify_existing_instance w = (Ret tt, w') /\ python w' = python w)
  /\ (w.(bound) !! LOCK_ADDR = None ->
      exists w', notify_existing_instance w = (Ret tt, w')
        /\ w'.(backlog) = w.(backlog) /\ w'.(wire) = w.(wire))
  /\ (forall w1, acquire_single_instance_lock p w = (Ret false, w1) ->
      exists w2 w3,
        print p "CalendarWeek is already running." w1 = (Ret tt, w2)
        /\ notify_existing_instance w2 = (Ret tt, w3)
        /\ w3.(next_sock) = S w2.(next_sock)
        /\ run p w = (Raise (SystemExit 0), w3)
        /\ exit_status (run p w).1 = Some 0
        /\ w3.(tray) = w.(tray) /\ w3.(threads) = w.(threads)
        /\ w3.(stdout) !! p
           = Some (default [] (w.(stdout) !! p) ++ ["CalendarWeek is already running."])).
Proof.
  split; [| split].
  - destruct (notify_returns w) as (w' & H). exists w'. split; [done |].
    pose proof (notify_python w) as Hp. by rewrite H in Hp.
  - intros Hb. destruct (notify_nobody w Hb) as (w' & H & ? & ? & _). by exists w'.
  - intros w1 Hacq.
    destruct (run_redundant w p w1 Hacq) as (w3 & Hr & Hn & Ht & Hth & _ & Hso).
    eexists _, w3. split; [reflexivity |]. split; [exact Hn |].
    split; [| by rewrite Hr].
    pose proof (notify_next_sock
                  (set_stdout (<[p := default [] (w1.(stdout) !! p)
                                      ++ ["CalendarWeek is already running."]]>
                                 w1.(stdout)) w1)) as Hns.
    by rewrite Hn in Hns.
Qed.


Lemma notify_best_effort_witness :
  exists w1 w2 w3,
    acquire_single_instance_lock 1%nat (boot (mkdate 2024 1 1)) = (Ret true, w1)
    /\ acquire_single_instance_lock 2%nat w1 = (Ret false, w2)
    /\ run 2%nat w1 = (Raise (SystemExit 0), w3)
    /\ exit_status (run 2%nat w1).1 = Some 0%Z
    /\ w3.(tray) = w1.(tray) /\ w3.(threads) = w1.(threads).
Proof.
  destruct (acquire_free (boot (mkdate 2024 1 1)) 1%nat eq_refl eq_refl)
    as (w1 & H1 & Hl & Hb & Hf).
  destruct (acquire_cases 2%nat w1) as [(w2 & _ & Hfree & _) | (w2 & H2 & _)];
    [congruence |].
  destruct (proj2 (proj2 (notify_best_effort w1 2%nat)) w2 H2)
    as (w2' & w3 & _ & _ & _ & Hr & He & Ht & Hth & _).
  by exists w1, w2, w3.
Defined.

(** ** The listener *)


Lemma listen_body_held p w l :
  w.(LOCK_SOCKET) !! p = Some l ->
  listen_body p w
  = (c ← sock_accept p l;
     data ← sock_recv c 1024;
     sock_close c;;
     (if bool_decide (data = SHOW) then Thread_start p T_show_calendar else mret tt);;
     mret Continue) w.
Proof.
  intros H. unfold listen_body, get_LOCK_SOCKET.
  erewrite bind_Ret by reflexivity. simpl. rewrite H.
  by erewrite bind_Ret by (by apply LOCK_SOCKET_object_Some).
Qed.


Lemma received_held p w l :
  w.(LOCK_SOCKET) !! p = Some l ->
  received p w
  = match (c ← sock_accept p l; sock_recv c 1024) w with
    | (Ret data, _) => Some data
    | _ => None
    end.
Proof.
  intros H. unfold received.
  by erewrite bind_Ret by (by apply LOCK_SOCKET_object_Some).
Qed.

(** The state after the thread has been started, or not. *)
Lemma listen_tail p (data : bytes) w :
  ((if bool_decide (data = SHOW) then Thread_start p T_show_calendar else mret tt);;
   mret Continue) w
  = (Ret Continue,
     if bool_decide (data = SHOW)
     then set_threads (<[p := default [] (w.(threads) !! p) ++ [T_show_calendar]]>
                         w.(threads)) w
     else w).
Proof. by destruct (bool_decide (data = SHOW)). Qed.








(** ** The signal from end to end *)

Lemma listen_waits p w l n fuel :
  w.(faults) = [] -> w.(LOCK_SOCKET) !! p = Some l -> w.(backlog) !! l = Some (n, []) ->
  listen_for_new_instances (S fuel) p w = Some (Blocked, waiting_on p l w).
Proof.
  intros Hc Hl Hq. unfold listen_for_new_instances, listen_iteration. simpl.
  erewrite try_Blocked; [done |].
  rewrite (listen_body_held p w l Hl).
  by erewrite bind_Blocked by (by eapply sock_accept_empty).
Qed.

(** With a listener on the address and room in its queue, the notification
    puts one connection in the queue, carrying SHOW and closed by the
    sender. *)
Lemma notify_delivers w l n (q : list conn) :
  w.(faults) = [] -> w.(bound) !! LOCK_ADDR = Some l ->
  w.(backlog) !! l = Some (n, q) -> (Z.of_nat (length q) <= n)%Z ->
  l <> w.(next_sock) ->
  exists w',
    notify_existing_instance w = (Ret tt, w')
    /\ w'.(backlog) !! l = Some (n, q ++ [w.(next_conn)])
    /\ w'.(wire) !! w.(next_conn) = Some (SHOW, true)
    /\ w'.(bound) !! LOCK_ADDR = Some l
    /\ w'.(faults) = []
    /\ w'.(next_sock) = S w.(next_sock).
Proof.
  intros Hc Hb Hq Hn Hne. unfold notify_existing_instance.
  eexists. split.
  { eapply try_Ret.
    erewrite bind_Ret by reflexivity.
    erewrite bind_Ret by (by apply sock_connect_listening).
    erewrite bind_Ret.
    2:{ apply sock_send_client;
          [by rewrite connected_faults
          | rewrite connected_endpoint; apply lookup_insert_eq]. }
    reflexivity. }
  simpl.
  match goal with |- context [closed ?s ?x] =>
    rewrite (closed_idle s x)
      by (simpl; rewrite connected_accepting; apply lookup_delete_eq);
    destruct (freed_fields s x) as (-> & -> & _ & -> & -> & _ & _ & _);
    rewrite (freed_wire_client s w.(next_conn) x)
      by (simpl; rewrite connected_endpoint; apply lookup_insert_eq)
  end.
  simpl. rewrite connected_backlog, connected_wire, connected_bound,
    connected_faults, connected_next_sock. simpl. split_and!; try done.
  - by rewrite lookup_delete_ne, lookup_insert_eq.
  - rewrite lookup_alter_eq, lookup_alter_eq, lookup_insert_eq. done.
  - by apply map_lookup_filter_Some.
Qed.

(** With a connection waiting that carries [data], the turn receives it,
    starts the thread if it is SHOW, and goes on. *)
Lemma listen_iteration_delivers p w l n c rest data eof :
  w.(faults) = [] -> w.(LOCK_SOCKET) !! p = Some l ->
  w.(backlog) !! l = Some (n, c :: rest) -> w.(wire) !! c = Some (data, eof) ->
  data <> [] -> l <> w.(next_sock) ->
  received p w = Some (take 1024 data)
  /\ exists w',
    listen_iteration p w = (Ret Continue, w')
    /\ w'.(threads)
       = (if bool_decide (take 1024 data = SHOW)
          then <[p := default [] (w.(threads) !! p) ++ [T_show_calendar]]> w.(threads)
          else w.(threads))
    /\ w'.(backlog) !! l = Some (n, rest)
    /\ w'.(LOCK_SOCKET) = w.(LOCK_SOCKET)
    /\ w'.(faults) = [].
Proof.
  intros Hc Hl Hq Hw Hd Hne.
  set (s := w.(next_sock)).
  set (wa := set_endpoint (<[s := (server_side, c)]> w.(endpoint))
               (set_accepting (delete s (delete l w.(accepting)))
                  (set_next_sock (S s) (set_backlog (<[l := (n, rest)]> w.(backlog)) w)))).
  set (wr := set_wire (<[c := (drop 1024 data, eof)]> wa.(wire)) wa).
  assert (Hacc : sock_accept p l w = (Ret s, wa)) by (by apply sock_accept_pending).
  assert (Hrecv : sock_recv s 1024 wa = (Ret (take 1024 data), wr)).
  { apply sock_recv_data; try done. simpl. apply lookup_insert_eq. }
  split.
  { rewrite (received_held p w l Hl). erewrite bind_Ret by exact Hacc. by rewrite Hrecv. }
  eexists. split.
  { unfold listen_iteration. eapply try_Ret. rewrite (listen_body_held p w l Hl).
    erewrite bind_Ret by exact Hacc. erewrite bind_Ret by exact Hrecv.
    erewrite bind_Ret by reflexivity. apply listen_tail. }
  destruct (decide (take 1024 data = SHOW)) as [Hs | Hs];
    [rewrite !bool_decide_eq_true_2 by done | rewrite !bool_decide_eq_false_2 by done];
    simpl;
    rewrite (closed_idle s wr) by (simpl; apply lookup_delete_eq);
    rewrite ?freed_threads, freed_backlog, freed_LOCK_SOCKET, freed_faults; simpl;
    by rewrite lookup_delete_ne, lookup_insert_eq.
Qed.

(** C5. Process A has acquired the lock and its listener waits in accept;
    process B's acquire returns false and B notifies. Then B has connected to
    127.0.0.1 port 47200 and sent the 4 bytes SHOW and nothing else, A's
    listener receives SHOW, starts show_calendar once, and waits for the next
    connection. No failure from outside is pending on the socket calls. *)
Theorem show_signal_delivered w A B w1 :
  A <> B -> w.(faults) = [] ->
  acquire_single_instance_lock A w = (Ret true, w1) ->
  exists w1' w2 w3 w4,
    listen_for_new_instances 1 A w1 = Some (Blocked, w1')
    /\ acquire_single_instance_lock B w1' = (Ret false, w2)
    /\ notify_existing_instance w2 = (Ret tt, w3)
    /\ (exists l c,
          w3.(bound) !! ("127.0.0.1", 47200%Z) = Some l
          /\ w3.(LOCK_SOCKET) !! A = Some l
          /\ w1'.(accepting) !! l = Some A
          /\ pending A w3 = [c]
          /\ w3.(wire) !! c = Some (["S"; "H"; "O"; "W"]%byte, true))
    /\ received A w3 = Some SHOW
    /\ listen_for_new_instances 2 A w3 = Some (Blocked, w4)
    /\ w4.(threads) !! A = Some (default [] (w.(threads) !! A) ++ [T_show_calendar])
    /\ w4.(threads) !! B = w.(threads) !! B.
Proof.
  intros HAB Hcalm Hacq.
  destruct (acquire_cases A w)
    as [(w1_ & Ha & _ & Hl1 & Hb1 & Hq1 & Hn1 & Hf1 & _) | (w2 & Ha & _)];
    [| congruence].
  assert (w1_ = w1) as -> by congruence. clear Ha.
  set (l := w.(next_sock)) in *.
  rewrite Hcalm in Hf1. simpl in Hf1.
  pose proof (acquire_python A w) as Hp1. rewrite Hacq in Hp1. simpl in Hp1.
  injection Hp1 as _ Hth1 _ _ _.
  assert (HlA1 : w1.(LOCK_SOCKET) !! A = Some l) by (by rewrite Hl1, lookup_insert_eq).
  assert (Hql1 : w1.(backlog) !! l = Some (1%Z, [])) by (by rewrite Hq1, lookup_insert_eq).
  set (w1' := waiting_on A l w1).
  destruct (acquire_cases B w1')
    as [(w2 & _ & Hfree & _) | (w2 & Ha2 & Hl2 & Hb2 & Hq2 & Hn2 & Hf2 & _)].
  { simpl in Hfree. by rewrite Hb1, lookup_insert_eq in Hfree. }
  simpl in Hl2, Hb2, Hq2, Hn2, Hf2.
  pose proof (acquire_python B w1') as Hp2. rewrite Ha2 in Hp2. simpl in Hp2.
  injection Hp2 as _ Hth2 _ _ _.
  assert (HlA2 : w2.(LOCK_SOCKET) !! A = Some l).
  { by rewrite Hl2, lookup_delete_ne. }
  assert (Hbl2 : w2.(bound) !! LOCK_ADDR = Some l).
  { apply Hb2; [rewrite Hn1; lia |]. by rewrite Hb1, lookup_insert_eq. }
  assert (Hql2 : w2.(backlog) !! l = Some (1%Z, [])).
  { rewrite Hq2, lookup_delete_ne; [done | rewrite Hn1; lia]. }
  destruct (notify_delivers w2 l 1 [] (Hf2 Hf1) Hbl2 Hql2)
    as (w3 & Hnot & Hq3 & Hw3 & Hb3 & Hf3 & Hn3); [simpl; lia | rewrite Hn2, Hn1; lia |].
  pose proof (notify_python w2) as Hp3. rewrite Hnot in Hp3. unfold python in Hp3.
  simpl in Hp3. injection Hp3 as _ Hl3 Hth3 _ _ _.
  assert (HlA3 : w3.(LOCK_SOCKET) !! A = Some l) by (by rewrite Hl3).
  destruct (listen_iteration_delivers A w3 l 1 w2.(next_conn) [] SHOW true
              Hf3 HlA3 Hq3 Hw3) as (Hrec & w4 & Hit & Hth4 & Hq4 & Hl4 & Hf4);
    [done | rewrite Hn3, Hn2, Hn1; lia |].
  change (take 1024 SHOW) with SHOW in *.
  rewrite bool_decide_eq_true_2 in Hth4 by done.
  assert (HlA4 : w4.(LOCK_SOCKET) !! A = Some l) by (by rewrite Hl4).
  exists w1', w2, w3, (waiting_on A l w4). split_and!; try done.
  - by eapply listen_waits.
  - exists l, w2.(next_conn). split_and!; try done.
    + simpl. apply lookup_insert_eq.
    + unfold pending. by rewrite HlA3, Hq3.
  - unfold listen_for_new_instances. simpl. rewrite Hit.
    by eapply (listen_waits A w4 l 1 0).
  - simpl. rewrite Hth4, lookup_insert_eq. do 3 f_equal. simpl in Hth2. congruence.
  - simpl. rewrite Hth4, lookup_insert_ne by done. simpl in Hth2. congruence.
Qed.

Lemma show_signal_delivered_witness :
  exists w1 w1' w2 w3 w4,
    acquire_single_instance_lock 1%nat (boot (mkdate 2024 1 1)) = (Ret true, w1)
    /\ listen_for_new_instances 1 1%nat w1 = Some (Blocked, w1')
    /\ acquire_single_instance_lock 2%nat w1' = (Ret false, w2)
    /\ notify_existing_instance w2 = (Ret tt, w3)
    /\ listen_for_new_instances 2 1%nat w3 = Some (Blocked, w4)
    /\ w4.(threads) !! 1%nat = Some [T_show_calendar].
Proof.
  destruct (acquire_free (boot (mkdate 2024 1 1)) 1%nat eq_refl eq_refl) as (w1 & H1 & _).
  destruct (show_signal_delivered (boot (mkdate 2024 1 1)) 1%nat 2%nat w1
              ltac:(lia) eq_refl H1)
    as (w1' & w2 & w3 & w4 & H0 & H2 & H3 & _ & _ & H4 & Hth & _).
  by exists w1, w1', w2, w3, w4.
Defined.


End SignalFacts.

(** * Facts about the hourly refresh *)

Section RefreshFacts.

Implicit Types (w : World) (p : pid) (i : Icon).

Lemma refresh_tick_same p w :
  refresh_tick p (current_cw w.(today)) w = (Ret (current_cw w.(today)), w).
Proof.
  unfold refresh_tick. erewrite bind_Ret by reflexivity. by rewrite Z.eqb_refl.
Qed.

Lemma refresh_tick_changed p last_cw w i :
  w.(tray) !! p = Some i -> current_cw w.(today) <> last_cw ->
  exists w',
    refresh_tick p last_cw w = (Ret (current_cw w.(today)), w')
    /\ w'.(tray) !! p
       = Some (mkIcon i.(name) (create_icon (current_cw w.(today)))
                 ("Week " +:+ format_02d (current_cw w.(today)))
                 i.(visible) (S (S i.(updates)))).
Proof.
  intros Hi Hne. unfold refresh_tick. erewrite bind_Ret by reflexivity.
  apply Z.eqb_neq in Hne. rewrite Hne. simpl.
  eexists. split; [reflexivity |]. simpl. by rewrite !lookup_alter_eq, Hi.
Qed.

(** A tick keeps the icon in step with [last_cw], and keeps it visible. *)
Lemma refresh_tick_displays p last_cw w i :
  w.(tray) !! p = Some i -> displays i last_cw ->
  exists w' i',
    refresh_tick p last_cw w = (Ret (current_cw w.(today)), w')
    /\ w'.(tray) !! p = Some i' /\ i'.(visible) = i.(visible)
    /\ displays i' (current_cw w.(today)).
Proof.
  intros Hi Hd. destruct (decide (current_cw w.(today) = last_cw)) as [<- | Hne].
  - exists w, i. by rewrite refresh_tick_same.
  - destruct (refresh_tick_changed p last_cw w i Hi Hne) as (w' & Ht & Hw').
    eexists w', _. by split_and!.
Qed.

(** C9. A tick of the refresh assigns the icon and the title of the tray
    exactly when the week number just computed differs from [last_cw], the one
    the loop showed last; when it is the same, the whole state, the icon
    included, is left as it was. As long as the icon shows [last_cw] before the
    tick, it shows the value of [last_cw] after it. *)
Theorem refresh_tick_updates p last_cw w i :
  w.(tray) !! p = Some i ->
  (current_cw w.(today) = last_cw -> refresh_tick p last_cw w = (Ret last_cw, w))
  /\ (current_cw w.(today) <> last_cw ->
      exists w',
        refresh_tick p last_cw w = (Ret (current_cw w.(today)), w')
        /\ w'.(tray) !! p
           = Some (mkIcon i.(name) (create_icon (current_cw w.(today)))
                     ("Week " +:+ format_02d (current_cw w.(today)))
                     i.(visible) (S (S i.(updates)))))
  /\ ((refresh_tick p last_cw w).2.(tray) !! p <> Some i
      <-> current_cw w.(today) <> last_cw)
  /\ (displays i last_cw ->
      exists i', (refresh_tick p last_cw w).2.(tray) !! p = Some i'
        /\ (refresh_tick p last_cw w).1 = Ret (current_cw w.(today))
        /\ displays i' (current_cw w.(today))).
Proof.
  intros Hi. split_and!.
  - intros <-. apply refresh_tick_same.
  - by apply refresh_tick_changed.
  - split.
    + intros Hch Heq. apply Hch. subst last_cw. by rewrite refresh_tick_same.
    + intros Hne. destruct (refresh_tick_changed p last_cw w i Hi Hne) as (w' & -> & Hw').
      simpl. rewrite Hw'. intros [= Hu]. destruct i as [? ? ? ? u]. simpl in *.
      injection Hu. lia.
  - intros Hd. destruct (refresh_tick_displays p last_cw w i Hi Hd)
      as (w' & i' & -> & ? & _ & ?). by exists i'.
Qed.

Lemma refresh_tick_updates_witness :
  exists w',
    refresh_tick 1%nat 44
      (set_tray {[ 1%nat := new_Icon "CW" (create_icon 44) "Week 44" ]}
         (boot (mkdate 2026 11 3)))
    = (Ret 45, w')
    /\ w'.(tray) !! 1%nat = Some (mkIcon "CW" (create_icon 45) "Week 45" false 2).
Proof.
  exact (proj1 (proj2 (refresh_tick_updates 1%nat 44
    (set_tray {[ 1%nat := new_Icon "CW" (create_icon 44) "Week 44" ]}
       (boot (mkdate 2026 11 3)))
    (new_Icon "CW" (create_icon 44) "Week 44") eq_refl)) ltac:(done)).
Defined.

(** The loop as a whole: while the icon stays visible, after every wake-up the
    icon shows the week of the day, and the loop waits for the next one. *)
Lemma refresh_while_displays interval wakes p last_cw w i :
  w.(tray) !! p = Some i -> i.(visible) = true -> displays i last_cw ->
  exists w' i',
    refresh_while interval wakes p last_cw w = (Blocked, w')
    /\ w'.(tray) !! p = Some i' /\ i'.(visible) = true
    /\ displays i' (last_week last_cw wakes).
Proof.
  revert last_cw w i. induction wakes as [| d wakes IH]; intros last_cw w i Hi Hv Hd.
  - exists w, i. split; [| done]. simpl. unfold icon_visible.
    erewrite bind_Ret by reflexivity. simpl. by rewrite Hi; simpl; rewrite Hv.
  - simpl. unfold icon_visible at 1. erewrite bind_Ret by reflexivity.
    simpl. rewrite Hi. simpl. rewrite Hv.
    erewrite bind_Ret by reflexivity.
    destruct (refresh_tick_displays p last_cw (set_today d w) i Hi Hd)
      as (w2 & i' & Htick & Hi' & Hv' & Hd').
    erewrite bind_Ret by exact Htick. simpl in Hd'.
    apply (IH (current_cw d) w2 i' Hi'); [congruence | done].
Qed.

End RefreshFacts.

(** * Facts about the startup check *)

(** The files [add_to_startup] writes are read back as the path it wrote. *)
Example desktop_file_read_back :
  first_exec_line
    (readlines
       ("[Desktop Entry]" +:+ nl +:+ "Type=Application" +:+ nl +:+
        "Name=CalendarWeek" +:+ nl +:+ "Exec=/opt/cw/CalendarWeek" +:+ nl +:+
        "Hidden=false" +:+ nl +:+ "NoDisplay=false" +:+ nl +:+
        "X-GNOME-Autostart-enabled=true" +:+ nl)) false
  = Ret (Some (py_str "/opt/cw/CalendarWeek")).
Proof. reflexivity. Qed.

Example plist_file_read_back :
  re_search_program_string
    ("<dict>" +:+ nl +:+ "    <key>Label</key>" +:+ nl +:+
     "    <string>com.CalendarWeek</string>" +:+ nl +:+
     "    <key>ProgramArguments</key>" +:+ nl +:+ "    <array>" +:+ nl +:+
     "        <string>/Applications/CalendarWeek</string>" +:+ nl +:+
     "    </array>" +:+ nl +:+ "</dict>" +:+ nl)
  = Some "/Applications/CalendarWeek".
Proof. reflexivity. Qed.

Section StartupFacts.

Variable normpath : string -> string.


(** On Linux a desktop file that exists and cannot be opened is not turned
    into None: the error of [open] leaves [check_startup_path]. *)
Lemma check_startup_path_unreadable pl :
  pl.(SYSTEM) = "Linux" -> pl.(fs) (_get_startup_path_linux pl) = Unreadable ->
  get_registered_path pl = Raise (OSError EACCES)
  /\ check_startup_path normpath pl = Raise (OSError EACCES).
Proof.
  intros Hs Hf. unfold check_startup_path, is_in_startup, get_registered_path,
    path_exists, open_lines.
  by rewrite Hs, Hf.
Qed.

End StartupFacts.



(** * Facts about the calendar window *)

Section CalendarWindowFacts.

Import CalendarWindow.

(** A request made while the window is open, run with nothing in between:
    the existing window is brought to the front and no root is created. *)
Lemma show_calendar_while_open g t r :
  g.(pcs) !! t = Some at_check -> g.(window_lock) = None ->
  g.(calendar_window) = Some r -> r ∈ g.(alive) ->
  let g' := run_thread 5 t g in
  g'.(pcs) !! t = Some returned
  /\ g'.(alive) = g.(alive) /\ g'.(next_root) = g.(next_root)
  /\ g'.(lifted) = g.(lifted) ++ [r]
  /\ g'.(calendar_window) = Some r /\ g'.(window_lock) = None.
Proof.
  intros Ht Hlock Hwin Hr. destruct g as [cw wl al nr li ps]. simpl in *. subst.
  assert (Hlen : (t < length ps)%nat) by (by eapply lookup_lt_Some).
  unfold step, lock, goto, lift_and_focus, unlock. simpl. rewrite Ht. simpl.
  rewrite list_lookup_insert_eq by done. simpl.
  rewrite bool_decide_eq_true_2 by done. simpl.
  rewrite list_lookup_insert_eq by (by rewrite length_insert). simpl.
  split_and!; try done. apply list_lookup_insert_eq. by rewrite length_insert.
Qed.

(** Opening twice in a row, the second time with the window up: one window,
    brought to the front by the second request. *)
Example show_calendar_twice_in_turn :
  exists g,
    exec requests_in_turn init = Some g
    /\ g.(alive) = [0%nat] /\ g.(lifted) = [0%nat]
    /\ g.(pcs) = [in_mainloop 0%nat; returned]
    /\ g.(calendar_window) = Some 0%nat.
Proof. eexists. split; [vm_compute; reflexivity |]. split_and!; reflexivity. Qed.

(** The lock is respected by every step, whatever the schedule. *)
Lemma handle_exclusive e g g' : exclusive g -> handle e g = Some g' -> exclusive g'.
Proof.
  intros Hex. destruct g as [cw wl al nr li ps]. unfold exclusive in *. simpl in *.
  assert (Hins : forall t k wl',
            (forall t' k', t' <> t -> ps !! t' = Some k' -> critical k' = true ->
                           wl' = Some t') ->
            (critical k = true -> wl' = Some t) ->
            forall t' k', <[t := k]> ps !! t' = Some k' -> critical k' = true ->
                          wl' = Some t').
  { intros t k wl' Hother Hself t' k' Hlk Hcr.
    apply list_lookup_insert_Some in Hlk as [(-> & -> & _) | (Hne & Hlk)]; eauto. }
  assert (Hfree : wl = None -> forall t' k', ps !! t' = Some k' -> critical k' = true -> False).
  { intros -> t' k' Hlk Hcr. by specialize (Hex t' k' Hlk Hcr). }
  assert (Hheld : forall t k, ps !! t = Some k -> critical k = true ->
            forall t' k', t' <> t -> ps !! t' = Some k' -> critical k' = true -> False).
  { intros t k Hlk Hcr t' k' Hne Hlk' Hcr'.
    pose proof (Hex t k Hlk Hcr). pose proof (Hex t' k' Hlk' Hcr'). congruence. }
  destruct e as [| t | t]; simpl.
  - intros [= <-]. simpl. intros t k Hlk Hcr.
    apply lookup_app_Some in Hlk as [Hlk | [_ Hlk]]; [eauto |].
    apply list_lookup_singleton_Some in Hlk as [_ <-]. done.
  - unfold step, lock, unlock, goto, lift_and_focus, Tk, destroy,
      assign_calendar_window. simpl.
    destruct (ps !! t) as [k |] eqn:Hk; [| done].
    destruct k; simpl; try done;
      repeat match goal with
             | |- context [match wl with _ => _ end] => destruct wl eqn:Hwl; simpl
             | |- context [match cw with _ => _ end] => destruct cw eqn:Hcw; simpl
             | |- context [bool_decide ?P] => destruct (bool_decide P); simpl
             end;
      try done; intros [= <-]; simpl; apply Hins; try done;
      try (intros t' k' Hne Hlk' Hcr'; exfalso; by eauto);
      try (intros t' k' _; by apply Hex).
  - destruct (ps !! t) as [[] |] eqn:Hk; try done.
    intros [= <-]. simpl. apply Hins; [intros t' k' _; apply Hex | by simpl].
Qed.

Lemma exec_exclusive es g g' : exclusive g -> exec es g = Some g' -> exclusive g'.
Proof.
  revert g. induction es as [| e es IH]; intros g Hex; simpl.
  - by intros [= <-].
  - destruct (handle e g) as [g1 |] eqn:He; [| done].
    apply IH. by eapply handle_exclusive.
Qed.

Lemma init_exclusive : exclusive init.
Proof. intros t k Hlk. simpl in Hlk. by destruct t. Qed.

(** C2. Two requests to open the calendar, made one right after the other
    while no window is open: both threads pass the test of the handle before
    either has stored its window, since the lock is given back between the test
    and the assignment. Each takes the lock in turn and never while the other
    holds it, and each creates a root: two calendar windows are alive, and the
    handle knows the second only. *)
Theorem show_calendar_race :
  exists g,
    exec two_requests init = Some g
    /\ g.(alive) = [0; 1]%nat
    /\ g.(pcs) = [in_mainloop 0%nat; in_mainloop 1%nat]
    /\ g.(calendar_window) = Some 1%nat
    /\ g.(lifted) = [].
Proof. eexists. split; [vm_compute; reflexivity |]. split_and!; reflexivity. Qed.

End CalendarWindowFacts.

(** * Facts about the sheet of the calendar window *)

Section SheetFacts.

Local Ltac zdiv := Z.to_euclidean_division_equations; lia.

Lemma valid_date_iff y m d :
  valid_date (mkdate y m d) = true
  <-> 1 <= y <= 9999 /\ 1 <= m <= 12 /\ 1 <= d <= _days_in_month y m.
Proof.
  unfold valid_date, MINYEAR, MAXYEAR. simpl.
  rewrite !andb_true_iff, !Z.leb_le. lia.
Qed.

Lemma valid_date_iff' d :
  valid_date d = true
  <-> 1 <= d.(_year) <= 9999 /\ 1 <= d.(_month) <= 12
      /\ 1 <= d.(_day) <= _days_in_month d.(_year) d.(_month).
Proof. destruct d. apply valid_date_iff. Qed.

Lemma month_cases m : 1 <= m <= 12 ->
  m = 1 \/ m = 2 \/ m = 3 \/ m = 4 \/ m = 5 \/ m = 6 \/ m = 7 \/ m = 8
  \/ m = 9 \/ m = 10 \/ m = 11 \/ m = 12.
Proof. lia. Qed.

Lemma days_in_month_bounds y m : 1 <= m <= 12 -> 28 <= _days_in_month y m <= 31.
Proof.
  intros Hm. unfold _days_in_month.
  destruct (month_cases m Hm) as [-> | [-> | [-> | [-> | [-> | [-> | [-> | [-> | [-> | [-> | [-> | ->]]]]]]]]]]];
    simpl; try lia.
  destruct (_is_leap y); simpl; lia.
Qed.

Lemma mdays_days_in_month y m : 1 <= m <= 12 ->
  nth (Z.to_nat m) mdays 0 + (if (m =? 2) && isleap y then 1 else 0)
  = _days_in_month y m.
Proof.
  intros Hm. unfold _days_in_month. change (isleap y) with (_is_leap y).
  destruct (month_cases m Hm) as [-> | [-> | [-> | [-> | [-> | [-> | [-> | [-> | [-> | [-> | [-> | ->]]]]]]]]]]];
    simpl; try lia.
  destruct (_is_leap y); simpl; lia.
Qed.

(** The days [itermonthdays] yields. *)
Lemma itermonthdays_spec y m : 1 <= y <= 9999 -> 1 <= m <= 12 ->
  exists b a : nat,
    itermonthdays y m
    = Some (replicate b 0 ++ seqZ 1 (_days_in_month y m) ++ replicate a 0)
    /\ Z.of_nat b = date_weekday (mkdate y m 1)
    /\ (Z.of_nat b + _days_in_month y m + Z.of_nat a) mod 7 = 0
    /\ (b < 7)%nat /\ (a < 7)%nat.
Proof.
  intros Hy Hm. pose proof (days_in_month_bounds y m Hm) as Hn.
  assert (Hv : valid_date (mkdate y m 1) = true) by (apply valid_date_iff; lia).
  unfold itermonthdays, monthrange, calendar_weekday, datetime_date, MINYEAR, MAXYEAR.
  replace (negb ((1 <=? m) && (m <=? 12))) with false by (symmetry; apply negb_false_iff; apply andb_true_iff; lia).
  replace (negb ((1 <=? y) && (y <=? 9999))) with false by (symmetry; apply negb_false_iff; apply andb_true_iff; lia).
  rewrite Hv. rewrite mdays_days_in_month by done. cbn [mbind option_bind fst snd].
  eexists _, _. split; [reflexivity |].
  unfold firstweekday, date_weekday. generalize (toordinal (mkdate y m 1)). intros n.
  rewrite !Z2Nat.id by zdiv. split_and!; [zdiv | zdiv | zdiv | zdiv].
Qed.

(** Cutting a list into rows of seven. *)
Lemma range_by_7 n : range_by n 7 = (fun k => k * 7)%nat <$> seq 0 ((n + 6) / 7).
Proof. unfold range_by. by replace (n + 7 - 1)%nat with (n + 6)%nat by lia. Qed.

Lemma rows_concat {A} (l : list A) k : (length l <= 7 * k)%nat ->
  concat ((fun i => take 7 (drop i l)) <$> ((fun k => k * 7)%nat <$> seq 0 k)) = l.
Proof.
  revert l. induction k as [| k IH]; intros l Hl.
  - destruct l; [done | simpl in Hl; lia].
  - rewrite <- cons_seq, <- fmap_S_seq, !fmap_cons, <- !list_fmap_compose.
    simpl concat. rewrite drop_0.
    transitivity (take 7 l ++ drop 7 l); [| apply take_drop].
    f_equal. etransitivity; [| apply (IH (drop 7 l)); rewrite length_drop; lia].
    rewrite <- !list_fmap_compose.
    f_equal. apply list_fmap_ext. intros _ i _. simpl. rewrite drop_drop.
    do 2 f_equal; lia.
Qed.

Lemma rows_lookup {A} (l : list A) k i :
  (i < k)%nat ->
  ((fun i => take 7 (drop i l)) <$> ((fun k => k * 7)%nat <$> seq 0 k)) !! i
  = Some (take 7 (drop (7 * i) l)).
Proof.
  intros Hi. rewrite !list_lookup_fmap, lookup_seq_lt by done. simpl.
  do 3 f_equal. lia.
Qed.

Lemma rows_length {A} (l : list A) k :
  length ((fun i => take 7 (drop i l)) <$> ((fun k => k * 7)%nat <$> seq 0 k)) = k.
Proof. by rewrite !length_fmap, length_seq. Qed.


Lemma filter_replicate_0 (k : nat) : filter (fun d : Z => d ≠ 0) (replicate k 0) = [].
Proof. induction k as [| k IH]; [done |]. simpl. by rewrite filter_cons_False by (intros H; by apply H). Qed.

Lemma filter_all {A} (P : A -> Prop) `{!forall x, Decision (P x)} (l : list A) :
  Forall P l -> filter P l = l.
Proof.
  induction 1 as [| x l Hx _ IH]; [done |]. by rewrite filter_cons_True, IH.
Qed.

Lemma days_filter (b a : nat) n :
  filter (fun d : Z => d ≠ 0) (replicate b 0 ++ seqZ 1 n ++ replicate a 0) = seqZ 1 n.
Proof.
  rewrite !filter_app, !filter_replicate_0, app_nil_r. simpl.
  apply filter_all. apply Forall_forall. intros d Hd.
  apply elem_of_seqZ in Hd. lia.
Qed.

Lemma days_lookup (b a : nat) n (p : nat) d :
  (replicate b 0 ++ seqZ 1 n ++ replicate a 0) !! p = Some d -> d ≠ 0 ->
  (b <= p)%nat /\ Z.of_nat p < Z.of_nat b + n /\ d = Z.of_nat p - Z.of_nat b + 1.
Proof.
  intros Hl Hd. apply lookup_app_Some in Hl as [Hl | [Hb Hl]].
  { apply lookup_replicate in Hl as [-> _]. done. }
  rewrite length_replicate in Hb, Hl.
  apply lookup_app_Some in Hl as [Hl | [_ Hl]].
  - apply lookup_seqZ in Hl as [-> Hlt]. lia.
  - apply lookup_replicate in Hl as [-> _]. done.
Qed.

Lemma days_lookup_day (b a : nat) n (p : nat) :
  (b <= p)%nat -> Z.of_nat p < Z.of_nat b + n ->
  (replicate b 0 ++ seqZ 1 n ++ replicate a 0) !! p
  = Some (Z.of_nat p - Z.of_nat b + 1).
Proof.
  intros Hb Hn. rewrite lookup_app_r by (by rewrite length_replicate).
  rewrite length_replicate, lookup_app_l by (rewrite length_seqZ; lia).
  rewrite lookup_seqZ_lt by lia. f_equal. lia.
Qed.

(** The rows of a month, from the days [itermonthdays] yields. *)
Lemma monthcalendar_spec y m : 1 <= y <= 9999 -> 1 <= m <= 12 ->
  exists (b a k : nat) weeks,
    monthcalendar y m = Some weeks
    /\ Z.of_nat b = date_weekday (mkdate y m 1)
    /\ (b < 7)%nat /\ (a < 7)%nat
    /\ Z.of_nat b + _days_in_month y m + Z.of_nat a = 7 * Z.of_nat k
    /\ length weeks = k
    /\ concat weeks = replicate b 0 ++ seqZ 1 (_days_in_month y m) ++ replicate a 0
    /\ (forall i, (i < k)%nat ->
          weeks !! i
          = Some (take 7 (drop (7 * i)
                    (replicate b 0 ++ seqZ 1 (_days_in_month y m) ++ replicate a 0)))).
Proof.
  intros Hy Hm. pose proof (days_in_month_bounds y m Hm) as Hn.
  destruct (itermonthdays_spec y m Hy Hm) as (b & a & Hit & Hb & Hmod & Hb7 & Ha7).
  set (days := replicate b 0 ++ seqZ 1 (_days_in_month y m) ++ replicate a 0) in *.
  assert (Hlen : Z.of_nat (length days) = Z.of_nat b + _days_in_month y m + Z.of_nat a).
  { unfold days. rewrite !length_app, !length_replicate, length_seqZ. lia. }
  set (k := ((length days + 6) / 7)%nat).
  assert (Hk : length days = (7 * k)%nat).
  { unfold k. apply Nat2Z.inj. rewrite Nat2Z.inj_mul, Nat2Z.inj_div, Nat2Z.inj_add.
    rewrite Hlen in *. simpl Z.of_nat. zdiv. }
  exists b, a, k. eexists. unfold monthcalendar. rewrite Hit.
  cbn [mbind option_bind]. rewrite range_by_7. fold k.
  split_and!; try done.
  - lia.
  - apply rows_length.
  - apply rows_concat. change (length days <= 7 * k)%nat. by rewrite Hk.
  - intros i Hi. by apply rows_lookup.
Qed.

(** The place of a cell in the month: the day in row [i], column [j]. *)
Lemma week_lookup (b a k : nat) n weeks (i j : nat) week d :
  (forall i, (i < k)%nat ->
     weeks !! i = Some (take 7 (drop (7 * i) (replicate b 0 ++ seqZ 1 n ++ replicate a 0)))) ->
  length weeks = k ->
  weeks !! i = Some week -> week !! j = Some d -> d ≠ 0 ->
  (j < 7)%nat /\ (b <= 7 * i + j)%nat /\ Z.of_nat (7 * i + j) < Z.of_nat b + n
  /\ d = Z.of_nat (7 * i + j) - Z.of_nat b + 1.
Proof.
  intros Hrows Hlen Hi Hj Hd.
  assert (i < k)%nat as Hik by (rewrite <- Hlen; by eapply lookup_lt_Some).
  rewrite (Hrows i Hik) in Hi. injection Hi as <-.
  apply lookup_take_Some in Hj as [Hj Hj7]. rewrite lookup_drop in Hj.
  destruct (days_lookup _ _ _ _ _ Hj Hd) as (? & ? & ?). done.
Qed.

Lemma toordinal_day y m d : toordinal (mkdate y m d) = toordinal (mkdate y m 1) + d - 1.
Proof. unfold toordinal, _ymd2ord. simpl. lia. Qed.

(** Two days of one year in the same Monday-to-Sunday week have the same week
    number. *)
Lemma same_week y m1 d1 m2 d2 :
  toordinal (mkdate y m1 d1) - date_weekday (mkdate y m1 d1)
  = toordinal (mkdate y m2 d2) - date_weekday (mkdate y m2 d2) ->
  current_cw (mkdate y m1 d1) = current_cw (mkdate y m2 d2).
Proof.
  unfold current_cw, isocalendar, date_weekday.
  change (_ymd2ord (mkdate y m1 d1).(_year) (mkdate y m1 d1).(_month) (mkdate y m1 d1).(_day))
    with (toordinal (mkdate y m1 d1)).
  change (_ymd2ord (mkdate y m2 d2).(_year) (mkdate y m2 d2).(_month) (mkdate y m2 d2).(_day))
    with (toordinal (mkdate y m2 d2)).
  cbn [_year]. rewrite !isoweek1monday_spec.
  generalize (toordinal (mkdate y m1 d1)) (toordinal (mkdate y m2 d2)). intros n1 n2 Hmon.
  pose proof (week1_start_bounds y) as [_ W0].
  pose proof (week1_start_bounds (y + 1)) as [_ W1].
  pose proof (week1_start_bounds (y - 1)) as [_ Wp].
  revert W0 W1 Wp.
  generalize (week1_start y) (week1_start (y + 1)) (week1_start (y - 1)). intros w0 w1 wp W0 W1 Wp.
  assert ((n1 - w0) / 7 = (n2 - w0) / 7) as -> by zdiv.
  assert ((n1 - wp) / 7 = (n2 - wp) / 7) as -> by zdiv.
  assert ((w1 <=? n1) = (w1 <=? n2)) as ->.
  { destruct (Z.leb_spec w1 n1), (Z.leb_spec w1 n2); [done | exfalso; zdiv | exfalso; zdiv | done]. }
  destruct (_ <? 0); [done |]. destruct (52 <=? _); [| done]. by destruct (w1 <=? n2).
Qed.


(** The weekday of the day in row [i], column [j], and the Monday of its
    week. *)
Lemma cell_weekday y m (b i j : nat) d :
  Z.of_nat b = date_weekday (mkdate y m 1) -> (j < 7)%nat ->
  d = Z.of_nat (7 * i + j) - Z.of_nat b + 1 ->
  date_weekday (mkdate y m d) = Z.of_nat j
  /\ toordinal (mkdate y m d) - date_weekday (mkdate y m d)
     = toordinal (mkdate y m 1) - Z.of_nat b + 7 * Z.of_nat i.
Proof.
  unfold date_weekday. rewrite (toordinal_day y m d).
  generalize (toordinal (mkdate y m 1)). intros n Hb Hj ->.
  rewrite Nat2Z.inj_add, Nat2Z.inj_mul. simpl Z.of_nat. zdiv.
Qed.

(** Every row holds a day of the month. *)
Lemma row_has_day (b a k : nat) n (i : nat) :
  (b < 7)%nat -> (a < 7)%nat -> Z.of_nat b + n + Z.of_nat a = 7 * Z.of_nat k ->
  0 < n -> (i < k)%nat ->
  exists (j : nat) d,
    take 7 (drop (7 * i) (replicate b 0 ++ seqZ 1 n ++ replicate a 0)) !! j = Some d
    /\ d ≠ 0.
Proof.
  intros Hb Ha Hk Hn Hi. exists (Nat.max (7 * i) b - 7 * i)%nat.
  eexists. split.
  - rewrite lookup_take_lt by lia. rewrite lookup_drop.
    replace (7 * i + (Nat.max (7 * i) b - 7 * i))%nat with (Nat.max (7 * i) b) by lia.
    apply days_lookup_day; lia.
  - lia.
Qed.

Lemma first_day_spec week d :
  d ∈ week -> d ≠ 0 -> first_day week ∈ week /\ first_day week ≠ 0.
Proof.
  intros Hin Hd. unfold first_day.
  destruct (filter (fun d => d ≠ 0) week) as [| f rest] eqn:Hf.
  - exfalso. by eapply (filter_nil_not_elem_of _ _ d Hf).
  - simpl. assert (f ∈ filter (fun d => d ≠ 0) week) as Hin' by (rewrite Hf; left).
    apply list_elem_of_filter in Hin' as [? ?]. done.
Qed.

(** The days of a row lie in one Monday-to-Sunday week, and the first of them
    is a date. *)
Lemma row_days y m :
  1 <= y <= 9999 -> 1 <= m <= 12 ->
  exists weeks,
    monthcalendar y m = Some weeks
    /\ forall week, week ∈ weeks ->
        exists monday,
          first_day week ∈ week /\ first_day week ≠ 0
          /\ forall d, d ∈ week -> d ≠ 0 ->
               valid_date (mkdate y m d) = true
               /\ toordinal (mkdate y m d) - date_weekday (mkdate y m d) = monday.
Proof.
  intros Hy Hm. pose proof (days_in_month_bounds y m Hm) as Hn.
  destruct (monthcalendar_spec y m Hy Hm)
    as (b & a & k & weeks & Hmc & Hb & Hb7 & Ha7 & Hk & Hlen & _ & Hrows).
  exists weeks. split; [done |]. intros week Hweek.
  apply list_elem_of_lookup in Hweek as [i Hi].
  assert (i < k)%nat as Hik by (rewrite <- Hlen; by eapply lookup_lt_Some).
  destruct (row_has_day b a k _ i Hb7 Ha7 Hk ltac:(lia) Hik) as (j0 & d0 & Hj0 & Hd0).
  pose proof (Hrows i Hik) as Hwk. rewrite Hi in Hwk. apply (inj Some) in Hwk.
  rewrite <- Hwk in Hj0.
  exists (toordinal (mkdate y m 1) - Z.of_nat b + 7 * Z.of_nat i).
  destruct (first_day_spec week d0) as [Hf Hf0]; [by eapply list_elem_of_lookup_2 | done |].
  split_and!; try done.
  intros d Hd Hd0'. apply list_elem_of_lookup in Hd as [j Hj].
  destruct (week_lookup b a k _ weeks i j week d Hrows Hlen Hi Hj Hd0')
    as (Hj7 & Hge & Hlt & Hdj).
  split; [apply valid_date_iff; lia |].
  by destruct (cell_weekday y m b i j d Hb Hj7 Hdj).
Qed.

(** X1. The number in front of a row of the calendar is the ISO week number
    of every day on that row; each row holds at least one day of the month,
    so the fallback day of [next(..., 1)] is never taken. *)
Theorem week_number_of_row y m :
  1 <= y <= 9999 -> 1 <= m <= 12 ->
  exists weeks,
    monthcalendar y m = Some weeks
    /\ forall week, week ∈ weeks ->
        exists cw,
          week_number y m week = Some cw
          /\ first_day week ∈ week /\ first_day week ≠ 0
          /\ forall d, d ∈ week -> d ≠ 0 ->
               valid_date (mkdate y m d) = true /\ current_cw (mkdate y m d) = cw.
Proof.
  intros Hy Hm. destruct (row_days y m Hy Hm) as (weeks & Hmc & Hrows).
  exists weeks. split; [done |]. intros week Hweek.
  destruct (Hrows week Hweek) as (monday & Hf & Hf0 & Hcell).
  destruct (Hcell _ Hf Hf0) as [Hfv Hfm].
  exists (current_cw (mkdate y m (first_day week))). split_and!; try done.
  - unfold week_number, datetime_date. by rewrite Hfv.
  - intros d Hd Hdn. destruct (Hcell d Hd Hdn) as [Hv Hmon]. split; [done |].
    apply same_week. by rewrite Hmon, Hfm.
Qed.

Lemma week_number_of_row_witness :
  exists weeks cw,
    monthcalendar 2026 11 = Some weeks
    /\ weeks !! 1%nat = Some [2; 3; 4; 5; 6; 7; 8]
    /\ week_number 2026 11 [2; 3; 4; 5; 6; 7; 8] = Some cw
    /\ current_cw (mkdate 2026 11 8) = cw.
Proof.
  destruct (week_number_of_row 2026 11 ltac:(lia) ltac:(lia)) as (weeks & Hmc & Hrow).
  assert (weeks !! 1%nat = Some [2; 3; 4; 5; 6; 7; 8]) as Hw.
  { vm_compute in Hmc. by injection Hmc as <-. }
  destruct (Hrow [2; 3; 4; 5; 6; 7; 8]) as (cw & Hcw & _ & _ & Hd);
    [by eapply list_elem_of_lookup_2 |].
  destruct (Hd 8) as [_ H8]; [by apply (list_elem_of_lookup_2 _ 6%nat) | lia |].
  exists weeks, cw. split; [exact Hmc |]. split; [exact Hw |]. split; [exact Hcw | exact H8].
Defined.

(** X2. A month is laid out in four to six rows of seven cells; read row by
    row, the cells that are not empty are the days of the month, each once
    and in order; and a day stands in the column of its weekday, Monday
    first. *)
Theorem monthcalendar_layout y m :
  1 <= y <= 9999 -> 1 <= m <= 12 ->
  exists weeks,
    monthcalendar y m = Some weeks
    /\ (4 <= length weeks <= 6)%nat
    /\ Forall (fun week => length week = 7%nat) weeks
    /\ filter (fun d => d ≠ 0) (concat weeks) = seqZ 1 (_days_in_month y m)
    /\ (forall (i j : nat) week d,
          weeks !! i = Some week -> week !! j = Some d -> d ≠ 0 ->
          valid_date (mkdate y m d) = true
          /\ date_weekday (mkdate y m d) = Z.of_nat j).
Proof.
  intros Hy Hm. pose proof (days_in_month_bounds y m Hm) as Hn.
  destruct (monthcalendar_spec y m Hy Hm)
    as (b & a & k & weeks & Hmc & Hb & Hb7 & Ha7 & Hk & Hlen & Hcat & Hrows).
  exists weeks. split_and!; try done.
  - lia.
  - lia.
  - apply Forall_lookup. intros i week Hi.
    assert (i < k)%nat as Hik by (rewrite <- Hlen; by eapply lookup_lt_Some).
    rewrite (Hrows i Hik) in Hi. injection Hi as <-.
    rewrite length_take, length_drop, !length_app, !length_replicate, length_seqZ. lia.
  - rewrite Hcat. apply days_filter.
  - intros i j week d Hi Hj Hd.
    destruct (week_lookup b a k _ weeks i j week d Hrows Hlen Hi Hj Hd)
      as (Hj7 & Hge & Hlt & Hdj).
    split; [apply valid_date_iff; lia |].
    by destruct (cell_weekday y m b i j d Hb Hj7 Hdj).
Qed.

Lemma monthcalendar_layout_witness :
  exists weeks,
    monthcalendar 2024 2 = Some weeks
    /\ length weeks = 5%nat
    /\ filter (fun d => d ≠ 0) (concat weeks) = seqZ 1 29.
Proof.
  destruct (monthcalendar_layout 2024 2 ltac:(lia) ltac:(lia))
    as (weeks & Hmc & _ & _ & Hdays & _).
  exists weeks. split; [done |]. split; [| done].
  vm_compute in Hmc. by injection Hmc as <-.
Defined.


(** ** The labels of the sheet *)

Lemma mapM_fmap {A B} (f : A -> option B) (g : A -> B) (l : list A) :
  (forall x, x ∈ l -> f x = Some (g x)) -> mapM f l = Some (g <$> l).
Proof.
  intros H. apply mapM_Some_2. apply Forall2_fmap_r, Forall_Forall2_diag, Forall_forall.
  done.
Qed.

Lemma concat_fmap_fmap {A B} (f : A -> B) (ls : list (list A)) :
  concat (fmap (M:=list) (fmap (M:=list) f) ls) = fmap (M:=list) f (concat ls).
Proof.
  induction ls as [| l ls IH]; [done |]. rewrite fmap_cons. simpl concat.
  by rewrite fmap_app, IH.
Qed.

Lemma filter_fmap {A B} (f : A -> B) (P : B -> Prop) `{!forall y, Decision (P y)}
    (l : list A) :
  filter P (f <$> l) = f <$> filter (fun x => P (f x)) l.
Proof.
  induction l as [| x l IH]; [done |].
  rewrite fmap_cons, !filter_cons. destruct (decide (P (f x))); by rewrite ?fmap_cons, IH.
Qed.

Lemma filter_none {A} (P : A -> Prop) `{!forall x, Decision (P x)} (l : list A) :
  (forall x, x ∈ l -> ~ P x) -> filter P l = [].
Proof.
  induction l as [| x l IH]; intros Hno; [done |].
  rewrite filter_cons_False by (apply Hno; left). apply IH. intros y Hy. apply Hno. by right.
Qed.

Lemma elem_of_concat {A} (x : A) (ls : list (list A)) :
  x ∈ concat ls -> exists l, l ∈ ls /\ x ∈ l.
Proof.
  induction ls as [| l ls IH]; simpl; [by intros ?%elem_of_nil |].
  intros [H | H]%elem_of_app.
  - exists l. split; [left | done].
  - destruct (IH H) as (l' & ? & ?). exists l'. split; [by right | done].
Qed.

(** Day [t] is the only one of the days [1..n] equal to [t]. *)
Lemma filter_day (b a : nat) n t (Q : Prop) `{!Decision Q} :
  1 <= t <= n ->
  filter (fun d : Z => d ≠ 0 /\ d = t /\ Q) (replicate b 0 ++ seqZ 1 n ++ replicate a 0)
  = if decide Q then [t] else [].
Proof.
  intros Ht.
  assert (Hrep : forall k : nat,
            filter (fun d : Z => d ≠ 0 /\ d = t /\ Q) (replicate k 0) = []).
  { intros k. apply filter_none. intros x [-> _]%elem_of_replicate. by intros [? _]. }
  rewrite !filter_app, !Hrep, app_nil_r. simpl.
  destruct (decide Q) as [HQ | HQ]; [| apply filter_none; by intros x _ (_ & _ & ?)].
  replace n with ((t - 1) + (1 + (n - t))) by lia.
  rewrite seqZ_app by lia. rewrite (seqZ_app _ 1) by lia.
  rewrite !filter_app. replace (1 + (t - 1)) with t by lia.
  rewrite (filter_none _ (seqZ 1 (t - 1)))
    by (intros x Hx%elem_of_seqZ (_ & ? & _); lia).
  rewrite (filter_none _ (seqZ (t + 1) (n - t)))
    by (intros x Hx%elem_of_seqZ (_ & ? & _); lia).
  simpl. rewrite app_nil_r. change (seqZ t 1) with [t].
  rewrite filter_cons_True by (split_and!; [lia | done | done]). done.
Qed.

Lemma color_today_bg : colors !!! "today_bg" = "#ffef3d".
Proof. by vm_compute. Qed.
Lemma color_today_text : colors !!! "today_text" = "#37352f".
Proof. by vm_compute. Qed.
Lemma color_bg : colors !!! "bg" = "#ffffff".
Proof. by vm_compute. Qed.
Lemma color_text : colors !!! "text" = "#37352f".
Proof. by vm_compute. Qed.
Lemma color_week_num : colors !!! "week_num" = "#9b9a97".
Proof. by vm_compute. Qed.

(** A cell has the colour of today exactly when it is the day of today in the
    month of today. *)
Lemma day_label_today today m d :
  (day_label today m d).(label_bg) = colors !!! "today_bg"
  <-> d ≠ 0 /\ d = today.(_day) /\ m = today.(_month).
Proof.
  unfold day_label. rewrite color_today_bg, color_bg.
  destruct (Z.eqb_spec d 0) as [-> | Hd]; simpl.
  { split; [done | by intros [? _]]. }
  destruct (Z.eqb_spec d today.(_day)) as [-> | Ht],
    (Z.eqb_spec m today.(_month)) as [-> | Hm]; simpl;
    split; try done; intros (? & ? & ?); done.
Qed.

(** The rows of a month of the sheet. *)
Lemma month_sheet_spec today m :
  valid_date today = true -> 1 <= m <= 12 ->
  exists weeks,
    monthcalendar today.(_year) m = Some weeks
    /\ month_sheet today m
       = Some ((fun week =>
                  (mkLabel (format_02d (current_cw (mkdate today.(_year) m (first_day week))))
                     (colors !!! "bg") (colors !!! "week_num"),
                   day_label today m <$> week)) <$> weeks).
Proof.
  intros Hv Hm. destruct today as [y tm t]. apply valid_date_iff in Hv as (Hy & _ & _).
  cbn [_year].
  destruct (row_days y m Hy Hm) as (weeks & Hmc & Hrows).
  exists weeks. split; [done |]. unfold month_sheet. cbn [_year]. rewrite Hmc.
  cbn [mbind option_bind]. apply mapM_fmap. intros week Hweek.
  destruct (Hrows week Hweek) as (monday & Hf & Hf0 & Hd).
  destruct (Hd _ Hf Hf0) as [Hfv _].
  unfold week_row, week_number, datetime_date. cbn [_year]. by rewrite Hfv.
Qed.


Lemma day_label_of_today today :
  today.(_day) ≠ 0 ->
  day_label today today.(_month) today.(_day)
  = mkLabel (pretty today.(_day)) (colors !!! "today_bg") (colors !!! "today_text").
Proof.
  intros Ht. unfold day_label. apply Z.eqb_neq in Ht. by rewrite Ht, !Z.eqb_refl.
Qed.

(** The cells of a month drawn in the colour of today. *)
Lemma month_highlighted today m :
  valid_date today = true -> 1 <= m <= 12 ->
  exists rows,
    month_sheet today m = Some rows
    /\ filter (fun l => l.(label_bg) = colors !!! "today_bg") (concat (snd <$> rows))
       = if decide (m = today.(_month))
         then [mkLabel (pretty today.(_day)) (colors !!! "today_bg")
                 (colors !!! "today_text")]
         else [].
Proof.
  intros Hv Hm. destruct (month_sheet_spec today m Hv Hm) as (weeks & Hmc & Hms).
  eexists. split; [exact Hms |].
  apply valid_date_iff' in Hv as (Hy & Htm & Ht).
  destruct (monthcalendar_spec _ m Hy Hm)
    as (b & a & k & weeks' & Hmc' & _ & _ & _ & _ & _ & Hcat & _).
  rewrite Hmc in Hmc'. apply (inj Some) in Hmc' as <-.
  rewrite <- list_fmap_compose.
  change (snd ∘ _) with (fmap (M:=list) (day_label today m)).
  rewrite concat_fmap_fmap, filter_fmap, Hcat.
  rewrite (list_filter_iff _ (fun d => d ≠ 0 /\ d = today.(_day) /\ m = today.(_month)))
    by (intros d; apply day_label_today).
  destruct (decide (m = today.(_month))) as [-> | Hne].
  - rewrite filter_day by done. rewrite decide_True by done.
    simpl. by rewrite day_label_of_today by lia.
  - rewrite filter_none; [done |]. by intros d _ (_ & _ & ?).
Qed.

Lemma highlighted_cons rows sheet :
  highlighted (rows :: sheet)
  = filter (fun l => l.(label_bg) = colors !!! "today_bg") (concat (snd <$> rows))
    ++ highlighted sheet.
Proof. unfold highlighted. simpl. by rewrite fmap_app, concat_app, filter_app. Qed.

Lemma year_highlighted today months sheet :
  valid_date today = true -> Forall (fun m => 1 <= m <= 12) months ->
  Forall2 (fun m rows => month_sheet today m = Some rows) months sheet ->
  highlighted sheet
  = concat ((fun m => if decide (m = today.(_month))
                      then [mkLabel (pretty today.(_day)) (colors !!! "today_bg")
                              (colors !!! "today_text")]
                      else []) <$> months).
Proof.
  intros Hv Hms H. induction H as [| m rows months sheet Hrows _ IH]; [done |].
  apply Forall_cons in Hms as [Hm Hms].
  rewrite highlighted_cons, fmap_cons. simpl concat. rewrite <- IH by done. f_equal.
  destruct (month_highlighted today m Hv Hm) as (rows' & Hrows' & Hhl). congruence.
Qed.

(** X3. On the sheet of the year exactly one cell is drawn in the colour of
    today: the day of today, in the month of today. *)
Theorem today_highlighted today :
  valid_date today = true ->
  exists sheet,
    year_sheet today = Some sheet
    /\ length sheet = 12%nat
    /\ highlighted sheet = [mkLabel (pretty today.(_day)) "#ffef3d" "#37352f"].
Proof.
  intros Hv.
  assert (Hsheet : exists sheet, year_sheet today = Some sheet).
  { unfold year_sheet. apply (mapM_is_Some (month_sheet today)).
    apply Forall_forall. intros m Hm. apply elem_of_seqZ in Hm.
    destruct (month_highlighted today m Hv ltac:(lia)) as (rows & Hr & _).
    unfold compose. rewrite Hr. by eexists. }
  destruct Hsheet as (sheet & Hsheet). exists sheet. split; [done |].
  apply mapM_Some_1 in Hsheet.
  split.
  { apply Forall2_length in Hsheet. by rewrite <- Hsheet. }
  rewrite (year_highlighted today (seqZ 1 12) sheet Hv); [| | done].
  - rewrite color_today_bg, color_today_text.
    apply valid_date_iff' in Hv as (_ & Htm & _).
    destruct (month_cases _ Htm) as [-> | [-> | [-> | [-> | [-> | [-> | [-> | [-> | [-> | [-> | [-> | ->]]]]]]]]]]];
      reflexivity.
  - apply Forall_forall. intros m Hm. apply elem_of_seqZ in Hm. lia.
Qed.

Lemma today_highlighted_witness :
  exists sheet,
    year_sheet (mkdate 2026 11 3) = Some sheet
    /\ highlighted sheet = [mkLabel "3" "#ffef3d" "#37352f"].
Proof.
  destruct (today_highlighted (mkdate 2026 11 3) eq_refl) as (sheet & Hs & _ & Hh).
  exists sheet. split; [exact Hs | exact Hh].
Defined.

(** X4. The row of the day of today carries, in front, the week number the
    tray icon shows, and holds the cell drawn in the colour of today. *)
Theorem today_row today :
  valid_date today = true ->
  exists rows row,
    month_sheet today today.(_month) = Some rows /\ row ∈ rows
    /\ row.1.(label_text) = (create_icon (current_cw today)).(img_text)
    /\ mkLabel (pretty today.(_day)) (colors !!! "today_bg") (colors !!! "today_text")
       ∈ row.2.
Proof.
  intros Hv. pose proof Hv as Hv'. apply valid_date_iff' in Hv' as (Hy & Htm & Ht).
  destruct (month_sheet_spec today _ Hv Htm) as (weeks & Hmc & Hms).
  destruct (row_days _ _ Hy Htm) as (weeks' & Hmc' & Hrows).
  rewrite Hmc in Hmc'. apply (inj Some) in Hmc' as <-.
  destruct (monthcalendar_spec _ _ Hy Htm)
    as (b & a & k & weeks' & Hmc' & _ & _ & _ & _ & _ & Hcat & _).
  rewrite Hmc in Hmc'. apply (inj Some) in Hmc' as <-.
  assert (today.(_day) ∈ concat weeks) as Hin.
  { rewrite Hcat. apply elem_of_app. right. apply elem_of_app. left.
    apply elem_of_seqZ. lia. }
  apply elem_of_concat in Hin as (week & Hweek & Hday).
  destruct (Hrows week Hweek) as (monday & Hf & Hf0 & Hcell).
  eexists _, _. split; [exact Hms |]. split; [by apply list_elem_of_fmap_2 |].
  cbn [fst snd label_text]. split.
  - unfold create_icon. cbn [img_text]. f_equal.
    destruct (Hcell _ Hf Hf0) as [_ Hfm].
    destruct (Hcell _ Hday ltac:(lia)) as [_ Hdm].
    destruct today as [y tm t]. cbn [_year _month _day] in *.
    apply same_week. by rewrite Hfm, Hdm.
  - rewrite <- day_label_of_today by lia. by apply list_elem_of_fmap_2.
Qed.

Lemma today_row_witness :
  exists rows row,
    month_sheet (mkdate 2026 11 3) 11 = Some rows /\ row ∈ rows
    /\ row.1.(label_text) = "45"
    /\ mkLabel "3" "#ffef3d" "#37352f" ∈ row.2.
Proof.
  destruct (today_row (mkdate 2026 11 3) eq_refl) as (rows & row & Hs & Hr & Hw & Hc).
  exists rows, row. split; [exact Hs |]. split; [exact Hr |]. split; [exact Hw | exact Hc].
Defined.

End SheetFacts.

(** * Facts about strings *)

Section StringFacts.

Implicit Types (s t u : string) (c : ascii).

Lemma app_cons c s t : String c s +:+ t = String c (s +:+ t).
Proof. reflexivity. Qed.

Lemma app_nil_l t : EmptyString +:+ t = t.
Proof. reflexivity. Qed.

Lemma string_app_assoc s t u : (s +:+ t) +:+ u = s +:+ (t +:+ u).
Proof. induction s as [| c s IH]; [done |]. by rewrite !app_cons, IH. Qed.

Lemma rev_app_eq s t : String.rev_app s t = String.rev s +:+ t.
Proof.
  revert t. induction s as [| c s IH]; intros t; [done |].
  unfold String.rev. simpl. rewrite (IH (String c t)), (IH (String c EmptyString)).
  by rewrite string_app_assoc.
Qed.

Lemma rev_cons c s : String.rev (String c s) = String.rev s +:+ String c EmptyString.
Proof. unfold String.rev at 1. simpl. apply rev_app_eq. Qed.

Lemma rev_snoc s c : String.rev (s +:+ String c EmptyString) = String c (String.rev s).
Proof.
  induction s as [| c' s IH]; [done |]. by rewrite app_cons, !rev_cons, IH.
Qed.

Lemma string_forall_app P s t :
  string_forall P (s +:+ t) = string_forall P s && string_forall P t.
Proof.
  induction s as [| c s IH]; [done |]. rewrite app_cons. simpl.
  by rewrite IH, andb_assoc.
Qed.

Lemma string_forall_impl (P Q : ascii -> bool) s :
  (forall c, P c = true -> Q c = true) ->
  string_forall P s = true -> string_forall Q s = true.
Proof.
  intros HPQ. induction s as [| c s IH]; simpl; [done |].
  intros [? ?]%andb_true_iff. apply andb_true_iff. auto.
Qed.

(** Without a carriage return, a text is read as it was written. *)
Lemma universal_newlines_id s :
  string_forall (fun c => negb (Ascii.eqb c CR)) s = true -> universal_newlines s = s.
Proof.
  induction s as [| c s IH]; simpl; [done |].
  intros [Hc Hs]%andb_true_iff. apply negb_true_iff in Hc. rewrite Hc. by rewrite IH.
Qed.

(** A line of a text file: what stands before the first line feed. *)
Lemma lines_go_line cur s rest :
  string_forall (fun c => negb (Ascii.eqb c LF)) s = true ->
  lines_go cur (s +:+ String LF rest)
  = (String.rev cur +:+ s +:+ nl) :: lines_go EmptyString rest.
Proof.
  revert cur. induction s as [| c s IH]; intros cur.
  - intros _. rewrite !app_nil_l. simpl. by rewrite rev_cons.
  - simpl. intros [Hc Hs]%andb_true_iff. apply negb_true_iff in Hc.
    rewrite !app_cons. simpl. rewrite Hc.
    rewrite IH by done. by rewrite rev_cons, string_app_assoc.
Qed.

Lemma lstrip_app_nl s :
  lstrip (s +:+ nl)
  = if String.eqb (lstrip s) EmptyString then EmptyString else lstrip s +:+ nl.
Proof.
  induction s as [| c s IH]; [done |]. rewrite app_cons. simpl.
  destruct (isspace c); [done |]. done.
Qed.

(** [strip] takes a final line feed away. *)
Lemma strip_app_nl s : strip (s +:+ nl) = strip s.
Proof.
  unfold strip. rewrite lstrip_app_nl.
  destruct (String.eqb_spec (lstrip s) EmptyString) as [-> | Hne]; [done |].
  unfold nl. by rewrite rev_snoc.
Qed.

Lemma span_not_lt_app s t :
  string_forall (fun c => negb (Ascii.eqb c "<")) s = true ->
  span_not_lt (s +:+ String "<" t) = (s, String "<" t).
Proof.
  induction s as [| c s IH]; [done |]. simpl.
  intros [Hc Hs]%andb_true_iff. apply negb_true_iff in Hc.
  rewrite ?app_cons. simpl. rewrite Hc. by rewrite IH.
Qed.


(** ** The files [add_to_startup] writes, read by [get_registered_path] *)

Lemma desktop_content_no_CR exe_path :
  string_forall (fun c => negb (Ascii.eqb c CR)) exe_path = true ->
  universal_newlines (desktop_content exe_path) = desktop_content exe_path.
Proof.
  intros H. apply universal_newlines_id. unfold desktop_content.
  rewrite !string_forall_app, H. reflexivity.
Qed.

Lemma desktop_read_back exe_path :
  string_forall (fun c => negb (Ascii.eqb c LF) && negb (Ascii.eqb c CR)) exe_path = true ->
  first_exec_line (readlines (universal_newlines (desktop_content exe_path))) false
  = Ret (Some (py_str (strip exe_path))).
Proof.
  intros Hline.
  rewrite desktop_content_no_CR
    by (eapply string_forall_impl, Hline; by intros c [_ ?]%andb_true_iff).
  assert (Hlf : string_forall (fun c => negb (Ascii.eqb c LF)) exe_path = true)
    by (eapply string_forall_impl, Hline; by intros c [? _]%andb_true_iff).
  unfold desktop_content, readlines.
  unfold nl, APP_NAME. rewrite !app_cons, !app_nil_l. simpl.
  rewrite lines_go_line by done.
  change (String.rev "=cexE") with "Exec=". rewrite !app_cons, app_nil_l.
  cbn [first_exec_line startswith Ascii.eqb Bool.eqb after_first_equals].
  by rewrite strip_app_nl.
Qed.


Lemma plist_content_no_CR exe_path :
  string_forall (fun c => negb (Ascii.eqb c CR)) exe_path = true ->
  universal_newlines (plist_content exe_path) = plist_content exe_path.
Proof.
  intros H. apply universal_newlines_id. unfold plist_content.
  rewrite !string_forall_app, H. reflexivity.
Qed.

Lemma plist_read_back rest :
  rest <> EmptyString ->
  string_forall (fun c => negb (Ascii.eqb c "<") && negb (Ascii.eqb c CR)) rest = true ->
  re_search_program_string (universal_newlines (plist_content (String "/" rest)))
  = Some (String "/" rest).
Proof.
  intros Hne Hrest.
  assert (Hcr : string_forall (fun c => negb (Ascii.eqb c CR)) rest = true)
    by (eapply string_forall_impl, Hrest; by intros c [_ ?]%andb_true_iff).
  assert (Hlt : string_forall (fun c => negb (Ascii.eqb c "<")) rest = true)
    by (eapply string_forall_impl, Hrest; by intros c [? _]%andb_true_iff).
  rewrite plist_content_no_CR by done.
  unfold plist_content, nl, dq, APP_NAME. rewrite !app_cons, !app_nil_l. simpl.
  unfold match_program_string.
  cbn [startswith Ascii.eqb Bool.eqb string_drop].
  rewrite span_not_lt_app by done.
  apply String.eqb_neq in Hne. rewrite Hne.
  reflexivity.
Qed.

End StringFacts.

(** * Facts about the changes of the registration *)

Section RegistrationFacts.

Variable normpath : string -> string.

Implicit Types (pl : Platform) (ac : Access).

Lemma on_windows pl : pl.(SYSTEM) = "Windows" ->
  is_in_startup pl
  = (if pl.(winreg_OpenKey) then
       match pl.(winreg_QueryValueEx) APP_NAME with RegValue _ => true | _ => false end
     else false)
  /\ get_registered_path pl
     = if pl.(winreg_OpenKey) then
         match pl.(winreg_QueryValueEx) APP_NAME with
         | RegValue value => Ret value
         | _ => Ret None
         end
       else Ret None.
Proof.
  intros H. unfold is_in_startup, get_registered_path. rewrite H. simpl.
  split; [by destruct (winreg_QueryValueEx pl APP_NAME) |].
  destruct (winreg_OpenKey pl); [| done]. by destruct (winreg_QueryValueEx pl APP_NAME).
Qed.

Lemma on_linux pl : pl.(SYSTEM) = "Linux" ->
  is_in_startup pl = path_exists pl (_get_startup_path_linux pl)
  /\ get_registered_path pl
     = if path_exists pl (_get_startup_path_linux pl) then
         match open_lines pl (_get_startup_path_linux pl) with
         | Ret (lines, bad) => first_exec_line lines bad
         | Raise e => Raise e
         | Blocked => Blocked
         end
       else Ret None.
Proof. intros H. unfold is_in_startup, get_registered_path. by rewrite H. Qed.

Lemma on_macos pl : pl.(SYSTEM) = "Darwin" ->
  is_in_startup pl = path_exists pl (_get_startup_path_macos pl)
  /\ get_registered_path pl
     = if path_exists pl (_get_startup_path_macos pl) then
         match open_read pl (_get_startup_path_macos pl) with
         | Ret content => Ret (py_str <$> re_search_program_string content)
         | Raise e => Raise e
         | Blocked => Blocked
         end
       else Ret None.
Proof. intros H. unfold is_in_startup, get_registered_path. by rewrite H. Qed.

Lemma on_other pl :
  pl.(SYSTEM) <> "Windows" -> pl.(SYSTEM) <> "Linux" -> pl.(SYSTEM) <> "Darwin" ->
  is_in_startup pl = false /\ get_registered_path pl = Ret None
  /\ (forall ac, add_to_startup ac pl = (false, pl))
  /\ (forall ac, remove_from_startup ac pl = (false, pl)).
Proof.
  intros Hw%String.eqb_neq Hl%String.eqb_neq Hd%String.eqb_neq.
  unfold is_in_startup, get_registered_path, add_to_startup, remove_from_startup.
  by rewrite Hw, Hl, Hd.
Qed.

Lemma set_file_fs path f pl : (set_file path f pl).(fs) path = f.
Proof. simpl. by rewrite String.eqb_refl. Qed.

Lemma write_text_readable ac path content pl pl' :
  pl.(fs) path <> Unreadable -> write_text ac path content pl = Some pl' ->
  pl' = set_file path (TextFile (universal_newlines content)) pl.
Proof.
  unfold write_text. intros Hr. destruct (open_w ac path); [| done].
  intros [= <-]. by destruct (fs pl path).
Qed.

(** What [add_to_startup] leaves behind when it returns True. *)
Lemma add_to_startup_True ac pl pl' :
  can_read pl -> add_to_startup ac pl = (true, pl') ->
  (pl.(SYSTEM) = "Windows" /\ pl' = SetValueEx APP_NAME (get_exe_path pl) pl)
  \/ (pl.(SYSTEM) = "Linux"
      /\ pl' = set_file (_get_startup_path_linux pl)
                 (TextFile (universal_newlines (desktop_content (get_exe_path pl)))) pl)
  \/ (pl.(SYSTEM) = "Darwin"
      /\ pl' = set_file (_get_startup_path_macos pl)
                 (TextFile (universal_newlines (plist_content (get_exe_path pl)))) pl).
Proof.
  intros [_ Hr]. unfold add_to_startup.
  destruct (String.eqb_spec pl.(SYSTEM) "Windows") as [Hw | Hw].
  { destruct (winreg_KEY_SET_VALUE ac); [| done]. intros [= <-]. by left. }
  destruct (String.eqb_spec pl.(SYSTEM) "Linux") as [Hl | Hl].
  { destruct (os_makedirs ac _); [| done].
    destruct (write_text _ _ _ _) as [pl1 |] eqn:Hwr; [| done]. intros [= <-].
    right; left. split; [done |]. by eapply write_text_readable. }
  destruct (String.eqb_spec pl.(SYSTEM) "Darwin") as [Hd | Hd]; [| done].
  destruct (os_makedirs ac _); [| done].
  destruct (write_text _ _ _ _) as [pl1 |] eqn:Hwr; [| done]. intros [= <-].
  right; right. split; [done |]. by eapply write_text_readable.
Qed.

(** After [add_to_startup] returned True the application is registered. *)
Lemma add_to_startup_in_startup ac pl pl' :
  can_read pl -> add_to_startup ac pl = (true, pl') ->
  is_in_startup pl' = true
  /\ get_exe_path pl' = get_exe_path pl
  /\ pl'.(SYSTEM) = pl.(SYSTEM)
  /\ can_read pl'.
Proof.
  intros Hcr Hadd. pose proof Hcr as [Hreg Hfs].
  destruct (add_to_startup_True ac pl pl' Hcr Hadd)
    as [[Hs ->] | [[Hs ->] | [Hs ->]]].
  - destruct (on_windows (SetValueEx APP_NAME (get_exe_path pl) pl) Hs) as [-> _].
    simpl. rewrite (Hreg Hs). by split_and!.
  - match goal with |- is_in_startup ?p = _ /\ _ =>
      destruct (on_linux p Hs) as [-> _] end.
    change (_get_startup_path_linux (set_file _ _ pl)) with (_get_startup_path_linux pl).
    unfold path_exists. rewrite set_file_fs. split_and!; try done.
    split; [simpl; congruence |]. intros path. simpl.
    destruct (String.eqb path _); [done | apply Hfs].
  - match goal with |- is_in_startup ?p = _ /\ _ =>
      destruct (on_macos p Hs) as [-> _] end.
    change (_get_startup_path_macos (set_file _ _ pl)) with (_get_startup_path_macos pl).
    unfold path_exists. rewrite set_file_fs. split_and!; try done.
    split; [simpl; congruence |]. intros path. simpl.
    destruct (String.eqb path _); [done | apply Hfs].
Qed.

(** The path the desktop file of Linux hands back: the one written, without
    the blanks at its ends. *)
Lemma add_to_startup_linux ac pl pl' :
  pl.(SYSTEM) = "Linux" -> can_read pl ->
  string_forall (fun c => negb (Ascii.eqb c LF) && negb (Ascii.eqb c CR))
    (get_exe_path pl) = true ->
  add_to_startup ac pl = (true, pl') ->
  get_registered_path pl' = Ret (Some (py_str (strip (get_exe_path pl)))).
Proof.
  intros Hs Hcr Hline Hadd.
  destruct (add_to_startup_True ac pl pl' Hcr Hadd)
    as [[Hs' ->] | [[_ ->] | [Hs' ->]]]; [congruence | | congruence].
  match goal with |- get_registered_path ?p = _ =>
    destruct (on_linux p Hs) as [_ ->] end.
  change (_get_startup_path_linux (set_file _ _ pl)) with (_get_startup_path_linux pl).
  unfold path_exists, open_lines. rewrite set_file_fs.
  by rewrite desktop_read_back.
Qed.

(** The registration [add_to_startup] made, read back. *)
Lemma add_to_startup_registered ac pl pl' :
  can_read pl -> plain_exe_path pl = true ->
  add_to_startup ac pl = (true, pl') ->
  is_in_startup pl' = true
  /\ get_registered_path pl' = Ret (Some (py_str (get_exe_path pl)))
  /\ get_exe_path pl' = get_exe_path pl
  /\ pl'.(SYSTEM) = pl.(SYSTEM)
  /\ can_read pl'.
Proof.
  intros Hcr Hplain Hadd. pose proof Hcr as [Hreg Hfs].
  destruct (add_to_startup_in_startup ac pl pl' Hcr Hadd) as (Hin & Hexe & Hsys & Hcr').
  split_and!; try done.
  destruct (add_to_startup_True ac pl pl' Hcr Hadd)
    as [[Hs ->] | [[Hs ->] | [Hs ->]]].
  - destruct (on_windows (SetValueEx APP_NAME (get_exe_path pl) pl) Hs) as [_ ->].
    simpl. by rewrite (Hreg Hs).
  - unfold plain_exe_path in Hplain. rewrite Hs in Hplain. simpl in Hplain.
    apply andb_true_iff in Hplain as [Hline Hstrip%String.eqb_eq].
    rewrite (add_to_startup_linux ac pl _ Hs Hcr Hline Hadd). by rewrite Hstrip.
  - match goal with |- get_registered_path ?p = _ =>
      destruct (on_macos p Hs) as [_ ->] end.
    change (_get_startup_path_macos (set_file _ _ pl)) with (_get_startup_path_macos pl).
    unfold path_exists, open_read. rewrite set_file_fs.
    unfold plain_exe_path in Hplain. rewrite Hs in Hplain. simpl in Hplain.
    destruct (get_exe_path pl) as [| c rest] eqn:Hexe'; [done |].
    apply andb_true_iff in Hplain as [[Hc%Ascii.eqb_eq Hne%negb_true_iff]%andb_true_iff Hrest].
    apply String.eqb_neq in Hne. subst c.
    by rewrite plist_read_back.
Qed.

Lemma check_registered pl :
  is_in_startup pl = true ->
  get_registered_path pl = Ret (Some (py_str (get_exe_path pl))) ->
  check_startup_path normpath pl = Ret (true, None).
Proof.
  intros Hin Hreg. unfold check_startup_path. rewrite Hin, Hreg. simpl.
  rewrite String.eqb_refl. simpl. by destruct (negb _).
Qed.

Lemma check_not_registered pl :
  is_in_startup pl = false -> check_startup_path normpath pl = Ret (true, None).
Proof. intros Hin. unfold check_startup_path. by rewrite Hin. Qed.

Lemma remove_file_spec ac path pl pl' :
  remove_file ac path pl = Some pl' -> pl' = set_file path NoFile pl.
Proof.
  unfold remove_file. destruct (fs pl path); [done | | |];
    (destruct (os_remove ac path); [by intros [= <-] | done]).
Qed.

(** What [remove_from_startup] leaves behind. *)
Lemma remove_from_startup_spec ac pl b pl' :
  remove_from_startup ac pl = (b, pl') ->
  pl'.(SYSTEM) = pl.(SYSTEM)
  /\ get_exe_path pl' = get_exe_path pl
  /\ (can_read pl -> can_read pl')
  /\ (b = true -> is_in_startup pl' = false /\ get_registered_path pl' = Ret None
                  /\ remove_from_startup ac pl' = (false, pl'))
  /\ (b = false -> pl' = pl).
Proof.
  unfold remove_from_startup at 1.
  destruct (String.eqb_spec pl.(SYSTEM) "Windows") as [Hw | Hw].
  { destruct (winreg_KEY_SET_VALUE ac) eqn:Hset; [| by intros [= <- <-]].
    unfold DeleteValue.
    destruct (winreg_QueryValueEx pl APP_NAME) eqn:Hq; try by intros [= <- <-].
    intros [= <- <-]. split_and!; try done.
    intros _.
    match goal with |- is_in_startup ?p = _ /\ _ =>
      destruct (on_windows p Hw) as [-> ->] end.
    simpl. split_and!; [by destruct (winreg_OpenKey pl) | by destruct (winreg_OpenKey pl) |].
    unfold remove_from_startup, DeleteValue. simpl. by rewrite Hw, Hset. }
  destruct (String.eqb_spec pl.(SYSTEM) "Linux") as [Hl | Hl].
  { destruct (remove_file _ _ _) as [pl1 |] eqn:Hrm; [| by intros [= <- <-]].
    apply remove_file_spec in Hrm as ->. intros [= <- <-]. split_and!; try done.
    - intros [Hreg Hfs]. split; [done |]. intros path. simpl.
      destruct (String.eqb path _); [done | apply Hfs].
    - intros _.
      match goal with |- is_in_startup ?p = _ /\ _ =>
        destruct (on_linux p Hl) as [-> ->] end.
      change (_get_startup_path_linux (set_file _ _ pl)) with (_get_startup_path_linux pl).
      unfold path_exists. rewrite set_file_fs. split_and!; try done.
      unfold remove_from_startup, remove_file.
      change (_get_startup_path_linux (set_file _ _ pl)) with (_get_startup_path_linux pl).
      rewrite set_file_fs. simpl. by rewrite Hl. }
  destruct (String.eqb_spec pl.(SYSTEM) "Darwin") as [Hd | Hd]; [| by intros [= <- <-]].
  destruct (remove_file _ _ _) as [pl1 |] eqn:Hrm; [| by intros [= <- <-]].
  apply remove_file_spec in Hrm as ->. intros [= <- <-]. split_and!; try done.
  - intros [Hreg Hfs]. split; [done |]. intros path. simpl.
    destruct (String.eqb path _); [done | apply Hfs].
  - intros _.
    match goal with |- is_in_startup ?p = _ /\ _ =>
      destruct (on_macos p Hd) as [-> ->] end.
    change (_get_startup_path_macos (set_file _ _ pl)) with (_get_startup_path_macos pl).
    unfold path_exists. rewrite set_file_fs. split_and!; try done.
    unfold remove_from_startup, remove_file.
    change (_get_startup_path_macos (set_file _ _ pl)) with (_get_startup_path_macos pl).
    rewrite set_file_fs. simpl. by rewrite Hd.
Qed.

(** With every change allowed, registering works on the platforms the code
    knows, and removing works when there is a registration. *)
Lemma add_to_startup_granted ac pl :
  supported pl -> grants_all ac -> (add_to_startup ac pl).1 = true.
Proof.
  intros Hs (Hw & Hm & Ho & _). unfold add_to_startup, write_text.
  rewrite Hw, !Hm, !Ho.
  destruct (String.eqb_spec pl.(SYSTEM) "Windows"); [done |].
  destruct (String.eqb_spec pl.(SYSTEM) "Linux"); [done |].
  destruct (String.eqb_spec pl.(SYSTEM) "Darwin"); [done |].
  by destruct Hs as [? | [? | ?]].
Qed.

Lemma remove_from_startup_granted ac pl :
  grants_all ac -> is_in_startup pl = true -> (remove_from_startup ac pl).1 = true.
Proof.
  intros (Hw & _ & _ & Hr) Hin. unfold remove_from_startup, remove_file, DeleteValue.
  rewrite Hw, !Hr.
  destruct (String.eqb_spec pl.(SYSTEM) "Windows") as [Hsw | Hsw].
  { destruct (on_windows pl Hsw) as [Hi _]. rewrite Hi in Hin.
    destruct (winreg_OpenKey pl); [| done].
    by destruct (winreg_QueryValueEx pl APP_NAME). }
  destruct (String.eqb_spec pl.(SYSTEM) "Linux") as [Hsl | Hsl].
  { destruct (on_linux pl Hsl) as [Hi _]. rewrite Hi in Hin. unfold path_exists in Hin.
    by destruct (fs pl _). }
  destruct (String.eqb_spec pl.(SYSTEM) "Darwin") as [Hsd | Hsd].
  { destruct (on_macos pl Hsd) as [Hi _]. rewrite Hi in Hin. unfold path_exists in Hin.
    by destruct (fs pl _). }
  destruct (on_other pl Hsw Hsl Hsd) as [Hi _]. congruence.
Qed.

Lemma plain_exe_path_eq pl pl' :
  pl'.(SYSTEM) = pl.(SYSTEM) -> get_exe_path pl' = get_exe_path pl ->
  plain_exe_path pl' = plain_exe_path pl.
Proof. intros Hs He. unfold plain_exe_path. by rewrite Hs, He. Qed.

(** [fix_startup_path] returning True leaves the current path registered. *)
Lemma fix_startup_path_registered ac pl pl' :
  can_read pl -> plain_exe_path pl = true ->
  fix_startup_path ac pl = (true, pl') ->
  is_in_startup pl' = true
  /\ get_registered_path pl' = Ret (Some (py_str (get_exe_path pl')))
  /\ can_read pl'.
Proof.
  intros Hcr Hplain. unfold fix_startup_path.
  destruct (remove_from_startup ac pl) as [b pl1] eqn:Hrm. simpl.
  destruct (remove_from_startup_spec ac pl b pl1 Hrm) as (Hs & He & Hcr1 & _ & _).
  intros Hadd.
  destruct (add_to_startup_registered ac pl1 pl' (Hcr1 Hcr)) as (? & ? & Hexe & _ & ?);
    [by rewrite (plain_exe_path_eq pl pl1) | done |].
  split_and!; try done. congruence.
Qed.


Lemma moved_install_can_read : can_read moved_install.
Proof.
  split; [done |]. intros path. simpl. by destruct (String.eqb path _).
Qed.

Lemma blank_install_can_read : can_read blank_install.
Proof. by split. Qed.

Lemma all_access_grants_all : grants_all all_access.
Proof. by split_and!. Qed.

(** X5. A registration that [add_to_startup] reports as made is found again:
    the application is in the startup list, the path read back is the path of
    the executable, and the startup check finds nothing wrong. *)
Theorem add_to_startup_read_back ac pl pl' :
  can_read pl -> plain_exe_path pl = true ->
  add_to_startup ac pl = (true, pl') ->
  is_in_startup pl' = true
  /\ get_registered_path pl' = Ret (Some (py_str (get_exe_path pl)))
  /\ check_startup_path normpath pl' = Ret (true, None).
Proof.
  intros Hcr Hplain Hadd.
  destruct (add_to_startup_registered ac pl pl' Hcr Hplain Hadd)
    as (Hin & Hreg & Hexe & _ & _).
  split_and!; try done. apply check_registered; [done |]. by rewrite Hexe.
Qed.

(** X6. After [remove_from_startup] returned True nothing is registered any
    more: the application is not in the startup list, no path is read back,
    the startup check passes, and removing once more returns False and
    changes nothing. *)
Theorem remove_from_startup_clears ac pl pl' :
  remove_from_startup ac pl = (true, pl') ->
  is_in_startup pl' = false
  /\ get_registered_path pl' = Ret None
  /\ check_startup_path normpath pl' = Ret (true, None)
  /\ remove_from_startup ac pl' = (false, pl').
Proof.
  intros Hrm.
  destruct (remove_from_startup_spec ac pl true pl' Hrm) as (Hs & _ & _ & Hgone & _).
  destruct (Hgone eq_refl) as (Hin & Hreg & Hagain). split_and!; try done.
  by apply check_not_registered.
Qed.


(** The menu entry, one click. *)
Lemma toggle_startup_spec ac pl :
  supported pl -> can_read pl -> grants_all ac ->
  is_in_startup (toggle_startup ac pl) = negb (is_in_startup pl)
  /\ supported (toggle_startup ac pl) /\ can_read (toggle_startup ac pl).
Proof.
  intros Hs Hcr Hac. unfold toggle_startup.
  destruct (is_in_startup pl) eqn:Hin.
  - pose proof (remove_from_startup_granted ac pl Hac Hin) as Hok.
    destruct (remove_from_startup ac pl) as [b pl'] eqn:Hrm. simpl in *. subst b.
    destruct (remove_from_startup_spec ac pl true pl' Hrm) as (Hsys & _ & Hcr' & Hgone & _).
    destruct (Hgone eq_refl) as (-> & _). split_and!; [done | | by apply Hcr'].
    unfold supported. by rewrite Hsys.
  - pose proof (add_to_startup_granted ac pl Hs Hac) as Hok.
    destruct (add_to_startup ac pl) as [b pl'] eqn:Hadd. simpl in *. subst b.
    destruct (add_to_startup_in_startup ac pl pl' Hcr Hadd) as (-> & _ & Hsys & Hcr').
    split_and!; [done | | done]. unfold supported. by rewrite Hsys.
Qed.

(** X7. With the changes allowed and the registration readable, the menu
    entry for the start at login switches it: one click registers an
    application that was not registered and removes one that was; two clicks
    leave it registered or not as before. *)
Theorem toggle_startup_flips ac pl :
  supported pl -> can_read pl -> grants_all ac ->
  is_in_startup (toggle_startup ac pl) = negb (is_in_startup pl)
  /\ is_in_startup (toggle_startup ac (toggle_startup ac pl)) = is_in_startup pl.
Proof.
  intros Hs Hcr Hac.
  destruct (toggle_startup_spec ac pl Hs Hcr Hac) as (H1 & Hs1 & Hcr1).
  destruct (toggle_startup_spec ac _ Hs1 Hcr1 Hac) as (H2 & _ & _).
  split; [done |]. by rewrite H2, H1, negb_involutive.
Qed.

(** X8. When [fix_startup_path] returns True the startup check passes: the
    path registered is the path of the executable. *)
Theorem fix_startup_path_repairs ac pl pl' :
  can_read pl -> plain_exe_path pl = true ->
  fix_startup_path ac pl = (true, pl') ->
  get_registered_path pl' = Ret (Some (py_str (get_exe_path pl')))
  /\ get_exe_path pl' = get_exe_path pl
  /\ check_startup_path normpath pl' = Ret (true, None).
Proof.
  intros Hcr Hplain Hfix.
  destruct (fix_startup_path_registered ac pl pl' Hcr Hplain Hfix) as (Hin & Hreg & _).
  split_and!; [done | | by apply check_registered].
  unfold fix_startup_path in Hfix.
  destruct (remove_from_startup ac pl) as [b pl1] eqn:Hrm. simpl in Hfix.
  destruct (remove_from_startup_spec ac pl b pl1 Hrm) as (_ & He & Hcr1 & _).
  destruct (add_to_startup_in_startup ac pl1 pl' (Hcr1 Hcr) Hfix) as (_ & He' & _).
  congruence.
Qed.

(** X9. The warning at startup. Nothing is shown when the startup check
    passes. When it finds the application moved, one hidden root window is
    made, the question is asked and the root is destroyed; answering no leaves
    the machine as it was; answering yes on a platform the startup code knows,
    with the changes allowed, makes [fix_startup_path] return True, and the
    success box is shown (never the error box). When moreover the
    registration can be read and the path of the executable is one the
    platform hands back unchanged, the warning does not come again; for a
    path that is not, it can. *)
Theorem show_path_warning_spec ac pl message :
  (check_startup_path normpath pl = Ret (true, message) ->
   forall answer, show_path_warning normpath ac answer pl = Ret ([], pl))
  /\ (check_startup_path normpath pl = Ret (false, message) ->
      show_path_warning normpath ac false pl
      = Ret ([tk_Tk; root_withdraw;
              messagebox_askyesno "Path Changed"
                (format_message message +:+ nl +:+ nl +:+
                 "Would you like to update the automatic startup path?");
              root_destroy], pl))
  /\ (check_startup_path normpath pl = Ret (false, message) ->
      supported pl -> grants_all ac ->
      exists pl',
        fix_startup_path ac pl = (true, pl')
        /\ show_path_warning normpath ac true pl
           = Ret ([tk_Tk; root_withdraw;
                   messagebox_askyesno "Path Changed"
                     (format_message message +:+ nl +:+ nl +:+
                      "Would you like to update the automatic startup path?");
                   messagebox_showinfo "Success" "Startup path updated successfully!";
                   root_destroy], pl')
        /\ (can_read pl -> plain_exe_path pl = true ->
            forall ac' answer,
              show_path_warning normpath ac' answer pl' = Ret ([], pl'))).
Proof.
  split_and!.
  - intros Hc answer. unfold show_path_warning. by rewrite Hc.
  - intros Hc. unfold show_path_warning. by rewrite Hc.
  - intros Hc Hs Hac. unfold show_path_warning. rewrite Hc. simpl.
    destruct (fix_startup_path ac pl) as [b pl'] eqn:Hfix.
    assert (b = true) as ->.
    { unfold fix_startup_path in Hfix.
      destruct (remove_from_startup ac pl) as [b1 pl1] eqn:Hrm. simpl in Hfix.
      destruct (remove_from_startup_spec ac pl b1 pl1 Hrm) as (Hsys & _).
      assert (supported pl1) as Hs1 by (unfold supported; by rewrite Hsys).
      pose proof (add_to_startup_granted ac pl1 Hs1 Hac) as Hok.
      by rewrite Hfix in Hok. }
    exists pl'. split_and!; try done. intros Hcr Hplain ac' answer.
    destruct (fix_startup_path_registered ac pl pl' Hcr Hplain Hfix) as (Hin & Hreg & _).
    by rewrite (check_registered pl' Hin Hreg).
Qed.

(** X10. On Linux the path is written to the desktop file as it is and read
    back without the blanks at its ends: for an executable whose path ends in
    a blank, the startup check reports a move even right after
    [fix_startup_path] returned True. *)
Theorem fix_startup_path_blank ac pl pl' :
  pl.(SYSTEM) = "Linux" -> can_read pl ->
  string_forall (fun c => negb (Ascii.eqb c LF) && negb (Ascii.eqb c CR))
    (get_exe_path pl) = true ->
  strip (get_exe_path pl) <> EmptyString ->
  normpath (strip (get_exe_path pl)) <> normpath (get_exe_path pl) ->
  fix_startup_path ac pl = (true, pl') ->
  check_startup_path normpath pl'
  = Ret (false, Some (moved_message (strip (get_exe_path pl)) (get_exe_path pl))).
Proof.
  intros Hs Hcr Hline Hne Hnorm Hfix. unfold fix_startup_path in Hfix.
  destruct (remove_from_startup ac pl) as [b pl1] eqn:Hrm. simpl in Hfix.
  destruct (remove_from_startup_spec ac pl b pl1 Hrm) as (Hsys & He & Hcr1 & _).
  destruct (add_to_startup_in_startup ac pl1 pl' (Hcr1 Hcr) Hfix) as (Hin & He' & _).
  pose proof (add_to_startup_linux ac pl1 pl' ltac:(congruence) (Hcr1 Hcr)
                ltac:(by rewrite He) Hfix) as Hreg.
  unfold check_startup_path. rewrite Hin, Hreg, He', He. simpl.
  apply String.eqb_neq in Hne, Hnorm. by rewrite Hne, Hnorm.
Qed.

End RegistrationFacts.

Lemma add_to_startup_read_back_witness :
  exists pl',
    add_to_startup all_access moved_install = (true, pl')
    /\ is_in_startup pl' = true
    /\ get_registered_path pl' = Ret (Some (py_str "/new/calendarweek.py")).
Proof.
  eexists. split; [reflexivity |].
  destruct (add_to_startup_read_back id all_access moved_install _
              moved_install_can_read eq_refl eq_refl) as (Hin & Hreg & _).
  split; [exact Hin | exact Hreg].
Defined.

Lemma remove_from_startup_clears_witness :
  exists pl',
    remove_from_startup all_access moved_install = (true, pl')
    /\ is_in_startup pl' = false
    /\ remove_from_startup all_access pl' = (false, pl').
Proof.
  eexists. split; [reflexivity |].
  destruct (remove_from_startup_clears id all_access moved_install _ eq_refl)
    as (Hin & _ & _ & Hagain).
  split; [exact Hin | exact Hagain].
Defined.

Lemma toggle_startup_flips_witness :
  is_in_startup moved_install = true
  /\ is_in_startup (toggle_startup all_access moved_install) = false
  /\ is_in_startup (toggle_startup all_access (toggle_startup all_access moved_install))
     = true.
Proof.
  split; [reflexivity |].
  exact (toggle_startup_flips all_access moved_install
           (or_intror (or_introl eq_refl)) moved_install_can_read all_access_grants_all).
Defined.

Lemma fix_startup_path_repairs_witness :
  exists message pl',
    check_startup_path id moved_install = Ret (false, Some message)
    /\ fix_startup_path all_access moved_install = (true, pl')
    /\ check_startup_path id pl' = Ret (true, None).
Proof.
  eexists _, _. split; [reflexivity |]. split; [reflexivity |].
  exact (proj2 (proj2 (fix_startup_path_repairs id all_access moved_install _
                         moved_install_can_read eq_refl eq_refl))).
Defined.

Lemma show_path_warning_spec_witness :
  exists message pl',
    check_startup_path id moved_install = Ret (false, Some message)
    /\ show_path_warning id all_access true moved_install
       = Ret ([tk_Tk; root_withdraw;
               messagebox_askyesno "Path Changed"
                 (message +:+ nl +:+ nl +:+
                  "Would you like to update the automatic startup path?");
               messagebox_showinfo "Success" "Startup path updated successfully!";
               root_destroy], pl')
    /\ show_path_warning id all_access true pl' = Ret ([], pl').
Proof.
  destruct (proj2 (proj2 (show_path_warning_spec id all_access moved_install
                            (Some (moved_message "/old/calendarweek.py"
                                     "/new/calendarweek.py"))))
              eq_refl (or_intror (or_introl eq_refl)) all_access_grants_all)
    as (pl' & _ & Hshow & Hnext).
  eexists _, pl'. split; [reflexivity |]. split; [exact Hshow |].
  exact (Hnext moved_install_can_read eq_refl all_access true).
Defined.

Lemma fix_startup_path_blank_witness :
  exists pl',
    fix_startup_path all_access blank_install = (true, pl')
    /\ check_startup_path id pl'
       = Ret (false, Some (moved_message "/opt/cw/calendarweek.py"
                             "/opt/cw/calendarweek.py ")).
Proof.
  eexists. split; [reflexivity |].
  apply (fix_startup_path_blank id all_access blank_install _ eq_refl
           blank_install_can_read eq_refl); [done | done | reflexivity].
Defined.

(** * Facts about reading the registration *)

Section ReadingFacts.

Variable normpath : string -> string.

Implicit Types (s t u g : string) (c : ascii) (pl : Platform).

Lemma startswith_app p s : startswith p s = true -> exists t, s = p +:+ t.
Proof.
  revert s. induction p as [| a p IH]; intros s; [by exists s |].
  destruct s as [| b s]; simpl; [done |].
  destruct (Ascii.eqb_spec a b) as [-> | ?]; [| done].
  intros (t & ->)%IH. by exists t.
Qed.

Lemma startswith_refl p t : startswith p (p +:+ t) = true.
Proof.
  induction p as [| a p IH]; [done |]. rewrite app_cons. simpl.
  by rewrite Ascii.eqb_refl.
Qed.

(** The line the loop of the Linux branch stops at has an [=]: the
    [split("=", 1)[1]] finds its second part. The loop ends with an error
    only when reading on fails before a line with [Exec=] was found. *)
Lemma first_exec_line_cases lines bad :
  (exists v, first_exec_line lines bad = Ret v
     /\ (bad = true -> Exists (fun line => startswith "Exec=" line = true) lines))
  \/ (bad = true
      /\ Forall (fun line => startswith "Exec=" line = false) lines
      /\ first_exec_line lines bad = Raise UnicodeDecodeError).
Proof.
  induction lines as [| line rest IH].
  { destruct bad; [right; by split_and! | left; by exists None]. }
  cbn [first_exec_line].
  destruct (startswith "Exec=" line) eqn:Hs.
  - left. apply startswith_app in Hs as (t & ->).
    rewrite !app_cons, app_nil_l. cbn [after_first_equals]. simpl.
    eexists. split; [done |]. intros _. apply Exists_cons_hd.
    apply (startswith_refl "Exec=" t).
  - destruct IH as [(v & -> & Hex) | (-> & Hall & ->)].
    + left. exists v. split; [done |]. intros Hb. apply Exists_cons_tl. by apply Hex.
    + right. split_and!; try done. by apply Forall_cons.
Qed.

(** What comes back that is not a str comes from the registry. *)
Lemma registered_value pl v :
  get_registered_path pl = Ret (Some v) ->
  (exists s, v = py_str s)
  \/ (pl.(SYSTEM) = "Windows" /\ pl.(winreg_OpenKey) = true
      /\ pl.(winreg_QueryValueEx) APP_NAME = RegValue (Some v)).
Proof.
  destruct (String.eqb_spec pl.(SYSTEM) "Windows") as [Hw | Hw].
  { destruct (on_windows pl Hw) as [_ ->].
    destruct (winreg_OpenKey pl); [| done].
    destruct (winreg_QueryValueEx pl APP_NAME) as [value | |]; try done.
    intros [= ->]. right. by split_and!. }
  destruct (String.eqb_spec pl.(SYSTEM) "Linux") as [Hl | Hl].
  { destruct (on_linux pl Hl) as [_ ->].
    destruct (path_exists pl _); [| done].
    destruct (open_lines pl _) as [[lines bad] | |]; try done.
    induction lines as [| line lines IH]; cbn [first_exec_line].
    - by destruct bad.
    - destruct (startswith "Exec=" line); [| exact IH].
      destruct (after_first_equals line); [| done]. intros [= <-]. left. by eexists. }
  destruct (String.eqb_spec pl.(SYSTEM) "Darwin") as [Hd | Hd].
  { destruct (on_macos pl Hd) as [_ ->].
    destruct (path_exists pl _); [| done].
    destruct (open_read pl _) as [content | |]; try done.
    destruct (re_search_program_string content); [| done].
    intros [= <-]. left. by eexists. }
  destruct (on_other pl Hw Hl Hd) as (_ & -> & _). done.
Qed.

(** X18. The errors of reading the registration. [get_registered_path] and
    [check_startup_path] never wait. [get_registered_path] raises exactly on
    a startup file of Linux or macOS that exists and cannot be opened
    (OSError) or holds bytes that do not decode (UnicodeDecodeError; on Linux
    only when no line with [Exec=] was read before them); never on Windows.
    [check_startup_path] raises exactly then, and on Windows when the value in
    the registry is a number other than 0 or a list that is not empty
    (TypeError of [os.path.normpath]), or bytes on which
    [os.path.normpath] raises. *)
Theorem get_registered_path_errors pl e :
  get_registered_path pl <> Blocked
  /\ check_startup_path normpath pl <> Blocked
  /\ (get_registered_path pl = Raise e <->
      (pl.(SYSTEM) = "Linux"
       /\ ((pl.(fs) (_get_startup_path_linux pl) = Unreadable /\ e = OSError EACCES)
           \/ exists before,
                pl.(fs) (_get_startup_path_linux pl) = Undecodable before
                /\ Forall (fun line => startswith "Exec=" line = false)
                     (complete_lines before)
                /\ e = UnicodeDecodeError))
      \/ (pl.(SYSTEM) = "Darwin"
          /\ ((pl.(fs) (_get_startup_path_macos pl) = Unreadable /\ e = OSError EACCES)
              \/ exists before,
                   pl.(fs) (_get_startup_path_macos pl) = Undecodable before
                   /\ e = UnicodeDecodeError)))
  /\ (check_startup_path normpath pl = Raise e <->
      get_registered_path pl = Raise e
      \/ (pl.(SYSTEM) = "Windows" /\ pl.(winreg_OpenKey) = true
          /\ exists v,
               pl.(winreg_QueryValueEx) APP_NAME = RegValue (Some v)
               /\ ((exists n, v = py_int n /\ n <> 0 /\ e = TypeError)
                   \/ (exists l, v = py_list l /\ l <> [] /\ e = TypeError)
                   \/ (exists b, v = py_bytes b /\ b <> []
                         /\ pl.(normpath_bytes_error) b = Some e)))).
Proof.
  assert (Hget : get_registered_path pl <> Blocked
            /\ (get_registered_path pl = Raise e <->
                (pl.(SYSTEM) = "Linux"
                 /\ ((pl.(fs) (_get_startup_path_linux pl) = Unreadable
                      /\ e = OSError EACCES)
                     \/ exists before,
                          pl.(fs) (_get_startup_path_linux pl) = Undecodable before
                          /\ Forall (fun line => startswith "Exec=" line = false)
                               (complete_lines before)
                          /\ e = UnicodeDecodeError))
                \/ (pl.(SYSTEM) = "Darwin"
                    /\ ((pl.(fs) (_get_startup_path_macos pl) = Unreadable
                         /\ e = OSError EACCES)
                        \/ exists before,
                             pl.(fs) (_get_startup_path_macos pl) = Undecodable before
                             /\ e = UnicodeDecodeError)))
            /\ (get_registered_path pl = Raise e -> is_in_startup pl = true)).
  { destruct (String.eqb_spec pl.(SYSTEM) "Windows") as [Hw | Hw].
    { destruct (on_windows pl Hw) as [_ ->].
      assert (forall o : outcome (option pyobj),
                (exists v, o = Ret v) -> o <> Blocked
                /\ (o = Raise e <-> False) /\ (o = Raise e -> False)) as Hret.
      { intros o (v & ->). by split_and!. }
      destruct (Hret (if winreg_OpenKey pl
                      then match winreg_QueryValueEx pl APP_NAME with
                           | RegValue value => Ret value
                           | _ => Ret None
                           end
                      else Ret None)) as (Hnb & Hiff & Himp).
      { destruct (winreg_OpenKey pl); [| by eexists].
        destruct (winreg_QueryValueEx pl APP_NAME); by eexists. }
      split_and!; [done | | by intros ?%Himp].
      rewrite Hiff. split; [done |]. rewrite Hw. by intros [[? _] | [? _]]. }
    destruct (String.eqb_spec pl.(SYSTEM) "Linux") as [Hl | Hl].
    { destruct (on_linux pl Hl) as [-> ->]. unfold path_exists, open_lines.
      destruct (fs pl (_get_startup_path_linux pl)) as [| | text | before] eqn:Hf.
      - split_and!; [done | | done]. split; [done |].
        intros [[_ [[? _] | (? & ? & _)]] | [Hd _]]; congruence.
      - split_and!; [done | | done]. split.
        + intros [= <-]. left. split; [done |]. by left.
        + intros [[_ [[_ ->] | (? & ? & _)]] | [Hd _]]; congruence.
      - destruct (first_exec_line_cases (readlines text) false)
          as [(v & -> & _) | (? & _)]; [| done].
        split_and!; [done | | done]. split; [done |].
        intros [[_ [[? _] | (? & ? & _)]] | [Hd _]]; congruence.
      - destruct (first_exec_line_cases (complete_lines before) true)
          as [(v & -> & Hex) | (_ & Hall & ->)].
        + split_and!; [done | | done]. split; [done |].
          intros [[_ [[? _] | (b' & [= <-] & Hall & _)]] | [Hd _]]; try congruence.
          exfalso. specialize (Hex eq_refl).
          apply Exists_exists in Hex as (line & Hin & Hline).
          rewrite Forall_forall in Hall. specialize (Hall line Hin). congruence.
        + split_and!; [done | | done]. split.
          * intros [= <-]. left. split; [done |]. right. by exists before.
          * intros [[_ [[? _] | (? & ? & _ & ->)]] | [Hd _]]; congruence. }
    destruct (String.eqb_spec pl.(SYSTEM) "Darwin") as [Hd | Hd].
    { destruct (on_macos pl Hd) as [-> ->]. unfold path_exists, open_read.
      destruct (fs pl (_get_startup_path_macos pl)) as [| | text | before] eqn:Hf.
      - split_and!; [done | | done]. split; [done |].
        intros [[? _] | [_ [[? _] | (? & ? & _)]]]; congruence.
      - split_and!; [done | | done]. split.
        + intros [= <-]. right. split; [done |]. by left.
        + intros [[? _] | [_ [[_ ->] | (? & ? & _)]]]; congruence.
      - split_and!; [done | | done]. split; [done |].
        intros [[? _] | [_ [[? _] | (? & ? & _)]]]; congruence.
      - split_and!; [done | | done]. split.
        + intros [= <-]. right. split; [done |]. right. by exists before.
        + intros [[? _] | [_ [[? _] | (? & ? & ->)]]]; congruence. }
    destruct (on_other pl Hw Hl Hd) as (_ & -> & _).
    split_and!; [done | | done]. split; [done |].
    intros [[? _] | [? _]]; congruence. }
  destruct Hget as (Hnb & Hraise & Hin).
  split; [done |].
  assert (Hcheck : check_startup_path normpath pl <> Blocked
            /\ (check_startup_path normpath pl = Raise e <->
                get_registered_path pl = Raise e
                \/ (pl.(SYSTEM) = "Windows" /\ pl.(winreg_OpenKey) = true
                    /\ exists v,
                         pl.(winreg_QueryValueEx) APP_NAME = RegValue (Some v)
                         /\ ((exists n, v = py_int n /\ n <> 0 /\ e = TypeError)
                             \/ (exists l, v = py_list l /\ l <> [] /\ e = TypeError)
                             \/ (exists b, v = py_bytes b /\ b <> []
                                   /\ pl.(normpath_bytes_error) b = Some e))))).
  { unfold check_startup_path.
    destruct (is_in_startup pl) eqn:Hreg; simpl.
    2:{ split; [done |]. split; [done |].
        intros [Hr | (Hw & Hk & v & Hq & _)].
        - specialize (Hin Hr). congruence.
        - destruct (on_windows pl Hw) as [Hi _]. rewrite Hi, Hk, Hq in Hreg. done. }
    destruct (get_registered_path pl) as [[v |] | e' |] eqn:Hg.
    - (* a value came back *)
      assert (Hwin : forall v', v = v' -> (forall s, v' <> py_str s) ->
                pl.(SYSTEM) = "Windows" /\ pl.(winreg_OpenKey) = true
                /\ pl.(winreg_QueryValueEx) APP_NAME = RegValue (Some v')).
      { intros v' <- Hns. destruct (registered_value pl v Hg) as [(s & ->) | H]; [| done].
        by destruct (Hns s). }
      assert (Huniq : forall v', pl.(winreg_QueryValueEx) APP_NAME = RegValue (Some v') ->
                pl.(SYSTEM) = "Windows" -> pl.(winreg_OpenKey) = true -> v' = v).
      { intros v' Hq Hw Hk. destruct (on_windows pl Hw) as [_ Hg'].
        rewrite Hg, Hk, Hq in Hg'. by injection Hg' as ->. }
      destruct v as [s | b | n | l]; simpl.
      + (* str *)
        assert (forall o : outcome (bool * option string),
                  (exists r, o = Ret r) -> o <> Blocked /\ (o = Raise e -> False)) as Hret.
        { intros o (r & ->). by split. }
        match goal with |- ?o <> _ /\ _ =>
          destruct (Hret o) as (Hb1 & Hr1) end.
        { destruct (negb (String.eqb s EmptyString)); [| by eexists].
          destruct (negb (String.eqb (normpath s) _)); by eexists. }
        split; [done |]. split; [by intros ?%Hr1 |].
        intros [? | (Hw & Hk & v' & Hq & Hcase)]; [done |].
        pose proof (Huniq v' Hq Hw Hk) as ->.
        destruct Hcase as [(? & ? & _) | [(? & ? & _) | (? & ? & _)]]; done.
      + (* bytes *)
        destruct (Hwin (py_bytes b) eq_refl ltac:(done)) as (Hw & Hk & Hq).
        destruct (decide (b = [])) as [-> | Hne].
        { simpl. split; [done |]. split; [done |].
          intros [? | (_ & _ & v' & Hq' & Hcase)]; [done |].
          rewrite Hq in Hq'. injection Hq' as <-.
          destruct Hcase as [(? & ? & _) | [(? & ? & _) | (? & [= <-] & ? & _)]]; done. }
        rewrite bool_decide_eq_false_2 by done. simpl.
        destruct (pl.(normpath_bytes_error) b) as [e' |] eqn:Hnp.
        * split; [done |]. split.
          -- intros [= <-]. right. split_and!; try done. eexists. split; [done |].
             right. right. by exists b.
          -- intros [? | (_ & _ & v' & Hq' & Hcase)]; [done |].
             rewrite Hq in Hq'. injection Hq' as <-.
             destruct Hcase as [(? & ? & _) | [(? & ? & _) | (? & [= <-] & _ & ?)]];
               try done. congruence.
        * split; [done |]. split; [done |].
          intros [? | (_ & _ & v' & Hq' & Hcase)]; [done |].
          rewrite Hq in Hq'. injection Hq' as <-.
          destruct Hcase as [(? & ? & _) | [(? & ? & _) | (? & [= <-] & _ & ?)]];
            try done. congruence.
      + (* int *)
        destruct (Hwin (py_int n) eq_refl ltac:(done)) as (Hw & Hk & Hq).
        destruct (Z.eqb_spec n 0) as [-> | Hne]; simpl.
        * split; [done |]. split; [done |].
          intros [? | (_ & _ & v' & Hq' & Hcase)]; [done |].
          rewrite Hq in Hq'. injection Hq' as <-.
          destruct Hcase as [(? & [= <-] & ? & _) | [(? & ? & _) | (? & ? & _)]]; done.
        * split; [done |]. split.
          -- intros [= <-]. right. split_and!; try done. eexists. split; [done |].
             left. by exists n.
          -- intros [? | (_ & _ & v' & Hq' & Hcase)]; [done |].
             rewrite Hq in Hq'. injection Hq' as <-.
             destruct Hcase as [(? & _ & _ & ->) | [(? & ? & _) | (? & ? & _)]]; done.
      + (* list *)
        destruct (Hwin (py_list l) eq_refl ltac:(done)) as (Hw & Hk & Hq).
        destruct (decide (l = [])) as [-> | Hne].
        { simpl. split; [done |]. split; [done |].
          intros [? | (_ & _ & v' & Hq' & Hcase)]; [done |].
          rewrite Hq in Hq'. injection Hq' as <-.
          destruct Hcase as [(? & ? & _) | [(? & [= <-] & ? & _) | (? & ? & _)]]; done. }
        rewrite bool_decide_eq_false_2 by done. simpl.
        split; [done |]. split.
        * intros [= <-]. right. split_and!; try done. eexists. split; [done |].
          right. left. by exists l.
        * intros [? | (_ & _ & v' & Hq' & Hcase)]; [done |].
          rewrite Hq in Hq'. injection Hq' as <-.
          destruct Hcase as [(? & ? & _) | [(? & _ & _ & ->) | (? & ? & _)]]; done.
    - (* None came back *)
      simpl. split; [done |]. split; [done |].
      intros [? | (Hw & Hk & v' & Hq & _)]; [done |].
      destruct (on_windows pl Hw) as [_ Hg']. rewrite Hg, Hk, Hq in Hg'. done.
    - (* the reading raised *)
      split; [done |]. split.
      + intros [= ->]. by left.
      + intros [[= ->] | (Hw & _)]; [done |].
        exfalso. destruct (on_windows pl Hw) as [_ Hg']. rewrite Hg in Hg'.
        destruct (winreg_OpenKey pl); [| done].
        by destruct (winreg_QueryValueEx pl APP_NAME).
    - exfalso. by apply Hnb. }
  destruct Hcheck as [Hcnb Hcraise]. by split_and!.
Qed.

(** ** The pattern of the macOS branch *)

Lemma span_not_lt_spec s run rest :
  span_not_lt s = (run, rest) ->
  s = run +:+ rest
  /\ string_forall (fun c => negb (Ascii.eqb c "<")) run = true
  /\ (rest = EmptyString \/ exists t, rest = String "<" t).
Proof.
  revert run rest. induction s as [| c s IH]; intros run rest; simpl.
  { intros [= <- <-]. split_and!; [done | done | by left]. }
  destruct (Ascii.eqb_spec c "<") as [-> | Hc].
  { intros [= <- <-]. split_and!; [done | done | right; by eexists]. }
  destruct (span_not_lt s) as [run' rest'] eqn:Hs. intros [= <- <-].
  destruct (IH run' rest' eq_refl) as (-> & Hrun & Hrest).
  split_and!; [done | | done]. simpl. rewrite Hrun.
  apply Ascii.eqb_neq in Hc. by rewrite Hc.
Qed.

(** The pattern tried at the start of a text. *)
Lemma match_program_string_Some s g :
  match_program_string s = Some g ->
  exists rest post,
    s = "<string>" +:+ g +:+ "</string>" +:+ post
    /\ g = String "/" rest /\ rest <> EmptyString
    /\ string_forall (fun c => negb (Ascii.eqb c "<")) rest = true.
Proof.
  unfold match_program_string.
  destruct (startswith "<string>/" s) eqn:Hs; [| done].
  apply startswith_app in Hs as (t & ->).
  change (string_drop 9 ("<string>/" +:+ t)) with t.
  destruct (span_not_lt t) as [run rest] eqn:Ht.
  destruct (span_not_lt_spec t run rest Ht) as (-> & Hrun & _).
  destruct (String.eqb_spec run EmptyString) as [-> | Hne];
    cbn [negb andb]; [intros [=] |].
  destruct (startswith "</string>" rest) eqn:Hr; [| intros [=]].
  apply startswith_app in Hr as (post & ->). intros [= <-].
  exists run, post. by split_and!.
Qed.

Lemma match_program_string_complete rest post :
  rest <> EmptyString ->
  string_forall (fun c => negb (Ascii.eqb c "<")) rest = true ->
  match_program_string ("<string>/" +:+ rest +:+ "</string>" +:+ post)
  = Some (String "/" rest).
Proof.
  intros Hne Hrest. unfold match_program_string.
  rewrite (startswith_refl "<string>/" (rest +:+ "</string>" +:+ post)).
  change (string_drop 9 ("<string>/" +:+ rest +:+ "</string>" +:+ post))
    with (rest +:+ String "<" ("/string>" +:+ post)).
  rewrite span_not_lt_app by done.
  apply String.eqb_neq in Hne. rewrite Hne. cbn [negb andb].
  change (String "<" ("/string>" +:+ post)) with ("</string>" +:+ post).
  by rewrite (startswith_refl "</string>" post).
Qed.

(** X19. The path the macOS branch hands back: the text of the first
    [<string>] element of the file whose text begins with [/] and is at least
    two characters long, wherever in the file it stands; None exactly when
    the file has no such element. *)
Theorem re_search_program_string_spec s :
  match re_search_program_string s with
  | Some g =>
      exists pre rest post,
        s = pre +:+ "<string>" +:+ g +:+ "</string>" +:+ post
        /\ g = String "/" rest /\ rest <> EmptyString
        /\ string_forall (fun c => negb (Ascii.eqb c "<")) rest = true
        /\ forall pre' rest' post',
             rest' <> EmptyString ->
             string_forall (fun c => negb (Ascii.eqb c "<")) rest' = true ->
             s = pre' +:+ "<string>/" +:+ rest' +:+ "</string>" +:+ post' ->
             (String.length pre <= String.length pre')%nat
  | None =>
      forall pre rest post,
        rest <> EmptyString ->
        string_forall (fun c => negb (Ascii.eqb c "<")) rest = true ->
        s <> pre +:+ "<string>/" +:+ rest +:+ "</string>" +:+ post
  end.
Proof.
  induction s as [| c s IH].
  - simpl. intros pre rest post _ _ H. destruct pre; discriminate.
  - simpl. destruct (match_program_string (String c s)) as [g |] eqn:Hm.
    + apply match_program_string_Some in Hm as (rest & post & Hs & -> & Hne & Hrest).
      exists EmptyString, rest, post. rewrite app_nil_l. split_and!; try done.
      intros; simpl; lia.
    + destruct (re_search_program_string s) as [g |].
      * destruct IH as (pre & rest & post & Hs & -> & Hne & Hrest & Hleft).
        exists (String c pre), rest, post. split_and!; try done.
        { by rewrite app_cons, <- Hs. }
        intros pre' rest' post' Hne' Hrest' Heq.
        destruct pre' as [| c' pre'].
        { rewrite app_nil_l in Heq. rewrite Heq in Hm.
          by rewrite match_program_string_complete in Hm. }
        rewrite app_cons in Heq. injection Heq as _ Heq.
        specialize (Hleft pre' rest' post' Hne' Hrest' Heq). simpl. lia.
      * intros pre rest post Hne Hrest Heq.
        destruct pre as [| c' pre].
        { rewrite app_nil_l in Heq. rewrite Heq in Hm.
          by rewrite match_program_string_complete in Hm. }
        rewrite app_cons in Heq. injection Heq as _ Heq.
        by apply (IH pre rest post).
Qed.

End ReadingFacts.

(** * Facts about the launch and the threads it starts *)

Section LaunchFacts.

Implicit Types (w : World) (p q : pid) (i : Icon) (s l : sock) (c : conn).

Local Opaque closed freed connected.

(** The icon [run] hands to the tray: drawn for the week of the day, and not
    shown yet; the tray shows it from inside [icon.run()]. *)
Lemma run_icon w p w1 :
  acquire_single_instance_lock p w = (Ret true, w1) ->
  exists w2,
    run p w = (Blocked, w2)
    /\ w2.(tray) !! p
       = Some (new_Icon "CW" (create_icon (current_cw w.(today)))
                 ("Week " +:+ format_02d (current_cw w.(today))))
    /\ w2.(today) = w.(today)
    /\ w2.(LOCK_SOCKET) = w1.(LOCK_SOCKET) /\ w2.(bound) = w1.(bound)
    /\ w2.(faults) = w1.(faults)
    /\ w2.(atexit) !! p
       = Some (default [] (w.(atexit) !! p) ++ [H_release_single_instance_lock]).
Proof.
  intros Hacq. unfold run.
  erewrite bind_Ret by exact Hacq. simpl.
  pose proof (acquire_python p w) as Hp. rewrite Hacq in Hp. simpl in Hp.
  injection Hp as Hto Hth _ Hae _.
  eexists. split.
  { erewrite bind_Ret by reflexivity. erewrite bind_Ret by reflexivity.
    erewrite bind_Ret by reflexivity. erewrite bind_Ret by reflexivity.
    erewrite bind_Ret by reflexivity. erewrite bind_Ret by reflexivity.
    erewrite bind_Ret by reflexivity. reflexivity. }
  simpl. rewrite !lookup_insert_eq, Hto, Hae. by split_and!.
Qed.

(** [run] stays in the event loop of the icon only after it got the lock. *)
Lemma run_Blocked w p w2 :
  run p w = (Blocked, w2) ->
  exists w1, acquire_single_instance_lock p w = (Ret true, w1).
Proof.
  intros Hrun. destruct (acquire_cases p w) as [(w1 & H & _) | (w1 & H & _)].
  - by exists w1.
  - destruct (run_redundant w p w1 H) as (w3 & Hr & _). congruence.
Qed.

Lemma refresh_not_visible interval wakes p last_cw w i :
  w.(tray) !! p = Some i -> i.(visible) = false ->
  refresh_while interval wakes p last_cw w = (Ret tt, w).
Proof.
  intros Hi Hv. destruct wakes; simpl; unfold icon_visible;
    erewrite bind_Ret by reflexivity; simpl; by rewrite Hi; simpl; rewrite Hv.
Qed.

(** X11. The refresh thread tests [icon.visible] before its first sleep, and
    the icon is made visible only inside [icon.run()]: in the state in which
    [run] enters the event loop, the loop of the thread that
    [start_auto_refresh] started ends at once, without sleeping and without
    touching the icon. *)
Theorem refresh_loop_before_visible w p w2 interval wakes :
  run p w = (Blocked, w2) ->
  refresh_loop interval wakes p w2 = (Ret tt, w2)
  /\ default [] (w2.(threads) !! p) ≠ []
  /\ exists i, w2.(tray) !! p = Some i /\ i.(visible) = false.
Proof.
  intros Hrun. destruct (run_Blocked w p w2 Hrun) as (w1 & Hacq).
  destruct (run_icon w p w1 Hacq) as (w2' & Hrun' & Hi & _).
  assert (w2' = w2) as -> by congruence.
  split_and!.
  - unfold refresh_loop. erewrite bind_Ret by reflexivity.
    by eapply refresh_not_visible.
  - destruct (run_active w p w1 Hacq) as (w2' & i & Hrun'' & _ & _ & Hth & _).
    assert (w2' = w2) as -> by congruence. rewrite Hth. simpl.
    by destruct (default [] (threads w !! p)).
  - by eexists.
Qed.

Lemma refresh_loop_before_visible_witness :
  exists w2,
    run 1%nat (boot (mkdate 2026 11 3)) = (Blocked, w2)
    /\ refresh_loop 3600 [mkdate 2026 11 10] 1%nat w2 = (Ret tt, w2).
Proof.
  destruct (acquire_free (boot (mkdate 2026 11 3)) 1%nat eq_refl eq_refl)
    as (w1 & Hacq & _).
  destruct (run_icon _ _ _ Hacq) as (w2 & Hrun & _).
  exists w2. split; [exact Hrun |].
  exact (proj1 (refresh_loop_before_visible _ _ _ 3600 [mkdate 2026 11 10] Hrun)).
Defined.

(** The refresh loop, wake-up by wake-up, while the icon stays visible. *)
Lemma refresh_while_counts interval wakes p last_cw w i :
  w.(tray) !! p = Some i -> i.(visible) = true -> displays i last_cw ->
  exists w',
    refresh_while interval wakes p last_cw w = (Blocked, w')
    /\ w'.(tray) !! p
       = Some (mkIcon i.(name) (create_icon (last_week last_cw wakes))
                 ("Week " +:+ format_02d (last_week last_cw wakes)) true
                 (i.(updates) + 2 * week_changes last_cw wakes))
    /\ w'.(today) = default w.(today) (last wakes).
Proof.
  revert last_cw w i. induction wakes as [| d wakes IH]; intros last_cw w i Hi Hv Hd.
  - exists w. split.
    { simpl. unfold icon_visible. erewrite bind_Ret by reflexivity. simpl.
      by rewrite Hi; simpl; rewrite Hv. }
    split; [| done]. simpl. rewrite Hi. f_equal.
    destruct i as [nm ic ti vi up]. destruct Hd as [Hic Hti]. simpl in *.
    subst. f_equal. lia.
  - simpl refresh_while. unfold icon_visible at 1. erewrite bind_Ret by reflexivity.
    simpl. rewrite Hi. simpl. rewrite Hv.
    erewrite bind_Ret by reflexivity.
    destruct (decide (current_cw d = last_cw)) as [Heq | Hne].
    + pose proof (refresh_tick_same p (set_today d w)) as Htick. simpl in Htick.
      rewrite Heq in Htick at 1.
      erewrite bind_Ret by exact Htick.
      destruct (IH (current_cw d) (set_today d w) i Hi Hv) as (w' & Hrun & Htray & Htoday).
      { by rewrite Heq. }
      exists w'. split; [exact Hrun |]. split.
      * rewrite Htray. simpl. rewrite Heq, Z.eqb_refl. done.
      * rewrite Htoday, last_cons. simpl. by destruct (last wakes).
    + destruct (refresh_tick_changed p last_cw (set_today d w) i Hi) as (w1 & Htick & Hi1).
      { done. }
      simpl in Htick, Hi1.
      erewrite bind_Ret by exact Htick.
      destruct (IH (current_cw d) w1 _ Hi1 Hv) as (w' & Hrun & Htray & Htoday).
      { by split. }
      exists w'. split; [exact Hrun |]. split.
      * rewrite Htray. simpl. apply Z.eqb_neq in Hne. rewrite Hne. do 2 f_equal. lia.
      * rewrite Htoday. 
        assert (w1.(today) = d) as ->.
        { unfold refresh_tick in Htick. erewrite bind_Ret in Htick by reflexivity.
          simpl in Htick. apply Z.eqb_neq in Hne. rewrite Hne in Htick. simpl in Htick.
          by injection Htick as <-. }
        rewrite last_cons. by destruct (last wakes).
Qed.

Lemma last_week_last d0 wakes :
  last_week (current_cw d0) wakes = current_cw (default d0 (last wakes)).
Proof.
  revert d0. induction wakes as [| d wakes IH]; intros d0; [done |].
  unfold last_week in *. simpl. rewrite IH, last_cons. by destruct (last wakes).
Qed.

(** X12. While the icon stays visible the refresh loop follows the week:
    after any run of wake-ups the icon shows the week of the last one, it was
    assigned twice (image and title) for every change of the week number and
    not at all otherwise, and the loop waits for the next wake-up. *)
Theorem refresh_loop_follows interval wakes p w i :
  w.(tray) !! p = Some i -> i.(visible) = true ->
  displays i (current_cw w.(today)) ->
  exists w' i',
    refresh_loop interval wakes p w = (Blocked, w')
    /\ w'.(tray) !! p = Some i'
    /\ displays i' (current_cw w'.(today))
    /\ i'.(updates) = (i.(updates) + 2 * week_changes (current_cw w.(today)) wakes)%nat
    /\ i'.(name) = i.(name) /\ i'.(visible) = true.
Proof.
  intros Hi Hv Hd.
  destruct (refresh_while_counts interval wakes p _ w i Hi Hv Hd) as (w' & Hrun & Htray & Htoday).
  eexists w', _. split.
  { unfold refresh_loop. erewrite bind_Ret by reflexivity. exact Hrun. }
  split; [exact Htray |]. split_and!; try done.
  rewrite Htoday, <- last_week_last. by split.
Qed.

Lemma refresh_loop_follows_witness :
  exists w' i',
    refresh_loop 3600 [mkdate 2026 11 4; mkdate 2026 11 9; mkdate 2026 11 10] 1%nat
      (set_tray {[ 1%nat := mkIcon "CW" (create_icon 45) "Week 45" true 0 ]}
         (boot (mkdate 2026 11 3)))
    = (Blocked, w')
    /\ w'.(tray) !! 1%nat = Some i'
    /\ displays i' 46
    /\ i'.(updates) = 2%nat.
Proof.
  destruct (refresh_loop_follows 3600
              [mkdate 2026 11 4; mkdate 2026 11 9; mkdate 2026 11 10] 1%nat
              (set_tray {[ 1%nat := mkIcon "CW" (create_icon 45) "Week 45" true 0 ]}
                 (boot (mkdate 2026 11 3)))
              (mkIcon "CW" (create_icon 45) "Week 45" true 0)
              (lookup_singleton_eq _ _) eq_refl)
    as (w' & i' & Hrun & Hi & Hd & Hu & _).
  { by split. }
  exists w', i'. split; [exact Hrun |]. split; [exact Hi |]. split; [| exact Hu].
  assert (w'.(today) = mkdate 2026 11 10) as Ht.
  { vm_compute in Hrun. by injection Hrun as <-. }
  by rewrite Ht in Hd.
Defined.


(** ** The listener and its queue *)

(** One turn of the listener on a connection that brought bytes. *)
Lemma listen_iteration_next p w l n c rest data eof :
  w.(faults) = [] -> w.(LOCK_SOCKET) !! p = Some l ->
  w.(backlog) !! l = Some (n, c :: rest) -> w.(wire) !! c = Some (data, eof) ->
  data <> [] -> (l < w.(next_sock))%nat ->
  exists w',
    listen_iteration p w = (Ret Continue, w')
    /\ default [] (w'.(threads) !! p)
       = default [] (w.(threads) !! p)
         ++ (if bool_decide (take 1024 data = SHOW) then [T_show_calendar] else [])
    /\ w'.(backlog) !! l = Some (n, rest)
    /\ w'.(LOCK_SOCKET) = w.(LOCK_SOCKET)
    /\ w'.(faults) = []
    /\ w'.(next_sock) = S w.(next_sock)
    /\ (forall c', c' <> c -> w'.(wire) !! c' = w.(wire) !! c')
    /\ w'.(tray) = w.(tray).
Proof.
  intros Hc Hl Hq Hw Hd Hlt.
  set (s := w.(next_sock)).
  set (wa := set_endpoint (<[s := (server_side, c)]> w.(endpoint))
               (set_accepting (delete s (delete l w.(accepting)))
                  (set_next_sock (S s) (set_backlog (<[l := (n, rest)]> w.(backlog)) w)))).
  set (wr := set_wire (<[c := (drop 1024 data, eof)]> wa.(wire)) wa).
  assert (Hacc : sock_accept p l w = (Ret s, wa)) by (by apply sock_accept_pending).
  assert (Hrecv : sock_recv s 1024 wa = (Ret (take 1024 data), wr)).
  { apply sock_recv_data; try done. simpl. apply lookup_insert_eq. }
  assert (Hend : wr.(endpoint) !! s = Some (server_side, c)).
  { simpl. apply lookup_insert_eq. }
  eexists. split.
  { unfold listen_iteration. eapply try_Ret. rewrite (listen_body_held p w l Hl).
    erewrite bind_Ret by exact Hacc. erewrite bind_Ret by exact Hrecv.
    erewrite bind_Ret by reflexivity. apply listen_tail. }
  assert (l <> s) as Hne by (unfold s; lia).
  assert (Hidle : wr.(accepting) !! s = None) by (simpl; apply lookup_delete_eq).
  destruct (decide (take 1024 data = SHOW)) as [Hs | Hs];
    [rewrite !bool_decide_eq_true_2 by done | rewrite !bool_decide_eq_false_2 by done];
    simpl;
    rewrite ?closed_threads, (closed_backlog s wr Hidle), closed_LOCK_SOCKET,
      closed_faults, closed_next_sock, (closed_wire_server s c wr Hend); simpl;
    rewrite lookup_delete_ne, lookup_insert_eq by done.
  - rewrite lookup_insert_eq. split_and!; try done.
    + intros c' Hc'. by rewrite lookup_insert_ne.
    + by destruct (closed_fields s wr) as (_ & _ & _ & _ & _ & [= _ _ _ _ _ ->]).
  - rewrite app_nil_r. split_and!; try done.
    + intros c' Hc'. by rewrite lookup_insert_ne.
    + by destruct (closed_fields s wr) as (_ & _ & _ & _ & _ & [= _ _ _ _ _ ->]).
Qed.

Lemma payload_eq w w' c : w'.(wire) !! c = w.(wire) !! c -> payload w' c = payload w c.
Proof. unfold payload, bytes. by intros ->. Qed.

Lemma filter_ext_in {A} (P Q : A -> Prop) `{!forall x, Decision (P x)}
    `{!forall x, Decision (Q x)} (l : list A) :
  (forall x, x ∈ l -> P x <-> Q x) -> filter P l = filter Q l.
Proof.
  induction l as [| x l IH]; intros Hext; [done |].
  rewrite !filter_cons.
  rewrite IH by (intros y Hy; apply Hext; by right).
  destruct (decide (P x)) as [HP | HP], (decide (Q x)) as [HQ | HQ]; try done;
    exfalso; apply (Hext x) in HP || apply (Hext x) in HQ; try done; left.
Qed.

Lemma listener_queue p l n (q : list conn) : forall w,
  w.(faults) = [] -> w.(LOCK_SOCKET) !! p = Some l ->
  w.(backlog) !! l = Some (n, q) -> NoDup q ->
  (forall c, c ∈ q -> exists data eof, w.(wire) !! c = Some (data, eof) /\ data <> []) ->
  (l < w.(next_sock))%nat ->
  exists w',
    listen_for_new_instances (S (length q)) p w = Some (Blocked, w')
    /\ default [] (w'.(threads) !! p)
       = default [] (w.(threads) !! p)
         ++ ((fun _ => T_show_calendar) <$> filter (fun c => payload w c = SHOW) q)
    /\ w'.(backlog) !! l = Some (n, [])
    /\ w'.(LOCK_SOCKET) = w.(LOCK_SOCKET)
    /\ w'.(tray) = w.(tray).
Proof.
  induction q as [| c rest IH]; intros w Hc Hl Hq Hnd Hwire Hlt.
  - exists (waiting_on p l w). split; [by eapply listen_waits |]. simpl.
    by rewrite app_nil_r.
  - apply NoDup_cons in Hnd as [Hnotin Hnd].
    destruct (Hwire c) as (data & eof & Hw & Hd); [left |].
    destruct (listen_iteration_next p w l n c rest data eof Hc Hl Hq Hw Hd Hlt)
      as (w1 & Hit & Hth & Hq1 & Hl1 & Hc1 & Hns & Hw1 & Htr).
    destruct (IH w1) as (w' & Hrun & Hth' & Hq' & Hl' & Htr'); try done.
    { by rewrite Hl1. }
    { intros c' Hc'. rewrite Hw1 by (intros ->; done). apply Hwire. by right. }
    { lia. }
    exists w'. split.
    { unfold listen_for_new_instances in *. simpl length.
      change (while_True (S (S (length rest))) (listen_iteration p) w)
        with (match listen_iteration p w with
              | (Ret Continue, w') => while_True (S (length rest)) (listen_iteration p) w'
              | (Ret Break, w') => Some (Ret tt, w')
              | (Raise e, w') => Some (Raise e, w')
              | (Blocked, w') => Some (Blocked, w')
              end).
      by rewrite Hit. }
    split_and!; try congruence.
    rewrite Hth', Hth, <- app_assoc. f_equal.
    assert (payload w c = take 1024 data) as Hpay
      by (unfold payload, bytes in *; by rewrite Hw).
    rewrite filter_cons, Hpay.
    assert (filter (fun c0 => payload w1 c0 = SHOW) rest
            = filter (fun c0 => payload w c0 = SHOW) rest) as ->.
    { apply filter_ext_in. intros c' Hc'.
      rewrite (payload_eq w w1 c'); [done |]. apply Hw1. by intros ->. }
    destruct (decide (take 1024 data = SHOW)) as [Hs | Hs].
    + by rewrite bool_decide_eq_true_2, decide_True.
    + by rewrite bool_decide_eq_false_2, decide_False.
Qed.

(** X13. The listener serves every connection that waits in its queue, in
    order: it starts one thread on [show_calendar] for each that brought
    exactly the bytes SHOW and none for the others, and then waits for the
    next connection. *)
Theorem listener_serves_queue p l n (q : list conn) w :
  w.(faults) = [] -> w.(LOCK_SOCKET) !! p = Some l ->
  w.(backlog) !! l = Some (n, q) -> NoDup q ->
  (forall c, c ∈ q -> exists data eof, w.(wire) !! c = Some (data, eof) /\ data <> []) ->
  (l < w.(next_sock))%nat ->
  exists w',
    listen_for_new_instances (S (length q)) p w = Some (Blocked, w')
    /\ default [] (w'.(threads) !! p)
       = default [] (w.(threads) !! p)
         ++ replicate (length (filter (fun c => payload w c = SHOW) q)) T_show_calendar
    /\ pending p w' = []
    /\ w'.(tray) = w.(tray).
Proof.
  intros Hc Hl Hq Hnd Hwire Hlt.
  destruct (listener_queue p l n q w Hc Hl Hq Hnd Hwire Hlt)
    as (w' & Hrun & Hth & Hq' & Hl' & Htr).
  exists w'. split_and!; try done.
  - rewrite Hth. f_equal. generalize (filter (fun c => payload w c = SHOW) q).
    intros cs. induction cs as [| c cs IH]; [done |]. rewrite fmap_cons. simpl.
    by f_equal.
  - unfold pending. by rewrite Hl', Hl, Hq'.
Qed.


Lemma listener_serves_queue_witness :
  exists w',
    listen_for_new_instances 3 1%nat two_waiting = Some (Blocked, w')
    /\ default [] (w'.(threads) !! 1%nat) = [T_show_calendar]
    /\ pending 1%nat w' = [].
Proof.
  destruct (listener_serves_queue 1%nat 0%nat 1 [0%nat; 1%nat] two_waiting eq_refl)
    as (w' & Hrun & Hth & Hp & _).
  - reflexivity.
  - reflexivity.
  - apply NoDup_cons. split; [by intros ?%list_elem_of_singleton |].
    apply NoDup_singleton.
  - intros c [-> | [-> | []%elem_of_nil]%elem_of_cons]%elem_of_cons.
    + exists SHOW, true. by split.
    + exists ["P"; "I"; "N"; "G"]%byte, true. by split.
  - simpl. lia.
  - exists w'. split; [exact Hrun |]. split; [exact Hth | exact Hp].
Defined.

(** ** One launch after the other *)

(** X14. A launch that finds the address free becomes the active instance:
    it holds the lock, has its release registered for the exit, shows the
    week of the day on the icon and stays in the event loop; from then on a
    launch of any other process exits with status 0 and leaves the icon
    alone. *)
Theorem first_launch w p :
  w.(bound) !! LOCK_ADDR = None -> w.(faults) = [] ->
  exists w1 i,
    run p w = (Blocked, w1)
    /\ holds_lock p w1
    /\ w1.(tray) !! p = Some i /\ displays i (current_cw w.(today))
    /\ w1.(atexit) !! p
       = Some (default [] (w.(atexit) !! p) ++ [H_release_single_instance_lock])
    /\ forall q, q <> p ->
         exists w2,
           run q w1 = (Raise (SystemExit 0), w2)
           /\ w2.(tray) = w1.(tray) /\ w2.(threads) = w1.(threads).
Proof.
  intros Hfree Hcalm.
  destruct (acquire_free w p Hfree Hcalm) as (w0 & Hacq & Hl0 & Hb0 & Hc0).
  destruct (run_icon w p w0 Hacq) as (w1 & Hrun & Hi & Hto & Hl1 & Hb1 & Hf1 & Hae).
  eexists w1, _. split; [exact Hrun |].
  assert (holds_lock p w1) as Hheld.
  { exists w.(next_sock). by rewrite Hl1, Hb1. }
  split_and!; try done.
  intros q Hq.
  destruct (acquire_cases q w1) as [(w2 & _ & Hfree1 & _) | (w2 & Hacq2 & Hl2 & Hb2 & _)].
  { rewrite Hb1, Hb0 in Hfree1. done. }
  destruct (run_redundant w1 q w2 Hacq2) as (w3 & Hrun3 & _ & Htr3 & Hth3 & _).
  by exists w3.
Qed.

Lemma first_launch_witness :
  exists w1 w2 i,
    run 1%nat (boot (mkdate 2026 11 3)) = (Blocked, w1)
    /\ w1.(tray) !! 1%nat = Some i /\ displays i 45
    /\ run 2%nat w1 = (Raise (SystemExit 0), w2).
Proof.
  destruct (first_launch (boot (mkdate 2026 11 3)) 1%nat eq_refl eq_refl)
    as (w1 & i & Hrun & _ & Hi & Hd & _ & Hnext).
  destruct (Hnext 2%nat ltac:(lia)) as (w2 & Hrun2 & _).
  exists w1, w2, i. split; [exact Hrun |]. split; [exact Hi |]. split; [exact Hd | exact Hrun2].
Defined.









End LaunchFacts.

(** * More facts about the calendar window *)

Section WindowLifeFacts.

Import CalendarWindow.

(** A request made while no window is open, run with nothing in between. *)
Lemma show_calendar_first g t :
  g.(pcs) !! t = Some at_check -> g.(window_lock) = None ->
  g.(calendar_window) = None ->
  let g' := run_thread 5 t g in
  g'.(pcs) !! t = Some (in_mainloop g.(next_root))
  /\ g'.(alive) = g.(alive) ++ [g.(next_root)]
  /\ g'.(calendar_window) = Some g.(next_root)
  /\ g'.(next_root) = S g.(next_root)
  /\ g'.(window_lock) = None.
Proof.
  intros Ht Hlock Hwin. destruct g as [cw wl al nr li ps]. simpl in *. subst wl cw.
  assert (Hlen : (t < length ps)%nat) by (by eapply lookup_lt_Some).
  assert (Hins : forall (k : pc) (ps' : list pc),
            length ps' = length ps -> <[t := k]> ps' !! t = Some k).
  { intros k ps' Hl. apply list_lookup_insert_eq. by rewrite Hl. }
  unfold step, lock, goto, unlock, Tk, assign_calendar_window. simpl.
  rewrite Ht. simpl. rewrite Hins by done. simpl.
  rewrite Hins by (by rewrite length_insert). simpl.
  rewrite Hins by (by rewrite !length_insert). simpl.
  rewrite Hins by (by rewrite !length_insert). simpl.
  split_and!; try done. apply Hins. by rewrite !length_insert.
Qed.

(** X16. A request made while no window is open, or while the handle still
    names a window that was destroyed (the TclError branch), run with nothing
    in between: one new root is created, the handle names it, and the thread
    stays in the main loop of the new window with the lock given back. *)
Theorem show_calendar_creates g t :
  g.(pcs) !! t = Some at_check -> g.(window_lock) = None ->
  (g.(calendar_window) = None
   \/ exists r, g.(calendar_window) = Some r /\ r ∉ g.(alive)) ->
  let g' := run_thread 5 t g in
  g'.(pcs) !! t = Some (in_mainloop g.(next_root))
  /\ g'.(alive) = g.(alive) ++ [g.(next_root)]
  /\ g'.(calendar_window) = Some g.(next_root)
  /\ g'.(next_root) = S g.(next_root)
  /\ g'.(window_lock) = None.
Proof.
  intros Ht Hlock [Hwin | (r & Hwin & Hr)]; [by apply show_calendar_first |].
  destruct g as [cw wl al nr li ps]. simpl in *. subst wl cw.
  assert (Hlen : (t < length ps)%nat) by (by eapply lookup_lt_Some).
  assert (Hins : forall (k : pc) (ps' : list pc),
            length ps' = length ps -> <[t := k]> ps' !! t = Some k).
  { intros k ps' Hl. apply list_lookup_insert_eq. by rewrite Hl. }
  unfold step, lock, goto, unlock, Tk, assign_calendar_window, lift_and_focus. simpl.
  rewrite Ht. simpl. rewrite Hins by done. simpl.
  rewrite bool_decide_eq_false_2 by done. simpl.
  rewrite Hins by (by rewrite length_insert). simpl.
  rewrite Hins by (by rewrite !length_insert). simpl.
  rewrite Hins by (by rewrite !length_insert). simpl.
  split_and!; try done. apply Hins. by rewrite !length_insert.
Qed.

Lemma show_calendar_creates_witness :
  (run_thread 5 1%nat (mkGui (Some 0%nat) None [] 1%nat [] [returned; at_check])).(pcs)
    !! 1%nat = Some (in_mainloop 1%nat)
  /\ (run_thread 5 1%nat (mkGui (Some 0%nat) None [] 1%nat [] [returned; at_check])).(alive)
     = [1%nat]
  /\ (run_thread 5 1%nat
        (mkGui (Some 0%nat) None [] 1%nat [] [returned; at_check])).(calendar_window)
     = Some 1%nat.
Proof.
  destruct (show_calendar_creates (mkGui (Some 0%nat) None [] 1%nat [] [returned; at_check])
              1%nat eq_refl eq_refl) as (Hp & Ha & Hc & _).
  { right. exists 0%nat. split; [done |]. apply not_elem_of_nil. }
  split; [exact Hp |]. split; [exact Ha | exact Hc].
Defined.

(** X17. Closing the window: [on_close] clears the handle under the lock and
    then destroys the root of its own window, whichever window the handle
    named; a request made afterwards opens a new window. *)
Theorem on_close_then_reopen g t r :
  g.(pcs) !! t = Some (in_mainloop r) -> g.(window_lock) = None ->
  exists g1 g2,
    exec [Close t; Step t; Step t; Step t] g = Some g1
    /\ g1.(pcs) !! t = Some returned
    /\ g1.(calendar_window) = None
    /\ g1.(alive) = filter (fun r' => r' ≠ r) g.(alive)
    /\ g1.(window_lock) = None
    /\ handle Open g1 = Some g2
    /\ let g3 := run_thread 5 (length g.(pcs)) g2 in
       g3.(pcs) !! length g.(pcs) = Some (in_mainloop g.(next_root))
       /\ g3.(calendar_window) = Some g.(next_root)
       /\ g3.(alive) = filter (fun r' => r' ≠ r) g.(alive) ++ [g.(next_root)].
Proof.
  intros Ht Hlock. destruct g as [cw wl al nr li ps]. simpl in *. subst wl.
  assert (Hlen : (t < length ps)%nat) by (by eapply lookup_lt_Some).
  assert (Hins : forall (k : pc) (ps' : list pc),
            length ps' = length ps -> <[t := k]> ps' !! t = Some k).
  { intros k ps' Hl. apply list_lookup_insert_eq. by rewrite Hl. }
  eexists _, _. split.
  { unfold step, lock, goto, unlock, destroy, assign_calendar_window. simpl.
    rewrite Ht. simpl. rewrite Hins by done. simpl.
    rewrite Hins by (by rewrite length_insert). simpl.
    rewrite Hins by (by rewrite !length_insert). simpl. reflexivity. }
  simpl. split; [apply Hins; by rewrite !length_insert |].
  do 4 (split; [done |]).
  set (ps1 := <[t:=returned]> _).
  assert (Hl1 : length ps1 = length ps) by (unfold ps1; by rewrite !length_insert).
  pose proof (show_calendar_first
                (mkGui None None (filter (fun r' => r' ≠ r) al) nr li (ps1 ++ [at_check]))
                (length ps)) as Hopen.
  simpl in Hopen. destruct Hopen as (H1 & H2 & H3 & _); [| done | done |].
  { rewrite lookup_app_r by (by rewrite Hl1). by rewrite Hl1, Nat.sub_diag. }
  done.
Qed.

Lemma on_close_then_reopen_witness :
  exists g1 g2,
    exec [Close 0%nat; Step 0%nat; Step 0%nat; Step 0%nat]
      (mkGui (Some 0%nat) None [0%nat] 1%nat [] [in_mainloop 0%nat]) = Some g1
    /\ g1.(calendar_window) = None /\ g1.(alive) = []
    /\ handle Open g1 = Some g2
    /\ (run_thread 5 1%nat g2).(alive) = [1%nat].
Proof.
  destruct (on_close_then_reopen
              (mkGui (Some 0%nat) None [0%nat] 1%nat [] [in_mainloop 0%nat])
              0%nat 0%nat eq_refl eq_refl)
    as (g1 & g2 & Hex & _ & Hcw & Hal & _ & Hop & _ & _ & Hal3).
  exists g1, g2. split; [exact Hex |]. split; [exact Hcw |].
  split; [exact Hal |]. split; [exact Hop | exact Hal3].
Defined.

End WindowLifeFacts.

(** * Facts about what the tray shows *)

Section IconFacts.

Local Ltac zdiv := Z.to_euclidean_division_equations; lia.

(** The week number of a date lies between 1 and 53. *)
Lemma current_cw_range d : valid_date d = true -> 1 <= current_cw d <= 53.
Proof.
  intros Hv. pose proof (ord_in_year d Hv) as Hin.
  unfold current_cw, isocalendar. fold (toordinal d). rewrite !isoweek1monday_spec.
  set (y := d.(_year)) in *. set (n := toordinal d) in *.
  pose proof (week1_start_bounds y) as [B0 W0].
  pose proof (week1_start_bounds (y + 1)) as [B1 W1].
  pose proof (week1_start_bounds (y - 1)) as [Bp Wp].
  pose proof (new_year_succ y) as L0.
  pose proof (new_year_succ (y - 1)) as Lp. replace (y - 1 + 1) with y in Lp by lia.
  destruct (iso_arith n _ _ _ _ _ _ Hin L0 Lp B0 W0 B1 W1 Bp Wp) as (Hneg & Hnext & Hsame).
  destruct (Z.ltb_spec ((n - week1_start y) / 7) 0) as [Hlt | Hge]; simpl.
  - destruct (Hneg Hlt) as (? & _). lia.
  - destruct (Z.leb_spec 52 ((n - week1_start y) / 7)) as [H52 | H52].
    + destruct (Z.leb_spec (week1_start (y + 1)) n) as [Hn | Hn]; simpl; [lia |].
      destruct (Hsame Hge Hn) as (? & _). lia.
    + simpl. lia.
Qed.

(** The first digit of a positive number is not 0. *)
Lemma pretty_N_go_head (x : N) s :
  (0 < x)%N -> exists c t, pretty_N_go x s = String c t /\ c <> "0"%char.
Proof.
  revert s. induction (N.lt_wf_0 x) as [x _ IH]; intros s Hx.
  rewrite pretty_N_go_step by done.
  assert (x < 10 \/ 10 <= x)%N as [Hlt | Hge] by lia.
  - rewrite N.div_small by done. rewrite pretty_N_go_0, N.mod_small by done.
    eexists _, _. split; [done |].
    assert (x = 1 \/ x = 2 \/ x = 3 \/ x = 4 \/ x = 5 \/ x = 6 \/ x = 7 \/ x = 8 \/ x = 9)%N
      as Hc by lia.
    by repeat (destruct Hc as [-> | Hc]); try subst x.
  - apply IH; [apply N.div_lt; lia |]. apply N.div_str_pos. lia.
Qed.

Lemma pretty_digit cw : 0 <= cw < 10 -> exists c, pretty cw = String c EmptyString.
Proof.
  intros H.
  assert (cw = 0 \/ cw = 1 \/ cw = 2 \/ cw = 3 \/ cw = 4 \/ cw = 5 \/ cw = 6
          \/ cw = 7 \/ cw = 8 \/ cw = 9) as Hc by lia.
  repeat (destruct Hc as [-> | Hc]); try subst cw; by eexists.
Qed.

(** [f"{cw:02d}"] tells the numbers apart. *)
Lemma format_02d_inj cw cw' : format_02d cw = format_02d cw' -> cw = cw'.
Proof.
  assert (Hmixed : forall a b, 0 <= a < 10 -> ~ 0 <= b < 10 ->
            "0" +:+ pretty a <> pretty b).
  { intros a b Ha Hb Heq. destruct (pretty_digit a Ha) as (c & Hc). rewrite Hc in Heq.
    destruct b as [| y | y]; [lia | |].
    - unfold pretty, pretty_Z, pretty, pretty_positive, pretty, pretty_N in Heq.
      rewrite decide_False in Heq by done.
      destruct (pretty_N_go_head (N.pos y) EmptyString) as (c' & t & Hgo & Hne); [lia |].
      rewrite Hgo in Heq. by injection Heq as <-.
    - done. }
  unfold format_02d.
  destruct ((0 <=? cw) && (cw <? 10)) eqn:Ha, ((0 <=? cw') && (cw' <? 10)) eqn:Hb.
  - intros [= H]. by apply (inj pretty).
  - intros H. exfalso. apply (Hmixed cw cw'); [lia | lia | done].
  - intros H. exfalso. apply (Hmixed cw' cw); [lia | lia | done].
  - apply (inj pretty).
Qed.

Lemma format_02d_length cw : 0 <= cw <= 99 -> String.length (format_02d cw) = 2%nat.
Proof.
  intros H.
  assert (Hall : forallb (fun cw => Nat.eqb (String.length (format_02d cw)) 2)
                   (seqZ 0 100) = true) by (vm_compute; reflexivity).
  rewrite forallb_forall in Hall. apply Nat.eqb_eq, Hall.
  apply list_elem_of_In, elem_of_seqZ. lia.
Qed.

(** X20. What the tray shows tells the week: an icon shows one week number
    only, the text drawn on it for the week of a date has exactly two
    characters, and the title seven. *)
Theorem week_on_display :
  (forall i cw cw', displays i cw -> displays i cw' -> cw = cw')
  /\ (forall cw cw', create_icon cw = create_icon cw' -> cw = cw')
  /\ (forall d, valid_date d = true ->
        String.length (create_icon (current_cw d)).(img_text) = 2%nat
        /\ String.length ("Week " +:+ format_02d (current_cw d)) = 7%nat).
Proof.
  assert (Hicon : forall cw cw', create_icon cw = create_icon cw' -> cw = cw').
  { intros cw cw'. unfold create_icon. intros [= H]. by apply format_02d_inj. }
  split_and!; [| done |].
  - intros i cw cw' [Hi _] [Hi' _]. apply Hicon. congruence.
  - intros d Hv. pose proof (current_cw_range d Hv) as Hr.
    pose proof (format_02d_length (current_cw d) ltac:(lia)) as Hlen.
    split; [done |].
    change ("Week " +:+ ?s) with (String "W" (String "e" (String "e" (String "k" (String " " s))))).
    simpl. by rewrite Hlen.
Qed.

End IconFacts.
